(** * pandas_checks: a shallow embedding of the check-dispatch core

    Python [str] values are sequences of Unicode code points and are
    modelled as [list N]; Python floats are modelled by [pyfloat], exact
    rationals plus the IEEE not-a-number value with Python's comparison
    semantics (every comparison with nan is False, [nan == nan] is False).
    Effectful code runs in a state-and-exception monad [M] over [state]:
    the Python heap of pandas objects, the pandas option registry, the
    output channels, the files written, the clock and the environment. *)

From Stdlib Require Import QArith ZArith String Ascii List Bool Lia Lqa.
From stdpp Require Import base gmap strings list.
Import ListNotations.
Open Scope list_scope.
Set Warnings "-register-all".


(* ------------------------------------------------------------------ *)
(** ** Python strings *)

Definition pystr := list N.

(** An ASCII literal as a Python string. *)
Definition s (x : string) : pystr :=
  map (fun c => N_of_ascii c) (list_ascii_of_string x).

Definition py_truthy_str (t : pystr) : bool :=
  match t with [] => false | _ => true end.

Fixpoint startswith (t p : pystr) : bool :=
  match p, t with
  | [], _ => true
  | c :: p', d :: t' => N.eqb c d && startswith t' p'
  | _ :: _, [] => false
  end.

Definition endswith (t p : pystr) : bool := startswith (rev t) (rev p).

(** [str.replace(old, new)]: left-to-right, non-overlapping occurrences of a
    non-empty [old]. *)
Fixpoint replace_fuel (fuel : nat) (old new t : pystr) : pystr :=
  match fuel with
  | O => t
  | S f =>
      match t with
      | [] => []
      | c :: t' =>
          if startswith t old
          then new ++ replace_fuel f old new (drop (length old) t)
          else c :: replace_fuel f old new t'
      end
  end.

Definition replace (t old new : pystr) : pystr :=
  replace_fuel (length t) old new t.

(** Python's [str.isspace] on a code point (the ASCII and common Unicode
    white-space characters). *)
Definition is_space (c : N) : bool :=
  match c with
  | 9%N | 10%N | 11%N | 12%N | 13%N | 28%N | 29%N | 30%N | 31%N | 32%N
  | 133%N | 160%N | 5760%N | 8232%N | 8233%N | 8239%N | 8287%N | 12288%N => true
  | _ => ((8192 <=? c) && (c <=? 8202))%N
  end.

Fixpoint lstrip_ws (t : pystr) : pystr :=
  match t with
  | c :: t' => if is_space c then lstrip_ws t' else t
  | [] => []
  end.

Definition rstrip_ws (t : pystr) : pystr := rev (lstrip_ws (rev t)).

(** [str.strip()] *)
Definition strip (t : pystr) : pystr := rstrip_ws (lstrip_ws t).

(** [str.rstrip(chars)] *)
Definition rstrip_chars (chars t : pystr) : pystr :=
  rev ((fix go (u : pystr) : pystr :=
          match u with
          | c :: u' => if existsb (N.eqb c) chars then go u' else u
          | [] => []
          end) (rev t)).

(** [str.lower()] on ASCII letters. *)
Definition lower (t : pystr) : pystr :=
  map (fun c => if ((65 <=? c) && (c <=? 90))%N then (c + 32)%N else c) t.

Definition join (sep : pystr) (l : list pystr) : pystr :=
  match l with
  | [] => []
  | x :: r => x ++ concat (map (fun y => sep ++ y) r)
  end.

(** Decimal rendering of an integer, as Python's [str(int)]. *)
Fixpoint digits_fuel (fuel : nat) (n : N) (acc : pystr) : pystr :=
  match fuel with
  | O => acc
  | S f =>
      let d := (48 + N.modulo n 10)%N in
      if (n <? 10)%N then d :: acc else digits_fuel f (N.div n 10) (d :: acc)
  end.

Definition str_N (n : N) : pystr := digits_fuel (S (N.to_nat (N.log2 n))) n [].

Definition str_Z (z : Z) : pystr :=
  match z with
  | Zneg p => 45%N :: str_N (Npos p)
  | _ => str_N (Z.to_N z)
  end.

(* ------------------------------------------------------------------ *)
(** ** Python floats *)

Inductive pyfloat := PFin (q : Q) | PNaN.

Definition qlt (a b : Q) : bool := negb (Qle_bool b a).

(** [x > y], [x >= y], [x == y] *)
Definition py_gt (x y : pyfloat) : bool :=
  match x, y with PFin a, PFin b => qlt b a | _, _ => false end.
Definition py_ge (x y : pyfloat) : bool :=
  match x, y with PFin a, PFin b => Qle_bool b a | _, _ => false end.
Definition py_feq (x y : pyfloat) : bool :=
  match x, y with PFin a, PFin b => Qeq_bool a b | _, _ => false end.

Definition py_fsub (x y : pyfloat) : pyfloat :=
  match x, y with PFin a, PFin b => PFin (a - b) | _, _ => PNaN end.
Definition py_fmul (x : pyfloat) (k : Q) : pyfloat :=
  match x with PFin a => PFin (a * k) | PNaN => PNaN end.
Definition py_fdiv (x : pyfloat) (k : Q) : pyfloat :=
  match x with PFin a => PFin (a / k) | PNaN => PNaN end.

(** [np.nan] *)
Definition np_nan : pyfloat := PNaN.

(* ------------------------------------------------------------------ *)
(** ** Python values, pandas objects and the interpreter state *)

(** A cell of a pandas object: a number, a missing value or a text. *)
Inductive cell := CNum (q : Q) | CNaN | CText (t : pystr).

(** The content of a pandas object. *)
Inductive table :=
  | DataFrame (cols : list (pystr * list cell))
  | Series (name : option pystr) (vals : list cell).

(** Python values.  [VRef l] is a reference to the mutable pandas object
    stored at heap location [l]; [VTable t] is a freshly built pandas object
    that nothing else references. *)
Inductive pyval :=
  | VNone
  | VBool (b : bool)
  | VInt (z : Z)
  | VFloat (f : pyfloat)
  | VStr (t : pystr)
  | VList (l : list pyval)
  | VDict (kv : list (pystr * pyval))
  | VTable (t : table)
  | VRef (l : N).

Inductive exn_kind :=
  | TypeError | ValueError | AttributeError | KeyError | OptionError
  | DataError | OtherError (n : N).

Inductive exn := Exn (k : exn_kind) (msg : pystr).

Inductive res (A : Type) := Ok (a : A) | Err (e : exn).
Arguments Ok {A} a.
Arguments Err {A} e.

(** Values of the pandas options registered by pandas_checks. *)
Inductive optval :=
  | OBool (b : bool) | OInt (z : Z) | OStr (t : pystr)
  | OHoverStyle (selector : pystr) (props : list (pystr * pystr))
  | ONone
  | OFn (id : N).

(** A registered pandas option: its default, its current value and its
    validator. *)
Record entry := { e_default : optval; e_value : optval; e_valid : optval -> bool }.

Inductive rich := Markdown (t : pystr) | HTML (t : pystr).

Inductive printable := PText (t : pystr) | PRich (r : rich).

(** Observable effects: standard output, IPython [display], calls of the
    custom print function, files written by an export function, and
    matplotlib figures drawn. *)
Inductive event :=
  | Stdout (t : pystr)
  | Display (r : rich)
  | CustomPrint (fn : N) (p : printable)
  | FileWritten (path : pystr) (writer : pystr)
  | Drawn (what : pystr).

Record state := {
  heap : gmap N table;
  opts : gmap pystr entry;
  out : list event;
  clock : Q;             (* the value [time.time()] returns *)
  terminal : bool;       (* [pd.core.config_init.is_terminal()] *)
  colour : bool          (* termcolor may emit ANSI codes *)
}.

Definition set_heap (h : gmap N table) (st : state) : state :=
  {| heap := h; opts := opts st; out := out st; clock := clock st;
     terminal := terminal st; colour := colour st |}.
Definition set_opts (o : gmap pystr entry) (st : state) : state :=
  {| heap := heap st; opts := o; out := out st; clock := clock st;
     terminal := terminal st; colour := colour st |}.
Definition set_out (e : list event) (st : state) : state :=
  {| heap := heap st; opts := opts st; out := e; clock := clock st;
     terminal := terminal st; colour := colour st |}.

(** The state-and-exception monad.  An exception keeps the state reached
    when it was raised: what was printed or written before it stays. *)
Definition M (A : Type) := state -> res A * state.

Definition ret {A} (a : A) : M A := fun st => (Ok a, st).
Definition bind {A B} (m : M A) (k : A -> M B) : M B :=
  fun st => match m st with (Ok a, st') => k a st' | (Err e, st') => (Err e, st') end.
Definition raise {A} (k : exn_kind) (msg : pystr) : M A :=
  fun st => (Err (Exn k msg), st).

Notation "'let*' x ':=' m 'in' k" := (bind m (fun x => k))
  (at level 200, x name, m at level 100, k at level 200).
Notation "m ;; k" := (bind m (fun _ => k)) (at level 100, right associativity).

Definition read {A} (f : state -> A) : M A := fun st => (Ok (f st), st).
Definition modify (f : state -> state) : M unit := fun st => (Ok tt, f st).
Definition emit (e : event) : M unit := modify (fun st => set_out (out st ++ [e]) st).

(** A Python callable that receives one argument. *)
Definition pyfn := pyval -> M pyval.

(* ------------------------------------------------------------------ *)
(** ** The pandas option registry ([pandas._config.config]) *)

(** [re.search(pat, key)] for the option names used here (letters, digits,
    dots and underscores): [pat] occurs in [key]. *)
Fixpoint str_contains (pat key : pystr) : bool :=
  match key with
  | [] => match pat with [] => true | _ => false end
  | _ :: key' => startswith key pat || str_contains pat key'
  end.

(** [_select_options(pat)]: the key itself when registered, otherwise the
    registered keys the pattern occurs in. *)
Definition select_options (pat : pystr) (o : gmap pystr entry) : list pystr :=
  match o !! pat with
  | Some _ => [pat]
  | None => filter (fun k => str_contains pat k = true) (map fst (map_to_list o))
  end.

(** [_get_single_key(pat)] *)
Definition single_key (pat : pystr) : M pystr :=
  let* o := read opts in
  match select_options pat o with
  | [k] => ret k
  | [] => raise OptionError (s "No such keys(s)")
  | _ => raise OptionError (s "Pattern matched multiple keys")
  end.

(** [pd.get_option(pat)] *)
Definition get_option (pat : pystr) : M optval :=
  let* k := single_key pat in
  let* o := read opts in
  match o !! k with
  | Some e => ret (e_value e)
  | None => raise OptionError (s "No such keys(s)")
  end.

(** [pd.set_option(pat, value)]: validates with the registered validator. *)
Definition set_option (pat : pystr) (v : optval) : M unit :=
  let* k := single_key pat in
  let* o := read opts in
  match o !! k with
  | Some e =>
      if e_valid e v
      then modify (set_opts (<[k := {| e_default := e_default e; e_value := v;
                                        e_valid := e_valid e |}]> o))
      else raise ValueError (s "Value does not pass the validator")
  | None => raise OptionError (s "No such keys(s)")
  end.

(** [cf.register_option(key, defval, doc, validator)] *)
Definition register_option (key : pystr) (d : optval) (valid : optval -> bool) : M unit :=
  let* o := read opts in
  match o !! key with
  | Some _ => raise OptionError (s "Option already registered")
  | None =>
      if valid d
      then modify (set_opts (<[key := {| e_default := d; e_value := d; e_valid := valid |}]> o))
      else raise ValueError (s "Value does not pass the validator")
  end.

(** [try: m except OptionError: h] *)
Definition catch_option_error {A} (m : M A) (h : M A) : M A :=
  fun st => match m st with
            | (Err (Exn OptionError _), st') => h st'
            | r => r
            end.

(* ------------------------------------------------------------------ *)
(** ** options.py *)

Module Options.

(** pandas validators.  A pandas validator rejects a value by raising;
    [_is_callable] returns False instead of raising, so it never rejects. *)
Definition is_nonnegative_int (v : optval) : bool :=
  match v with ONone => true | OInt z => (0 <=? z)%Z | OBool _ => true | _ => false end.
Definition is_bool (v : optval) : bool :=
  match v with OBool _ => true | _ => false end.
Definition is_int (v : optval) : bool :=
  match v with OInt _ | OBool _ => true | _ => false end.
Definition is_str (v : optval) : bool :=
  match v with OStr _ => true | _ => false end.
Definition is_dict (v : optval) : bool :=
  match v with OHoverStyle _ _ => true | _ => false end.
Definition _is_callable_validator (v : optval) : bool := true.

Definition pdchecks_prefix : pystr := s "pdchecks.".

(** [_set_option(option, value)] *)
Definition _set_option (option : pystr) (value : optval) : M unit :=
  let pdchecks_option :=
    if startswith option pdchecks_prefix then option else pdchecks_prefix ++ option in
  let* keys := read (fun st => select_options (s "pdchecks") (opts st)) in
  if existsb (fun k => bool_decide (k = pdchecks_option)) keys
  then set_option pdchecks_option value
  else raise AttributeError (s "No Pandas Checks option for " ++ pdchecks_option).

(** [_register_option(name, default_value, description, validator)] *)
Definition _register_option (name : pystr) (default_value : optval)
    (validator : optval -> bool) : M unit :=
  let key_name :=
    if str_contains pdchecks_prefix name then replace name pdchecks_prefix [] else name in
  catch_option_error
    (get_option (pdchecks_prefix ++ key_name) ;;
     set_option (pdchecks_prefix ++ key_name) default_value)
    (register_option (pdchecks_prefix ++ key_name) default_value validator).

(** The formatting options, their defaults and validators, in the order
    [_initialize_format_options] registers them. *)
Definition format_options : list (pystr * optval * (optval -> bool)) :=
  [ (s "precision", OInt 2, is_nonnegative_int);
    (s "table_row_hover_style",
       OHoverStyle (s "tr:hover") [(s "background-color", s "#2986cc")], is_dict);
    (s "use_emojis", OBool true, is_bool);
    (s "indent_table_terminal", OInt 4, is_int);
    (s "indent_table_plot_ipython", OInt 30, is_int);
    (s "check_text_tag", OStr (s "h5"), is_str);
    (s "table_title_tag", OStr (s "h5"), is_str);
    (s "plot_title_tag", OStr (s "h5"), is_str);
    (s "fail_message_fg_color", OStr (s "white"), is_str);
    (s "fail_message_bg_color", OStr (s "red"), is_str);
    (s "pass_message_fg_color", OStr (s "black"), is_str);
    (s "pass_message_bg_color", OStr (s "green"), is_str) ].

Fixpoint seq_ (l : list (M unit)) : M unit :=
  match l with [] => ret tt | m :: l' => m ;; seq_ l' end.

(** [_initialize_format_options(options)] *)
Definition _initialize_format_options (options : option (list pystr)) : M unit :=
  let option_keys :=
    match options with
    | Some (_ :: _ as o) => map (fun x => replace x pdchecks_prefix []) o
    | _ => []
    end in
  let is_none := match options with None => true | Some _ => false end in
  seq_ (map (fun '(name, d, v) =>
               if existsb (fun k => bool_decide (k = name)) option_keys || is_none
               then _register_option name d v else ret tt) format_options).

(** [set_format(kwargs)] *)
Definition set_format (kwargs : list (pystr * optval)) : M unit :=
  seq_ (map (fun '(arg, value) => _set_option arg value) kwargs).

(** [reset_format()] *)
Definition reset_format : M unit := _initialize_format_options None.

(** [_initialize_options()] *)
Definition _initialize_options : M unit :=
  _register_option (s "enable_checks") (OBool true) is_bool ;;
  _register_option (s "enable_asserts") (OBool true) is_bool ;;
  _register_option (s "print_to_stdout") (OBool true) is_bool ;;
  _register_option (s "custom_print_fn") ONone _is_callable_validator ;;
  _initialize_format_options None.

Definition pyval_of_opt (v : optval) : pyval :=
  match v with
  | OBool b => VBool b | OInt z => VInt z | OStr t => VStr t
  | OHoverStyle sel props =>
      VDict [(s "selector", VStr sel);
             (s "props", VList (map (fun '(a, b) => VList [VStr a; VStr b]) props))]
  | ONone => VNone
  | OFn _ => VNone
  end.

(** [get_mode()] *)
Definition get_mode : M pyval :=
  let* ec := get_option (s "pdchecks.enable_checks") in
  let* ea := get_option (s "pdchecks.enable_asserts") in
  ret (VDict [(s "enable_checks", pyval_of_opt ec); (s "enable_asserts", pyval_of_opt ea)]).

Definition opt_truthy (v : optval) : bool :=
  match v with
  | OBool b => b | OInt z => negb (Z.eqb z 0) | OStr t => py_truthy_str t
  | OHoverStyle _ _ => true | ONone => false | OFn _ => true
  end.

(** [get_mode()["enable_checks"]] and [get_mode()["enable_asserts"]] *)
Definition checks_enabled : M bool :=
  let* v := get_option (s "pdchecks.enable_checks") in ret (opt_truthy v).
Definition asserts_enabled : M bool :=
  let* v := get_option (s "pdchecks.enable_asserts") in ret (opt_truthy v).

(** [set_mode], [enable_checks], [disable_checks] *)
Definition set_mode (enable_checks enable_asserts : bool) : M unit :=
  _set_option (s "enable_checks") (OBool enable_checks) ;;
  _set_option (s "enable_asserts") (OBool enable_asserts).
Definition enable_checks (enable_asserts : bool) : M unit := set_mode true enable_asserts.
Definition disable_checks (enable_asserts : bool) : M unit := set_mode false enable_asserts.

(** [set_custom_print_fn(custom_print_fn, print_to_stdout=None)] *)
Definition set_custom_print_fn (custom_print_fn : optval) (print_to_stdout : option bool) : M unit :=
  _set_option (s "custom_print_fn") custom_print_fn ;;
  match print_to_stdout with
  | Some b => _set_option (s "print_to_stdout") (OBool b)
  | None => ret tt
  end.

End Options.

(* ------------------------------------------------------------------ *)
(** ** What pandas_checks uses from pandas and the other libraries

    pandas methods that do not mutate their object ([describe], [dtypes],
    [dropna], [head], ...) are [pd_call name args content]; rendering of
    floats and tables, the source text of a lambda, the emoji database and
    the dtype test [_is_type] are abstract as well. *)
Class Pandas := {
  pd_call : pystr -> list pyval -> table -> res pyval;
  float_repr : Q -> pystr;
  table_to_string : table -> pystr;
  styled_html : table -> optval -> optval -> pystr;
  figure_png : pystr;
  lambda_source : pyfn -> pystr;
  is_emoji : N -> bool;
  is_type : table -> pystr -> bool
}.

(* ------------------------------------------------------------------ *)
(** ** display.py *)

Module Display.
Section Display.
Context `{PD : Pandas}.

(** [repr] of a value nested in a list or dict. *)
Fixpoint py_repr (v : pyval) : pystr :=
  match v with
  | VNone => s "None"
  | VBool true => s "True"
  | VBool false => s "False"
  | VInt z => str_Z z
  | VFloat (PFin q) => float_repr q
  | VFloat PNaN => s "nan"
  | VStr t => [39%N] ++ t ++ [39%N]
  | VList l => s "[" ++ join (s ", ") (map py_repr l) ++ s "]"
  | VDict kv =>
      s "{" ++ join (s ", ") (map (fun '(k, x) => [39%N] ++ k ++ [39%N] ++ s ": " ++ py_repr x) kv)
      ++ s "}"
  | VTable t => table_to_string t
  | VRef _ => s "<pandas object>"
  end.

(** Dereference a pandas object. *)
Definition as_table (v : pyval) : M (option table) :=
  match v with
  | VTable t => ret (Some t)
  | VRef l => let* h := read heap in ret (h !! l)
  | _ => ret None
  end.

(** [str(v)], as an f-string formats [v]. *)
Definition py_str (v : pyval) : M pystr :=
  match v with
  | VStr t => ret t
  | VRef _ =>
      let* t := as_table v in
      ret (match t with Some t => table_to_string t | None => py_repr v end)
  | _ => ret (py_repr v)
  end.

(** [bool(v)]; pandas objects refuse to be truth-tested. *)
Definition py_truthy (v : pyval) : M bool :=
  match v with
  | VNone => ret false
  | VBool b => ret b
  | VInt z => ret (negb (Z.eqb z 0))
  | VFloat (PFin q) => ret (negb (Qeq_bool q 0))
  | VFloat PNaN => ret true
  | VStr t => ret (py_truthy_str t)
  | VList l => ret (match l with [] => false | _ => true end)
  | VDict l => ret (match l with [] => false | _ => true end)
  | VTable _ | VRef _ =>
      raise ValueError (s "The truth value of a DataFrame is ambiguous.")
  end.

Definition opt_str (o : option pystr) : pystr :=
  match o with Some t => t | None => s "None" end.
Definition opt_truthy_str (o : option pystr) : bool :=
  match o with Some t => py_truthy_str t | None => false end.

(** [emoji.replace_emoji(text, replace="")] *)
Definition replace_emoji (t : pystr) : pystr := filter (fun c => negb (is_emoji c)) t.

(** [_filter_emojis(text)] *)
Definition _filter_emojis (text : pyval) : M pyval :=
  let* keep := get_option (s "pdchecks.use_emojis") in
  if Options.opt_truthy keep then ret text
  else match text with
       | VStr t => ret (VStr (strip (replace_emoji t)))
       | _ => raise TypeError (s "expected string or bytes-like object")
       end.

Definition filter_str (t : pystr) : M pystr :=
  let* r := _filter_emojis (VStr t) in py_str r.

(** [_print_router(text, custom_print_fn_only, text_for_print_fn, bypass_print_fn)] *)
Definition _print_router (text : pystr) (custom_print_fn_only : bool)
    (text_for_print_fn : option pystr) (bypass_print_fn : bool) : M unit :=
  let* to_stdout := get_option (s "pdchecks.print_to_stdout") in
  (if Options.opt_truthy to_stdout && negb custom_print_fn_only then emit (Stdout text) else ret tt) ;;
  let* print_fn := get_option (s "pdchecks.custom_print_fn") in
  match print_fn with
  | OFn f =>
      if bypass_print_fn then ret tt
      else emit (CustomPrint f (PText (if opt_truthy_str text_for_print_fn
                                       then opt_str text_for_print_fn else text)))
  | _ => ret tt
  end.

(** [_display_router(data, data_for_print_fn, bypass_print_fn)] *)
Definition _display_router (data : rich) (data_for_print_fn : option pystr)
    (bypass_print_fn : bool) : M unit :=
  let* to_stdout := get_option (s "pdchecks.print_to_stdout") in
  (if Options.opt_truthy to_stdout then emit (Display data) else ret tt) ;;
  let* print_fn := get_option (s "pdchecks.custom_print_fn") in
  match print_fn with
  | OFn f =>
      if bypass_print_fn then ret tt
      else emit (CustomPrint f (if opt_truthy_str data_for_print_fn
                                then PText (opt_str data_for_print_fn) else PRich data))
  | _ => ret tt
  end.

(** termcolor's colour tables. *)
Definition COLORS (c : pystr) : option N :=
  if bool_decide (c = s "black") then Some 30%N
  else if bool_decide (c = s "grey") then Some 30%N
  else if bool_decide (c = s "red") then Some 31%N
  else if bool_decide (c = s "green") then Some 32%N
  else if bool_decide (c = s "yellow") then Some 33%N
  else if bool_decide (c = s "blue") then Some 34%N
  else if bool_decide (c = s "magenta") then Some 35%N
  else if bool_decide (c = s "cyan") then Some 36%N
  else if bool_decide (c = s "light_grey") then Some 37%N
  else if bool_decide (c = s "dark_grey") then Some 90%N
  else if bool_decide (c = s "white") then Some 97%N
  else None.

Definition HIGHLIGHTS (c : pystr) : option N :=
  if startswith c (s "on_") then
    match COLORS (drop 3 c) with Some n => Some (n + 10)%N | None => None end
  else None.

Definition ESC : N := 27%N.

(** [termcolor.colored(text, color, on_color)] *)
Definition colored (text : pystr) (color on_color : option pystr) : M pystr :=
  let* can := read colour in
  if negb can then ret text else
  let fmt (code : N) (r : pystr) := [ESC] ++ s "[" ++ str_N code ++ s "m" ++ r in
  let* r1 := match color with
             | None => ret text
             | Some c => match COLORS c with
                         | Some n => ret (fmt n text)
                         | None => raise KeyError c
                         end
             end in
  let* r2 := match on_color with
             | None => ret r1
             | Some c => match HIGHLIGHTS c with
                         | Some n => ret (fmt n r1)
                         | None => raise KeyError c
                         end
             end in
  ret (r2 ++ [ESC] ++ s "[0m").

(** [_format_background_color(color)] *)
Definition _format_background_color (color : option pystr) : option pystr :=
  match color with
  | None => None
  | Some c =>
      if negb (py_truthy_str c) then Some c
      else if negb (startswith c (s "on_")) then Some (s "on_" ++ c) else Some c
  end.

(** [_lead_in(lead_in, foreground, background)] *)
Definition _lead_in (lead_in : option pystr) (foreground background : option pystr) : M pystr :=
  if opt_truthy_str lead_in then
    let* fl := filter_str (opt_str lead_in) in
    ret (s "<span style='color:" ++ opt_str foreground ++ s "; background-color:"
         ++ opt_str background ++ s "'>" ++ strip fl ++ s "</span>:")
  else ret [].

(** The [colors] argument: a dict from colour roles to colour names. *)
Definition colors := list (pystr * pystr).

Definition dict_get (d : colors) (k : pystr) : option pystr :=
  match find (fun '(k', _) => bool_decide (k' = k)) d with
  | Some (_, v) => Some v
  | None => None
  end.

(** [x.replace("on_", "") if x else x] *)
Definition strip_on (x : option pystr) : option pystr :=
  match x with
  | Some c => if py_truthy_str c then Some (replace c (s "on_") []) else Some c
  | None => None
  end.

Definition opt_render (o : optval) : pystr :=
  match o with OStr t => t | _ => py_repr (Options.pyval_of_opt o) end.

(** [_render_text(text, tag, lead_in, colors, bypass_print_fn)] *)
Definition _render_text (text : pyval) (tag : optval) (lead_in : option pystr)
    (cols : colors) (bypass_print_fn : bool) : M unit :=
  let* nonempty := py_truthy text in
  if negb nonempty then ret tt else
  let* lead_part := if opt_truthy_str lead_in
                    then let* fl := filter_str (opt_str lead_in) in ret (fl ++ s ": ")
                    else ret [] in
  let* ft := _filter_emojis text in
  let* fts := py_str ft in
  let text_for_print_fn := rstrip_chars [10%N] (lead_part ++ fts) in
  let text_color := dict_get cols (s "text_color") in
  let text_background_color := strip_on (dict_get cols (s "text_background_color")) in
  let lead_in_text_color := dict_get cols (s "lead_in_text_color") in
  let lead_in_background_color := strip_on (dict_get cols (s "lead_in_background_color")) in
  let* term := read terminal in
  if term then
    let* lead_in_rendered :=
      if opt_truthy_str lead_in then
        let* fl := filter_str (opt_str lead_in) in
        let* c := colored fl text_color (_format_background_color lead_in_background_color) in
        ret (c ++ s ": ")
      else ret [] in
    _print_router [] false None true ;;
    let* ft2 := _filter_emojis text in
    let* fts2 := py_str ft2 in
    let* c := colored fts2 text_color (_format_background_color text_background_color) in
    _print_router (lead_in_rendered ++ c) false (Some text_for_print_fn) false
  else
    let* lead_in_rendered := _lead_in lead_in lead_in_text_color lead_in_background_color in
    let* ft2 := _filter_emojis text in
    let* fts2 := py_str ft2 in
    let tg := opt_render tag in
    _display_router
      (Markdown (s "<" ++ tg ++ s " style='text-align: left'>"
                 ++ (if py_truthy_str lead_in_rendered then lead_in_rendered ++ s " " else [])
                 ++ s "<span style='color:" ++ opt_str text_color ++ s "; background-color:"
                 ++ opt_str text_background_color ++ s "'>" ++ fts2 ++ s "</span></" ++ tg
                 ++ s ">"))
      (Some text_for_print_fn) bypass_print_fn.

(** [_display_line(line, lead_in, colors)] *)
Definition _display_line (line : pyval) (lead_in : option pystr) (cols : colors) : M unit :=
  let* tag := get_option (s "pdchecks.check_text_tag") in
  _render_text line tag lead_in cols false.

(** [_display_table_title(line)] and [_display_plot_title(line)]: the tag
    options are looked up without their prefix. *)
Definition _display_table_title (line : pyval) : M unit :=
  let* tag := get_option (s "table_title_tag") in
  _render_text line tag None [] true.
Definition _display_plot_title (line : pyval) : M unit :=
  let* tag := get_option (s "plot_title_tag") in
  _render_text line tag None [] true.

(** [textwrap.indent(text, prefix)]: the prefix goes before every line
    that is not white space only. *)
Fixpoint split_lines (t : pystr) (cur : pystr) : list pystr :=
  match t with
  | [] => match cur with [] => [] | _ => [rev cur] end
  | c :: t' => if N.eqb c 10 then rev (c :: cur) :: split_lines t' []
               else split_lines t' (c :: cur)
  end.
Definition textwrap_indent (text prefix : pystr) : pystr :=
  concat (map (fun ln => if forallb is_space ln then ln else prefix ++ ln)
              (split_lines text [])).

(** [_print_table(table, title, custom_print_fn_only)] *)
Definition _print_table (tb : table) (title : option pystr) (custom_print_fn_only : bool) : M unit :=
  let* indent := get_option (s "pdchecks.indent_table_terminal") in
  let prefix := match indent with
                | OInt z => repeat 32%N (Z.to_nat z)
                | OBool true => [32%N]
                | _ => []
                end in
  let table_as_str := textwrap_indent (table_to_string tb) prefix in
  let* table_as_str :=
    if opt_truthy_str title
    then let* ft := filter_str (opt_str title) in ret (ft ++ [10%N] ++ table_as_str)
    else ret table_as_str in
  _print_router table_as_str custom_print_fn_only None false.

(** [_render_html_with_indent(object_as_html)] *)
Definition _render_html_with_indent (object_as_html : pystr) : M unit :=
  let* indent := get_option (s "pdchecks.indent_table_plot_ipython") in
  _display_router
    (HTML (if Options.opt_truthy indent
           then s "<div style=" ++ [34%N] ++ s "margin-left: " ++ opt_render indent
                ++ s "px;" ++ [34%N] ++ s ">" ++ object_as_html ++ s "</div>"
           else object_as_html)) None true.

(** [_display_table(table, title)] *)
Definition _display_table (tb : table) (title : option pystr) : M unit :=
  (if opt_truthy_str title then _display_table_title (VStr (opt_str title)) else ret tt) ;;
  let table_to_display :=
    match tb with Series nm v => DataFrame [(opt_str nm, v)] | _ => tb end in
  let* hover := get_option (s "pdchecks.table_row_hover_style") in
  let* precision := get_option (s "pdchecks.precision") in
  _render_html_with_indent (styled_html table_to_display hover precision) ;;
  _print_table tb title true.

(** [_display_plot()] *)
Definition _display_plot : M unit :=
  let* term := read terminal in
  if term then ret tt else
  let* indent := get_option (s "pdchecks.indent_table_plot_ipython") in
  _display_router
    (HTML (s "<style>.indent-plot {display: flex; padding-left: " ++ opt_render indent
           ++ s "px;}</style><div class=" ++ [34%N] ++ s "indent-plot" ++ [34%N]
           ++ s "><img src=" ++ [34%N] ++ s "data:image/png;base64," ++ figure_png
           ++ [34%N] ++ s " /></div>")) None true.

(** [_display_check(data, name)] *)
Definition _display_check (data : pyval) (name : option pystr) : M unit :=
  let* term := read terminal in
  let* tb := as_table data in
  let line :=
    if opt_truthy_str name
    then let* d := py_str data in ret (VStr (opt_str name ++ s ": " ++ d))
    else ret data in
  if negb term then
    match tb with
    | Some (DataFrame _ as t) => _display_table t name
    | Some (Series nm v) =>
        _display_table (Series (match nm with Some n => Some n | None => Some [] end) v) name
    | None => let* l := line in _display_line l None []
    end
  else
    match tb with
    | Some t => _print_router [] false None true ;; _print_table t name false
    | None => let* l := line in _display_line l None []
    end.

End Display.
End Display.

(* ------------------------------------------------------------------ *)
(** ** timer.py *)

Module Timer.
Section Timer.
Context `{PD : Pandas}.

Definition stopwatch : pystr := [9201%N; 65039%N].  (* the stopwatch emoji *)

Definition in_list (x : pystr) (l : list pystr) : bool :=
  existsb (fun y => bool_decide (y = x)) l.

(** [start_timer(verbose)] *)
Definition start_timer (verbose : bool) : M pyfloat :=
  let* ec := Options.checks_enabled in
  if negb ec then ret np_nan else
  let* t := read clock in
  (if verbose
   then Display._display_line
          (VStr (stopwatch ++ s " Started timer at: " ++ Display.py_repr (VFloat (PFin t)))) None []
   else ret tt) ;;
  ret (PFin t).

(** The [if units == "auto":] block of [print_time_elapsed]. *)
Definition auto_units (elapsed : pyfloat) : pystr :=
  if py_gt elapsed (PFin 3600) then s "hours"
  else if py_gt elapsed (PFin 60) then s "minutes"
  else if py_ge elapsed (PFin 1) then s "seconds"
  else s "milliseconds".

(** [print_time_elapsed(start_time, lead_in, units)] *)
Definition print_time_elapsed (start_time : pyfloat) (lead_in : option pystr)
    (units : pystr) : M unit :=
  let* ec := Options.checks_enabled in
  if negb ec then ret tt else
  (if py_feq start_time np_nan
   then Display._display_line (VStr (s "Timer hasn't been started. Call start_timer() first"))
          None []
   else ret tt) ;;
  let* now := read clock in
  let elapsed := py_fsub (PFin now) start_time in
  let units := if bool_decide (units = s "auto") then auto_units elapsed else units in
  let* elapsed :=
    if in_list units [s "hours"; s "h"] then ret (py_fdiv elapsed 3600)
    else if in_list units [s "minutes"; s "m"] then ret (py_fdiv elapsed 60)
    else if in_list units [s "milliseconds"; s "ms"] then ret (py_fmul elapsed 1000)
    else if negb (in_list units [s "seconds"; s "s"])
    then raise ValueError (s "Unexpected value for argument `units`: " ++ units)
    else ret elapsed in
  Display._display_line
    (VStr ((if Display.opt_truthy_str lead_in then Display.opt_str lead_in ++ s ":"
            else stopwatch ++ s " Time elapsed:")
           ++ s " " ++ Display.py_repr (VFloat elapsed) ++ s " " ++ units)) None [].

End Timer.

(** pandas_vet/timer.py: the [if units == "auto":] block of the historical
    [print_time_elapsed]. *)
Definition vet_auto_units (elapsed : pyfloat) : pystr :=
  if py_gt elapsed (PFin 60) then s "minutes"
  else if py_gt elapsed (PFin 3600) then s "hours"
  else s "seconds".

End Timer.

(* ------------------------------------------------------------------ *)
(** ** run_checks.py and utils.py *)

Module RunChecks.
Section RunChecks.
Context `{PD : Pandas}.

Definition lift {A} (r : res A) : M A :=
  match r with Ok a => ret a | Err (Exn k msg) => raise k msg end.

(** [obj.<name>(args)] for a pandas method that does not mutate [obj]. *)
Definition pd_method (name : pystr) (args : list pyval) : pyfn :=
  fun v => let* t := Display.as_table v in
           match t with
           | Some t => lift (pd_call name args t)
           | None => raise AttributeError (s "object has no attribute " ++ name)
           end.

(** [obj[key]]: pandas indexing builds a new object. *)
Definition getitem (v : pyval) (key : pyval) : M pyval :=
  let* t := Display.as_table v in
  match t with
  | Some t => lift (pd_call (s "__getitem__") [key] t)
  | None => raise TypeError (s "object is not subscriptable")
  end.

(** [_apply_modifications(data, fn, subset)] *)
Definition _apply_modifications (data : pyval) (fn : pyfn) (subset : pyval) : M pyval :=
  let* sub := Display.py_truthy subset in
  if sub then let* r := fn data in getitem r subset else fn data.

(** The default [lambda df: df]. *)
Definition identity : pyfn := fun v => ret v.

(** [_check_data(data, check_fn, modify_fn, subset, check_name)] *)
Definition _check_data (data : pyval) (check_fn modify_fn : pyfn) (subset : pyval)
    (check_name : option pystr) : M unit :=
  let* ec := Options.checks_enabled in
  if negb ec then ret tt else
  let* m := _apply_modifications data modify_fn subset in
  let* r := check_fn m in
  let* name :=
    if Display.opt_truthy_str check_name then ret check_name
    else let* sub := Display.py_truthy subset in
         if sub then let* t := Display.py_str subset in ret (Some t) else ret None in
  Display._display_check r name.

(** The value of a colour option. *)
Definition color_option (key : pystr) : M pystr :=
  let* v := get_option key in ret (Display.opt_render v).

(** utils.py: [_has_nulls(data, fail_message, raise_exception, exception_to_raise)] *)
Definition _has_nulls (data : pyval) (fail_message : pystr) (raise_exception : bool)
    (exception_to_raise : exn_kind) : M bool :=
  let* t := Display.as_table data in
  let* has_nulls :=
    match t with
    | Some (DataFrame cols) =>
        ret (existsb (fun '(_, v) => existsb (fun c => match c with CNaN => true | _ => false end) v) cols)
    | Some (Series _ v) => ret (existsb (fun c => match c with CNaN => true | _ => false end) v)
    | None => raise AttributeError (s "Unexpected data type in _has_nulls()")
    end in
  (if has_nulls then
     if raise_exception
     then raise exception_to_raise
            (fail_message ++ s ": Nulls present (to disable, pass `assert_not_null=False`)")
     else
       let* fg := color_option (s "pdchecks.fail_message_fg_color") in
       let* bg := color_option (s "pdchecks.fail_message_bg_color") in
       Display._display_line (VStr (s "Nulls present (to disable, pass `assert_not_null=False`)"))
         (Some fail_message)
         [(s "lead_in_text_color", fg); (s "lead_in_background_color", bg)]
   else ret tt) ;;
  ret has_nulls.

Definition lstrip_chars (chars t : pystr) : pystr :=
  (fix go (u : pystr) : pystr :=
     match u with
     | c :: u' => if existsb (N.eqb c) chars then go u' else u
     | [] => []
     end) t.

(** utils.py: [_lambda_to_string(lambda_func)] *)
Definition _lambda_to_string (f : pyfn) : pystr := lstrip_chars (s " .") (lambda_source f).

(** utils.py: [_is_type(data, dtype)] as a condition. *)
Definition is_type_condition (dtype : pystr) : pyfn :=
  fun v => let* t := Display.as_table v in
           match t with
           | Some t => ret (VBool (is_type t dtype))
           | None => raise AttributeError (s "object has no attribute dtypes")
           end.

End RunChecks.
End RunChecks.

(* ------------------------------------------------------------------ *)
(** ** DataFrameChecks.py: the [.check] accessor of DataFrames.
    [self] is the object the accessor was reached from ([self._obj]); the
    [**kwargs] a method forwards to pandas are a dict value. *)

Module DataFrameChecks.
Section DataFrameChecks.
Context `{PD : Pandas}.
Import RunChecks.

Definition fail_fg := s "pdchecks.fail_message_fg_color".
Definition fail_bg := s "pdchecks.fail_message_bg_color".
Definition pass_fg := s "pdchecks.pass_message_fg_color".
Definition pass_bg := s "pdchecks.pass_message_bg_color".

(** The reporting part of [assert_data], from [if not result:] on; it is
    the same in both accessors. *)
Definition _report_assert (result : bool) (condition_str fail_message pass_message : pystr)
    (raise_exception : bool) (exception_to_raise : exn_kind)
    (message_shows_condition verbose : bool) : M unit :=
  (if negb result then
     if raise_exception then
       raise exception_to_raise
         (fail_message ++ (if py_truthy_str condition_str && message_shows_condition
                           then s " :" ++ condition_str else []))
     else if message_shows_condition then
       let* fg := color_option fail_fg in
       let* bg := color_option fail_bg in
       Display._display_line (VStr condition_str) (Some fail_message)
         [(s "lead_in_text_color", fg); (s "lead_in_background_color", bg)]
     else
       let* fg := color_option fail_fg in
       let* bg := color_option fail_bg in
       Display._display_line (VStr fail_message) None
         [(s "text_color", fg); (s "text_background_color", bg)]
   else ret tt) ;;
  (if result && verbose then
     if message_shows_condition then
       let* fg := color_option pass_fg in
       let* bg := color_option pass_bg in
       Display._display_line (VStr condition_str) (Some pass_message)
         [(s "lead_in_text_color", fg); (s "lead_in_background_color", bg)]
     else
       let* fg := color_option pass_fg in
       let* bg := color_option pass_bg in
       Display._display_line (VStr pass_message) None
         [(s "text_color", fg); (s "text_background_color", bg)]
   else ret tt).

(** [assert_data(condition, fail_message, pass_message, subset,
    raise_exception, exception_to_raise, message_shows_condition, verbose)] *)
Definition assert_data (self : pyval) (condition : pyfn) (fail_message pass_message : pystr)
    (subset : pyval) (raise_exception : bool) (exception_to_raise : exn_kind)
    (message_shows_condition verbose : bool) : M pyval :=
  let* ea := Options.asserts_enabled in
  if negb ea then ret self else
  let* sub := Display.py_truthy subset in
  let* data := if sub then getitem self subset else ret self in
  let* r := condition data in
  let condition_str := _lambda_to_string condition in
  let* result := Display.py_truthy r in
  _report_assert result condition_str fail_message pass_message raise_exception
    exception_to_raise message_shows_condition verbose ;;
  ret self.

(** [x.shape[0] == rhs], the right side evaluated after the left. *)
Definition nrows_eq (rhs : M pyval) : pyfn :=
  fun df => let* r := pd_method (s "shape[0]") [] df in
            let* n := rhs in
            ret (VBool (match r, n with VInt a, VInt b => Z.eqb a b | _, _ => false end)).

Definition assert_all_nulls self fail_message pass_message subset raise_exception
    exception_to_raise verbose : M pyval :=
  assert_data self (pd_method (s "isna().all().all()") []) fail_message pass_message subset
    raise_exception exception_to_raise false verbose ;;
  ret self.

Definition assert_greater_than self (min : pyval) fail_message pass_message (or_equal_to : bool)
    subset raise_exception exception_to_raise verbose : M pyval :=
  let min_fn := if or_equal_to then pd_method (s "(df >= min).all().all()") [min]
                else pd_method (s "(df > min).all().all()") [min] in
  assert_data self min_fn fail_message pass_message subset raise_exception
    exception_to_raise false verbose ;;
  ret self.

Definition assert_less_than self (max : pyval) fail_message pass_message (or_equal_to : bool)
    subset raise_exception exception_to_raise verbose : M pyval :=
  let max_fn := if or_equal_to then pd_method (s "(df <= max).all().all()") [max]
                else pd_method (s "(df < max).all().all()") [max] in
  assert_data self max_fn fail_message pass_message subset raise_exception
    exception_to_raise false verbose ;;
  ret self.

(** [assert_negative] and [assert_positive]: the null test runs before
    [assert_data], whatever [enable_asserts] is. *)
Definition assert_sign (cond : pystr) self fail_message pass_message subset
    (assert_no_nulls : bool) raise_exception exception_to_raise verbose : M pyval :=
  let* stop :=
    if assert_no_nulls then
      let* sub := Display.py_truthy subset in
      let* data := if sub then getitem self subset else ret self in
      _has_nulls data fail_message raise_exception exception_to_raise
    else ret false in
  if stop then ret self else
  let* d := pd_method (s "dropna") [] self in
  assert_data d (pd_method cond []) fail_message pass_message subset raise_exception
    exception_to_raise false verbose ;;
  ret self.

Definition assert_negative := assert_sign (s "(df < 0).all().all()").
Definition assert_positive := assert_sign (s "(df > 0).all().all()").

Definition assert_no_nulls self fail_message pass_message subset raise_exception
    exception_to_raise verbose : M pyval :=
  assert_data self (pd_method (s "isna().any().any() == False") []) fail_message pass_message
    subset raise_exception exception_to_raise false verbose ;;
  ret self.

Definition assert_nrows self (nrows : Z) fail_message pass_message raise_exception
    exception_to_raise verbose : M pyval :=
  assert_data self (nrows_eq (ret (VInt nrows))) fail_message pass_message VNone raise_exception
    exception_to_raise false verbose ;;
  ret self.

Definition assert_same_nrows self (other : pyval) fail_message pass_message raise_exception
    exception_to_raise verbose : M pyval :=
  assert_data self (nrows_eq (pd_method (s "shape[0]") [] other))
    fail_message pass_message VNone raise_exception exception_to_raise false verbose ;;
  ret self.

(** [", ".join([t.name for t in dtypes.values])] *)
Definition join_names (v : pyval) : M pystr :=
  match v with
  | VList l => ret (join (s ", ") (map (fun x => match x with VStr t => t | x => Display.py_repr x end) l))
  | _ => raise TypeError (s "object is not iterable")
  end.

Definition dtype_clean (dtype : pystr) : pystr :=
  replace (replace (replace dtype (s "<class") []) (s ">") []) (s "'") [].

Definition fail_mark : pystr := s " " ++ [12584%N].

(** [assert_type(dtype, ...)]; [dtype] is [str(dtype)]. *)
Definition assert_type self (dtype : pystr) (fail_message : option pystr) pass_message subset
    raise_exception exception_to_raise verbose : M pyval :=
  let* sub := Display.py_truthy subset in
  let* subset :=
    if negb sub then pd_method (s "columns.tolist()") [] self
    else match subset with VStr _ => ret (VList [subset]) | _ => ret subset end in
  let* sel := getitem self subset in
  let* dts := pd_method (s "dtypes.values.name") [] sel in
  let* found_dtypes := join_names dts in
  let fail_message :=
    if Display.opt_truthy_str fail_message then Display.opt_str fail_message
    else fail_mark ++ s " Assert type failed: expected " ++ dtype_clean dtype ++ s ", got "
         ++ found_dtypes in
  assert_data self (is_type_condition dtype) fail_message pass_message subset raise_exception
    exception_to_raise false verbose ;;
  ret self.

Definition dt_datetime := s "<class 'datetime.datetime'>".
Definition dt_float := s "<class 'float'>".
Definition dt_int := s "<class 'int'>".
Definition dt_str := s "<class 'str'>".
Definition dt_timedelta := s "<class 'datetime.timedelta'>".

Definition assert_datetime self := assert_type self dt_datetime.
Definition assert_float self := assert_type self dt_float.
Definition assert_int self := assert_type self dt_int.
Definition assert_str self := assert_type self dt_str.
Definition assert_timedelta self := assert_type self dt_timedelta.

Definition assert_unique self fail_message pass_message subset raise_exception
    exception_to_raise verbose : M pyval :=
  assert_data self (pd_method (s "duplicated().sum() == 0") []) fail_message pass_message
    subset raise_exception exception_to_raise false verbose ;;
  ret self.

(** The methods that display the result of a pandas method through
    [_check_data]. *)
Definition columns self fn subset check_name : M pyval :=
  _check_data self (pd_method (s "columns.tolist()") []) fn subset check_name ;; ret self.
Definition describe self fn subset check_name (kwargs : list (pystr * pyval)) : M pyval :=
  _check_data self (pd_method (s "describe") [VDict kwargs]) fn subset check_name ;; ret self.
Definition dtypes self fn subset check_name : M pyval :=
  _check_data self (pd_method (s "dtypes") []) fn subset check_name ;; ret self.
Definition function self fn subset check_name : M pyval :=
  _check_data self identity fn subset check_name ;; ret self.
Definition memory_usage self fn subset check_name (kwargs : list (pystr * pyval)) : M pyval :=
  _check_data self (pd_method (s "memory_usage") [VDict kwargs]) fn subset check_name ;; ret self.
Definition ncols self fn subset check_name : M pyval :=
  _check_data self (pd_method (s "shape[1]") []) fn subset check_name ;; ret self.
Definition nrows self fn subset check_name : M pyval :=
  _check_data self (pd_method (s "shape[0]") []) fn subset check_name ;; ret self.
Definition shape self fn subset check_name : M pyval :=
  _check_data self (pd_method (s "shape") []) fn subset check_name ;; ret self.

Definition head self (n : Z) fn subset (check_name : option pystr) : M pyval :=
  _check_data self (pd_method (s "head") [VInt n]) fn subset
    (if Display.opt_truthy_str check_name then check_name
     else Some ([11014%N; 65039%N] ++ s " First " ++ str_Z n ++ s " rows")) ;;
  ret self.
Definition tail self (n : Z) fn subset (check_name : option pystr) : M pyval :=
  _check_data self (pd_method (s "tail") [VInt n]) fn subset
    (if Display.opt_truthy_str check_name then check_name
     else Some ([11015%N; 65039%N] ++ s " Last " ++ str_Z n ++ s " rows")) ;;
  ret self.

Definition dancers : pystr := [128111%N; 8205%N; 9794%N; 65039%N].

Definition ndups self fn subset (check_name : option pystr) (kwargs : list (pystr * pyval))
    : M pyval :=
  let* name :=
    if Display.opt_truthy_str check_name then ret check_name
    else let* sub := Display.py_truthy subset in
         if sub then let* t := Display.py_str subset in
                     ret (Some (dancers ++ s " Rows with duplication in " ++ t))
         else ret (Some (dancers ++ s " Duplicated rows")) in
  _check_data self (pd_method (s "duplicated().sum()") [VDict kwargs]) fn subset name ;;
  ret self.

(** [get_mode(check_name)]: no [enable_checks] guard. *)
Definition get_mode self (check_name : option pystr) : M pyval :=
  let* m := Options.get_mode in
  let* line := Display.py_str m in
  Display._display_line (VStr line) check_name [] ;;
  ret self.

(** [len(v)] *)
Definition py_len (v : pyval) : M Z :=
  match v with
  | VStr t => ret (Z.of_nat (length t))
  | VList l => ret (Z.of_nat (length l))
  | VDict l => ret (Z.of_nat (length l))
  | VTable _ | VRef _ =>
      let* r := pd_method (s "__len__") [] v in
      match r with VInt z => ret z | _ => raise TypeError (s "object has no len()") end
  | _ => raise TypeError (s "object has no len()")
  end.

Definition ruler : pystr := [128207%N].

(** [hist(fn, subset, check_name, kwargs)]: draws only in IPython. *)
Definition hist self fn subset (check_name : option pystr) (kwargs : list (pystr * pyval))
    : M pyval :=
  let* ec := Options.checks_enabled in
  let* term := read terminal in
  (if ec && negb term then
     let* title :=
       if Display.opt_truthy_str check_name then ret (Display.opt_str check_name)
       else let* sub := Display.py_truthy subset in
            let* one := if sub then let* n := py_len subset in ret (Z.eqb n 1) else ret false in
            ret (if one then ruler ++ s " Distribution" else ruler ++ s " Distributions") in
     Display._display_plot_title (VStr title) ;;
     let* d := _apply_modifications self fn subset in
     pd_method (s "hist") [VDict kwargs] d ;;
     emit (Drawn (s "hist")) ;;
     Display._display_plot
   else ret tt) ;;
  ret self.

(** [info(fn, subset, check_name, kwargs)]: pandas' [info] prints its
    report; [pd_call "info"] gives the report. *)
Definition info self fn subset (check_name : option pystr) (kwargs : list (pystr * pyval))
    : M pyval :=
  let* ec := Options.checks_enabled in
  (if ec then
     (if Display.opt_truthy_str check_name
      then Display._display_table_title (VStr (Display.opt_str check_name)) else ret tt) ;;
     let* d := _apply_modifications self fn subset in
     let* report := pd_method (s "info") [VDict kwargs] d in
     let* t := Display.py_str report in
     emit (Stdout t)
   else ret tt) ;;
  ret self.

Definition ghost : pystr := [128123%N].

(** [nnulls(fn, subset, by_column, check_name)] *)
Definition nnulls self fn subset (by_column : bool) (check_name : option pystr) : M pyval :=
  let* ec := Options.checks_enabled in
  if negb ec then ret self else
  let* data := _apply_modifications self fn subset in
  let* tb := Display.as_table data in
  let is_df := match tb with Some (DataFrame _) => true | _ => false end in
  let* na_counts :=
    if is_df && negb by_column then pd_method (s "isna().any(axis=1).sum()") [] data
    else if negb by_column then pd_method (s "isna().sum()") [] data
    else pd_method (s "pd.Series(isna().sum())") [] data in
  let* nt := Display.as_table na_counts in
  let* sub := Display.py_truthy subset in
  let named_by_subset := sub && negb (Display.opt_truthy_str check_name) in
  (match nt with
   | Some _ =>
       let* name :=
         if named_by_subset
         then let* t := Display.py_str subset in ret (Some (ghost ++ s " Rows with NaNs in " ++ t))
         else ret check_name in
       _check_data na_counts identity identity VNone name
   | None =>
       let* c := Display.py_str na_counts in
       let* line :=
         if named_by_subset then
           let* t := Display.py_str subset in
           let* n := pd_method (s "shape[0]") [] data in
           let* ns := Display.py_str n in
           ret (ghost ++ s " Rows with NaNs in " ++ t ++ s ": " ++ c ++ s " out of " ++ ns)
         else ret (Display.opt_str check_name ++ s ": " ++ c) in
       Display._display_line (VStr line) None []
   end) ;;
  ret self.

Definition kw_lookup (kwargs : list (pystr * pyval)) (k : pystr) : option pyval :=
  match find (fun '(k', _) => bool_decide (k' = k)) kwargs with
  | Some (_, v) => Some v
  | None => None
  end.

(** [plot(fn, subset, check_name, kwargs)]: draws only in IPython. *)
Definition plot self fn subset (check_name : option pystr) (kwargs : list (pystr * pyval))
    : M pyval :=
  let* ec := Options.checks_enabled in
  let* term := read terminal in
  (if ec && negb term then
     let title := match kw_lookup kwargs (s "title") with
                  | Some t => t
                  | None => match check_name with Some c => VStr c | None => VNone end
                  end in
     Display._display_plot_title title ;;
     let* d := _apply_modifications self fn subset in
     pd_method (s "plot") [VDict kwargs] d ;;
     emit (Drawn (s "plot")) ;;
     Display._display_plot
   else ret tt) ;;
  ret self.

(** [print(object, fn, subset, check_name, max_rows)] *)
Definition print self (object : pyval) fn subset check_name (max_rows : Z) : M pyval :=
  let* has_object := Display.py_truthy object in
  _check_data (if has_object then object else self)
    (fun data => let* o := Display.py_truthy object in
                 if o then ret data else pd_method (s "head") [VInt max_rows] data)
    fn subset check_name ;;
  ret self.

Definition print_time_elapsed self start_time lead_in units : M pyval :=
  Timer.print_time_elapsed start_time lead_in units ;; ret self.
Definition reset_format self : M pyval := Options.reset_format ;; ret self.
Definition set_format self kwargs : M pyval := Options.set_format kwargs ;; ret self.
Definition set_mode self enable_checks enable_asserts : M pyval :=
  Options.set_mode enable_checks enable_asserts ;; ret self.
Definition enable_checks self enable_asserts : M pyval :=
  Options.enable_checks enable_asserts ;; ret self.
Definition disable_checks self enable_asserts : M pyval :=
  Options.disable_checks enable_asserts ;; ret self.

Definition package : pystr := [128230%N].

(** [data.to_xxx(path, ...)] *)
Definition export (writer : pystr) (data : pyval) (path : pystr) : M unit :=
  let* t := Display.as_table data in
  match t with
  | Some _ => emit (FileWritten path writer)
  | None => raise AttributeError (s "object has no attribute " ++ writer)
  end.

(** [write(path, format, fn, subset, verbose, kwargs)] *)
Definition write self (path : pystr) (format : option pystr) fn subset (verbose : bool)
    (kwargs : list (pystr * pyval)) : M pyval :=
  let* ec := Options.checks_enabled in
  if negb ec then ret self else
  let format_clean :=
    if Display.opt_truthy_str format
    then Some (strip (replace (lower (Display.opt_str format)) (s ".") []))
    else None in
  let fmt_is (x : string) := bool_decide (format_clean = Some (s x)) in
  let* data := _apply_modifications self fn subset in
  (if endswith path (s ".csv") || fmt_is "csv" then export (s "to_csv") data path
   else if endswith path (s ".feather") || fmt_is "feather" then export (s "to_feather") data path
   else if endswith path (s ".parquet") || fmt_is "parquet" then export (s "to_parquet") data path
   else if endswith path (s ".pkl") || fmt_is "pickle" then export (s "to_pickle") data path
   else if endswith path (s ".tsv") || fmt_is "tsv" then export (s "to_csv(sep=tab)") data path
   else if endswith path (s ".xls") || endswith path (s ".xlsx")
           || fmt_is "xlsx" || fmt_is "xls" || fmt_is "excel"
   then export (s "to_excel") data path
   else raise AttributeError
          (s "Can't write data to file. Unknown file extension in: " ++ path ++ s ". ")) ;;
  (if verbose then Display._display_line (VStr (package ++ s " Wrote file " ++ path)) None []
   else ret tt) ;;
  ret self.

End DataFrameChecks.
End DataFrameChecks.

(* ------------------------------------------------------------------ *)
(** ** SeriesChecks.py: the [.check] accessor of Series. *)

Module SeriesChecks.
Section SeriesChecks.
Context `{PD : Pandas}.
Import RunChecks.

(** [pd.DataFrame(x)] for a pandas object (other arguments are refused
    here, as pandas refuses scalars). *)
Definition to_frame (v : pyval) : M pyval :=
  let* t := Display.as_table v in
  match t with
  | Some (Series nm vals) => ret (VTable (DataFrame [(match nm with Some n => n | None => s "0" end, vals)]))
  | Some (DataFrame c) => ret (VTable (DataFrame c))
  | None => raise ValueError (s "DataFrame constructor not properly called!")
  end.

(** [self._obj.name] *)
Definition series_name (v : pyval) : M (option pystr) :=
  let* t := Display.as_table v in
  match t with
  | Some (Series nm _) => ret nm
  | _ => raise AttributeError (s "object has no attribute name")
  end.

(** [assert_data(condition, ...)]: no [subset]. *)
Definition assert_data (self : pyval) (condition : pyfn) (fail_message pass_message : pystr)
    (raise_exception : bool) (exception_to_raise : exn_kind)
    (message_shows_condition verbose : bool) : M pyval :=
  let* ea := Options.asserts_enabled in
  if negb ea then ret self else
  let* r := condition self in
  let condition_str := _lambda_to_string condition in
  let* result := Display.py_truthy r in
  DataFrameChecks._report_assert result condition_str fail_message pass_message
    raise_exception exception_to_raise message_shows_condition verbose ;;
  ret self.

Definition assert_all_nulls self fail_message pass_message raise_exception
    exception_to_raise verbose : M pyval :=
  assert_data self (pd_method (s "isna().all().all()") []) fail_message pass_message
    raise_exception exception_to_raise false verbose ;;
  ret self.

Definition assert_greater_than self (min : pyval) fail_message pass_message (or_equal_to : bool)
    raise_exception exception_to_raise verbose : M pyval :=
  let min_fn := if or_equal_to then pd_method (s "(s >= min).all().all()") [min]
                else pd_method (s "(s > min).all().all()") [min] in
  assert_data self min_fn fail_message pass_message raise_exception exception_to_raise
    false verbose ;;
  ret self.

Definition assert_less_than self (max : pyval) fail_message pass_message (or_equal_to : bool)
    raise_exception exception_to_raise verbose : M pyval :=
  let max_fn := if or_equal_to then pd_method (s "(s <= max).all().all()") [max]
                else pd_method (s "(s < max).all().all()") [max] in
  assert_data self max_fn fail_message pass_message raise_exception exception_to_raise
    false verbose ;;
  ret self.

Definition assert_sign (cond : pystr) self fail_message pass_message (assert_no_nulls : bool)
    raise_exception exception_to_raise verbose : M pyval :=
  let* stop :=
    if assert_no_nulls then _has_nulls self fail_message raise_exception exception_to_raise
    else ret false in
  if stop then ret self else
  let* d := pd_method (s "dropna") [] self in
  assert_data d (pd_method cond []) fail_message pass_message raise_exception
    exception_to_raise false verbose ;;
  ret self.

Definition assert_negative := assert_sign (s "(s < 0).all().all()").
Definition assert_positive := assert_sign (s "(s > 0).all().all()").

Definition assert_no_nulls self fail_message pass_message raise_exception
    exception_to_raise verbose : M pyval :=
  assert_data self (pd_method (s "isna().any().any() == False") []) fail_message pass_message
    raise_exception exception_to_raise false verbose ;;
  ret self.

Definition assert_nrows self (nrows : Z) fail_message pass_message raise_exception
    exception_to_raise verbose : M pyval :=
  assert_data self (DataFrameChecks.nrows_eq (ret (VInt nrows))) fail_message pass_message
    raise_exception exception_to_raise false verbose ;;
  ret self.

Definition assert_same_nrows self (other : pyval) fail_message pass_message raise_exception
    exception_to_raise verbose : M pyval :=
  assert_data self (DataFrameChecks.nrows_eq (pd_method (s "shape[0]") [] other))
    fail_message pass_message raise_exception exception_to_raise false verbose ;;
  ret self.

Definition assert_type self (dtype : pystr) (fail_message : option pystr) pass_message
    raise_exception exception_to_raise verbose : M pyval :=
  let* found_dtype := pd_method (s "dtypes") [] self in
  let* fail_message :=
    if Display.opt_truthy_str fail_message then ret (Display.opt_str fail_message)
    else let* f := Display.py_str found_dtype in
         ret (DataFrameChecks.fail_mark ++ s " Assert type failed: expected "
              ++ DataFrameChecks.dtype_clean dtype ++ s ", got " ++ f) in
  assert_data self (is_type_condition dtype) fail_message pass_message raise_exception
    exception_to_raise false verbose ;;
  ret self.

Definition assert_datetime self := assert_type self DataFrameChecks.dt_datetime.
Definition assert_float self := assert_type self DataFrameChecks.dt_float.
Definition assert_int self := assert_type self DataFrameChecks.dt_int.
Definition assert_str self := assert_type self DataFrameChecks.dt_str.
Definition assert_timedelta self := assert_type self DataFrameChecks.dt_timedelta.

Definition assert_unique self fail_message pass_message raise_exception
    exception_to_raise verbose : M pyval :=
  assert_data self (pd_method (s "duplicated().sum() == 0") []) fail_message pass_message
    raise_exception exception_to_raise false verbose ;;
  ret self.

(** Methods that hand [pd.DataFrame(_apply_modifications(self._obj, fn))]
    to the DataFrame accessor. *)
Definition framed self fn : M pyval :=
  let* d := _apply_modifications self fn VNone in to_frame d.

Definition describe self fn check_name kwargs : M pyval :=
  let* f := framed self fn in
  DataFrameChecks.describe f identity VNone check_name kwargs ;; ret self.
Definition dtype self fn check_name : M pyval :=
  _check_data self (pd_method (s "dtype") []) fn VNone check_name ;; ret self.
Definition function self fn check_name : M pyval :=
  _check_data self identity fn VNone check_name ;; ret self.
Definition get_mode self check_name : M pyval :=
  let* f := to_frame self in DataFrameChecks.get_mode f check_name ;; ret self.
Definition head self n fn check_name : M pyval :=
  let* f := framed self fn in DataFrameChecks.head f n identity VNone check_name ;; ret self.
Definition hist self fn check_name kwargs : M pyval :=
  let* f := framed self fn in
  DataFrameChecks.hist f identity (VList []) check_name kwargs ;; ret self.
Definition info self fn (check_name : option pystr) (kwargs : list (pystr * pyval)) : M pyval :=
  let* ec := Options.checks_enabled in
  (if ec then
     (if Display.opt_truthy_str check_name
      then Display._display_table_title (VStr (Display.opt_str check_name)) else ret tt) ;;
     let* d := _apply_modifications self fn VNone in
     let* report := pd_method (s "info") [VDict kwargs] d in
     let* t := Display.py_str report in
     emit (Stdout t)
   else ret tt) ;;
  ret self.
Definition memory_usage self fn check_name kwargs : M pyval :=
  let* f := framed self fn in
  DataFrameChecks.memory_usage f identity VNone check_name kwargs ;; ret self.
(** [fn] is passed on positionally, so it is applied a second time. *)
Definition ndups self fn check_name kwargs : M pyval :=
  let* f := framed self fn in DataFrameChecks.ndups f fn VNone check_name kwargs ;; ret self.
Definition nnulls self fn check_name : M pyval :=
  let* f := framed self fn in DataFrameChecks.nnulls f identity VNone false check_name ;; ret self.
Definition nrows self fn check_name : M pyval :=
  let* f := framed self fn in DataFrameChecks.nrows f identity VNone check_name ;; ret self.
Definition plot self fn check_name kwargs : M pyval :=
  let* f := framed self fn in DataFrameChecks.plot f fn VNone check_name kwargs ;; ret self.
Definition print self object fn check_name max_rows : M pyval :=
  let* f := framed self fn in
  DataFrameChecks.print f object identity VNone check_name max_rows ;; ret self.
Definition tail self n fn check_name : M pyval :=
  let* f := framed self fn in DataFrameChecks.tail f n identity VNone check_name ;; ret self.
Definition write self path format fn verbose kwargs : M pyval :=
  let* f := framed self fn in
  DataFrameChecks.write f path format identity VNone verbose kwargs ;; ret self.
Definition shape self fn check_name : M pyval :=
  _check_data self (pd_method (s "shape") []) fn VNone check_name ;; ret self.

(** [self._obj.name if self._obj.name else 'series'] *)
Definition name_or_series self : M pystr :=
  let* nm := series_name self in
  ret (if Display.opt_truthy_str nm then Display.opt_str nm else s "series").

Definition star : pystr := [127775%N].
Definition abacus : pystr := [129518%N].

Definition nunique self fn (check_name : option pystr) (kwargs : list (pystr * pyval)) : M pyval :=
  let* name :=
    if Display.opt_truthy_str check_name then ret check_name
    else let* n := name_or_series self in ret (Some (star ++ s " Unique values in " ++ n)) in
  _check_data self (pd_method (s "nunique") [VDict kwargs]) fn VNone name ;; ret self.
Definition unique self fn (check_name : option pystr) : M pyval :=
  let* name :=
    if Display.opt_truthy_str check_name then ret check_name
    else let* n := name_or_series self in ret (Some (star ++ s " Unique values of " ++ n)) in
  _check_data self (pd_method (s "unique().tolist()") []) fn VNone name ;; ret self.
Definition value_counts self fn (max_rows : Z) (check_name : option pystr)
    (kwargs : list (pystr * pyval)) : M pyval :=
  let name :=
    if Display.opt_truthy_str check_name then check_name
    else if negb (Z.eqb max_rows 0)
    then Some (abacus ++ s " Value counts, first " ++ str_Z max_rows ++ s " values")
    else Some (abacus ++ s " Value counts") in
  _check_data self
    (fun v => let* c := pd_method (s "value_counts") [VDict kwargs] v in
              pd_method (s "head") [VInt max_rows] c)
    fn VNone name ;;
  ret self.

Definition print_time_elapsed := DataFrameChecks.print_time_elapsed.
Definition reset_format := DataFrameChecks.reset_format.
Definition set_format := DataFrameChecks.set_format.
Definition set_mode := DataFrameChecks.set_mode.
Definition enable_checks := DataFrameChecks.enable_checks.
Definition disable_checks := DataFrameChecks.disable_checks.

End SeriesChecks.
End SeriesChecks.

(** The DataFrame methods that pass one column on to the Series accessor
    ([nunique], [unique], [value_counts] of DataFrameChecks.py). *)
Module DataFrameColumnChecks.
Section DataFrameColumnChecks.
Context `{PD : Pandas}.
Import RunChecks.

(** [x.check.<method>(...)] on the selected column: the Series accessor
    for a Series; the DataFrame methods need a [column] argument. *)
Definition on_column (col : pyval) (k : pyval -> M pyval) : M unit :=
  let* t := Display.as_table col in
  match t with
  | Some (Series _ _) => k col ;; ret tt
  | Some (DataFrame _) => raise TypeError (s "missing 1 required positional argument: 'column'")
  | None => raise AttributeError (s "object has no attribute 'check'")
  end.

Definition nunique self (column : pystr) fn check_name kwargs : M pyval :=
  let* ec := Options.checks_enabled in
  (if ec then
     let* col := _apply_modifications self fn (VStr column) in
     on_column col (fun c => SeriesChecks.nunique c identity check_name kwargs)
   else ret tt) ;;
  ret self.
Definition unique self (column : pystr) fn check_name : M pyval :=
  let* ec := Options.checks_enabled in
  (if ec then
     let* col := _apply_modifications self fn (VStr column) in
     on_column col (fun c => SeriesChecks.unique c identity check_name)
   else ret tt) ;;
  ret self.
Definition value_counts self (column : pystr) fn max_rows check_name kwargs : M pyval :=
  let* ec := Options.checks_enabled in
  (if ec then
     let* col := _apply_modifications self fn (VStr column) in
     on_column col (fun c => SeriesChecks.value_counts c identity max_rows check_name kwargs)
   else ret tt) ;;
  ret self.

End DataFrameColumnChecks.
End DataFrameColumnChecks.

(* ------------------------------------------------------------------ *)
(** ** The public surface of the two accessors *)

Module Accessors.
(** A call [df.check.<method>(...)] of a public method, with its arguments. *)
Inductive df_call :=
  | df_assert_all_nulls (fail_message : pystr) (pass_message : pystr) (subset : pyval)
      (raise_exception : bool) (exception_to_raise : exn_kind) (verbose : bool)
  | df_assert_data (condition : pyfn) (fail_message : pystr) (pass_message : pystr)
      (subset : pyval) (raise_exception : bool) (exception_to_raise : exn_kind)
      (message_shows_condition : bool) (verbose : bool)
  | df_assert_datetime (fail_message : option pystr) (pass_message : pystr) (subset : pyval)
      (raise_exception : bool) (exception_to_raise : exn_kind) (verbose : bool)
  | df_assert_float (fail_message : option pystr) (pass_message : pystr) (subset : pyval)
      (raise_exception : bool) (exception_to_raise : exn_kind) (verbose : bool)
  | df_assert_greater_than (min : pyval) (fail_message : pystr) (pass_message : pystr)
      (or_equal_to : bool) (subset : pyval) (raise_exception : bool)
      (exception_to_raise : exn_kind) (verbose : bool)
  | df_assert_int (fail_message : option pystr) (pass_message : pystr) (subset : pyval)
      (raise_exception : bool) (exception_to_raise : exn_kind) (verbose : bool)
  | df_assert_less_than (max : pyval) (fail_message : pystr) (pass_message : pystr)
      (or_equal_to : bool) (subset : pyval) (raise_exception : bool)
      (exception_to_raise : exn_kind) (verbose : bool)
  | df_assert_negative (fail_message : pystr) (pass_message : pystr) (subset : pyval)
      (assert_no_nulls : bool) (raise_exception : bool) (exception_to_raise : exn_kind)
      (verbose : bool)
  | df_assert_no_nulls (fail_message : pystr) (pass_message : pystr) (subset : pyval)
      (raise_exception : bool) (exception_to_raise : exn_kind) (verbose : bool)
  | df_assert_nrows (nrows : Z) (fail_message : pystr) (pass_message : pystr)
      (raise_exception : bool) (exception_to_raise : exn_kind) (verbose : bool)
  | df_assert_positive (fail_message : pystr) (pass_message : pystr) (subset : pyval)
      (assert_no_nulls : bool) (raise_exception : bool) (exception_to_raise : exn_kind)
      (verbose : bool)
  | df_assert_same_nrows (other : pyval) (fail_message : pystr) (pass_message : pystr)
      (raise_exception : bool) (exception_to_raise : exn_kind) (verbose : bool)
  | df_assert_str (fail_message : option pystr) (pass_message : pystr) (subset : pyval)
      (raise_exception : bool) (exception_to_raise : exn_kind) (verbose : bool)
  | df_assert_timedelta (fail_message : option pystr) (pass_message : pystr) (subset : pyval)
      (raise_exception : bool) (exception_to_raise : exn_kind) (verbose : bool)
  | df_assert_type (dtype : pystr) (fail_message : option pystr) (pass_message : pystr)
      (subset : pyval) (raise_exception : bool) (exception_to_raise : exn_kind) (verbose : bool)
  | df_assert_unique (fail_message : pystr) (pass_message : pystr) (subset : pyval)
      (raise_exception : bool) (exception_to_raise : exn_kind) (verbose : bool)
  | df_columns (fn : pyfn) (subset : pyval) (check_name : option pystr)
  | df_describe (fn : pyfn) (subset : pyval) (check_name : option pystr) (kwargs : list
      (pystr * pyval))
  | df_disable_checks (enable_asserts : bool)
  | df_dtypes (fn : pyfn) (subset : pyval) (check_name : option pystr)
  | df_enable_checks (enable_asserts : bool)
  | df_function (fn : pyfn) (subset : pyval) (check_name : option pystr)
  | df_get_mode (check_name : option pystr)
  | df_head (n : Z) (fn : pyfn) (subset : pyval) (check_name : option pystr)
  | df_hist (fn : pyfn) (subset : pyval) (check_name : option pystr) (kwargs : list (pystr * pyval))
  | df_info (fn : pyfn) (subset : pyval) (check_name : option pystr) (kwargs : list (pystr * pyval))
  | df_memory_usage (fn : pyfn) (subset : pyval) (check_name : option pystr) (kwargs : list
      (pystr * pyval))
  | df_ncols (fn : pyfn) (subset : pyval) (check_name : option pystr)
  | df_ndups (fn : pyfn) (subset : pyval) (check_name : option pystr) (kwargs : list
      (pystr * pyval))
  | df_nnulls (fn : pyfn) (subset : pyval) (by_column : bool) (check_name : option pystr)
  | df_nrows (fn : pyfn) (subset : pyval) (check_name : option pystr)
  | df_nunique (column : pystr) (fn : pyfn) (check_name : option pystr) (kwargs : list
      (pystr * pyval))
  | df_plot (fn : pyfn) (subset : pyval) (check_name : option pystr) (kwargs : list (pystr * pyval))
  | df_print (object : pyval) (fn : pyfn) (subset : pyval) (check_name : option pystr)
      (max_rows : Z)
  | df_print_time_elapsed (start_time : pyfloat) (lead_in : option pystr) (units : pystr)
  | df_reset_format
  | df_set_format (kwargs : list (pystr * optval))
  | df_set_mode (enable_checks : bool) (enable_asserts : bool)
  | df_shape (fn : pyfn) (subset : pyval) (check_name : option pystr)
  | df_tail (n : Z) (fn : pyfn) (subset : pyval) (check_name : option pystr)
  | df_unique (column : pystr) (fn : pyfn) (check_name : option pystr)
  | df_value_counts (column : pystr) (fn : pyfn) (max_rows : Z) (check_name : option pystr)
      (kwargs : list (pystr * pyval))
  | df_write (path : pystr) (format : option pystr) (fn : pyfn) (subset : pyval) (verbose : bool)
      (kwargs : list (pystr * pyval)).

(** The callables among the arguments of a call. *)
Definition df_callables (c : df_call) : list pyfn :=
  match c with
  | df_assert_all_nulls _ _ _ _ _ _ => []
  | df_assert_data condition _ _ _ _ _ _ _ => [condition]
  | df_assert_datetime _ _ _ _ _ _ => []
  | df_assert_float _ _ _ _ _ _ => []
  | df_assert_greater_than _ _ _ _ _ _ _ _ => []
  | df_assert_int _ _ _ _ _ _ => []
  | df_assert_less_than _ _ _ _ _ _ _ _ => []
  | df_assert_negative _ _ _ _ _ _ _ => []
  | df_assert_no_nulls _ _ _ _ _ _ => []
  | df_assert_nrows _ _ _ _ _ _ => []
  | df_assert_positive _ _ _ _ _ _ _ => []
  | df_assert_same_nrows _ _ _ _ _ _ => []
  | df_assert_str _ _ _ _ _ _ => []
  | df_assert_timedelta _ _ _ _ _ _ => []
  | df_assert_type _ _ _ _ _ _ _ => []
  | df_assert_unique _ _ _ _ _ _ => []
  | df_columns fn _ _ => [fn]
  | df_describe fn _ _ _ => [fn]
  | df_disable_checks _ => []
  | df_dtypes fn _ _ => [fn]
  | df_enable_checks _ => []
  | df_function fn _ _ => [fn]
  | df_get_mode _ => []
  | df_head _ fn _ _ => [fn]
  | df_hist fn _ _ _ => [fn]
  | df_info fn _ _ _ => [fn]
  | df_memory_usage fn _ _ _ => [fn]
  | df_ncols fn _ _ => [fn]
  | df_ndups fn _ _ _ => [fn]
  | df_nnulls fn _ _ _ => [fn]
  | df_nrows fn _ _ => [fn]
  | df_nunique _ fn _ _ => [fn]
  | df_plot fn _ _ _ => [fn]
  | df_print _ fn _ _ _ => [fn]
  | df_print_time_elapsed _ _ _ => []
  | df_reset_format => []
  | df_set_format _ => []
  | df_set_mode _ _ => []
  | df_shape fn _ _ => [fn]
  | df_tail _ fn _ _ => [fn]
  | df_unique _ fn _ => [fn]
  | df_value_counts _ fn _ _ _ => [fn]
  | df_write _ _ fn _ _ _ => [fn]
  end.

Section DataFrameRun.
Context `{PD : Pandas}.

(** Running a call on the object the accessor was reached from. *)
Definition df_run (self : pyval) (c : df_call) : M pyval :=
  match c with
  | df_assert_all_nulls fail_message pass_message subset raise_exception exception_to_raise verbose
      => DataFrameChecks.assert_all_nulls self fail_message pass_message subset raise_exception
      exception_to_raise verbose
  | df_assert_data condition fail_message pass_message subset raise_exception exception_to_raise
      message_shows_condition verbose => DataFrameChecks.assert_data self condition fail_message
      pass_message subset raise_exception exception_to_raise message_shows_condition verbose
  | df_assert_datetime fail_message pass_message subset raise_exception exception_to_raise verbose
      => DataFrameChecks.assert_datetime self fail_message pass_message subset raise_exception
      exception_to_raise verbose
  | df_assert_float fail_message pass_message subset raise_exception exception_to_raise verbose =>
      DataFrameChecks.assert_float self fail_message pass_message subset raise_exception
      exception_to_raise verbose
  | df_assert_greater_than min fail_message pass_message or_equal_to subset raise_exception
      exception_to_raise verbose => DataFrameChecks.assert_greater_than self min fail_message
      pass_message or_equal_to subset raise_exception exception_to_raise verbose
  | df_assert_int fail_message pass_message subset raise_exception exception_to_raise verbose =>
      DataFrameChecks.assert_int self fail_message pass_message subset raise_exception
      exception_to_raise verbose
  | df_assert_less_than max fail_message pass_message or_equal_to subset raise_exception
      exception_to_raise verbose => DataFrameChecks.assert_less_than self max fail_message
      pass_message or_equal_to subset raise_exception exception_to_raise verbose
  | df_assert_negative fail_message pass_message subset assert_no_nulls raise_exception
      exception_to_raise verbose => DataFrameChecks.assert_negative self fail_message pass_message
      subset assert_no_nulls raise_exception exception_to_raise verbose
  | df_assert_no_nulls fail_message pass_message subset raise_exception exception_to_raise verbose
      => DataFrameChecks.assert_no_nulls self fail_message pass_message subset raise_exception
      exception_to_raise verbose
  | df_assert_nrows nrows fail_message pass_message raise_exception exception_to_raise verbose =>
      DataFrameChecks.assert_nrows self nrows fail_message pass_message raise_exception
      exception_to_raise verbose
  | df_assert_positive fail_message pass_message subset assert_no_nulls raise_exception
      exception_to_raise verbose => DataFrameChecks.assert_positive self fail_message pass_message
      subset assert_no_nulls raise_exception exception_to_raise verbose
  | df_assert_same_nrows other fail_message pass_message raise_exception exception_to_raise verbose
      => DataFrameChecks.assert_same_nrows self other fail_message pass_message raise_exception
      exception_to_raise verbose
  | df_assert_str fail_message pass_message subset raise_exception exception_to_raise verbose =>
      DataFrameChecks.assert_str self fail_message pass_message subset raise_exception
      exception_to_raise verbose
  | df_assert_timedelta fail_message pass_message subset raise_exception exception_to_raise verbose
      => DataFrameChecks.assert_timedelta self fail_message pass_message subset raise_exception
      exception_to_raise verbose
  | df_assert_type dtype fail_message pass_message subset raise_exception exception_to_raise
      verbose => DataFrameChecks.assert_type self dtype fail_message pass_message subset
      raise_exception exception_to_raise verbose
  | df_assert_unique fail_message pass_message subset raise_exception exception_to_raise verbose =>
      DataFrameChecks.assert_unique self fail_message pass_message subset raise_exception
      exception_to_raise verbose
  | df_columns fn subset check_name => DataFrameChecks.columns self fn subset check_name
  | df_describe fn subset check_name kwargs => DataFrameChecks.describe self fn subset check_name
      kwargs
  | df_disable_checks enable_asserts => DataFrameChecks.disable_checks self enable_asserts
  | df_dtypes fn subset check_name => DataFrameChecks.dtypes self fn subset check_name
  | df_enable_checks enable_asserts => DataFrameChecks.enable_checks self enable_asserts
  | df_function fn subset check_name => DataFrameChecks.function self fn subset check_name
  | df_get_mode check_name => DataFrameChecks.get_mode self check_name
  | df_head n fn subset check_name => DataFrameChecks.head self n fn subset check_name
  | df_hist fn subset check_name kwargs => DataFrameChecks.hist self fn subset check_name kwargs
  | df_info fn subset check_name kwargs => DataFrameChecks.info self fn subset check_name kwargs
  | df_memory_usage fn subset check_name kwargs => DataFrameChecks.memory_usage self fn subset
      check_name kwargs
  | df_ncols fn subset check_name => DataFrameChecks.ncols self fn subset check_name
  | df_ndups fn subset check_name kwargs => DataFrameChecks.ndups self fn subset check_name kwargs
  | df_nnulls fn subset by_column check_name => DataFrameChecks.nnulls self fn subset by_column
      check_name
  | df_nrows fn subset check_name => DataFrameChecks.nrows self fn subset check_name
  | df_nunique column fn check_name kwargs => DataFrameColumnChecks.nunique self column fn
      check_name kwargs
  | df_plot fn subset check_name kwargs => DataFrameChecks.plot self fn subset check_name kwargs
  | df_print object fn subset check_name max_rows => DataFrameChecks.print self object fn subset
      check_name max_rows
  | df_print_time_elapsed start_time lead_in units => DataFrameChecks.print_time_elapsed self
      start_time lead_in units
  | df_reset_format => DataFrameChecks.reset_format self
  | df_set_format kwargs => DataFrameChecks.set_format self kwargs
  | df_set_mode enable_checks enable_asserts => DataFrameChecks.set_mode self enable_checks
      enable_asserts
  | df_shape fn subset check_name => DataFrameChecks.shape self fn subset check_name
  | df_tail n fn subset check_name => DataFrameChecks.tail self n fn subset check_name
  | df_unique column fn check_name => DataFrameColumnChecks.unique self column fn check_name
  | df_value_counts column fn max_rows check_name kwargs => DataFrameColumnChecks.value_counts self
      column fn max_rows check_name kwargs
  | df_write path format fn subset verbose kwargs => DataFrameChecks.write self path format fn
      subset verbose kwargs
  end.

End DataFrameRun.

(** A call [s.check.<method>(...)] of a public method, with its arguments. *)
Inductive sr_call :=
  | sr_assert_all_nulls (fail_message : pystr) (pass_message : pystr) (raise_exception : bool)
      (exception_to_raise : exn_kind) (verbose : bool)
  | sr_assert_data (condition : pyfn) (fail_message : pystr) (pass_message : pystr)
      (raise_exception : bool) (exception_to_raise : exn_kind) (message_shows_condition : bool)
      (verbose : bool)
  | sr_assert_datetime (fail_message : option pystr) (pass_message : pystr)
      (raise_exception : bool) (exception_to_raise : exn_kind) (verbose : bool)
  | sr_assert_float (fail_message : option pystr) (pass_message : pystr) (raise_exception : bool)
      (exception_to_raise : exn_kind) (verbose : bool)
  | sr_assert_greater_than (min : pyval) (fail_message : pystr) (pass_message : pystr)
      (or_equal_to : bool) (raise_exception : bool) (exception_to_raise : exn_kind) (verbose : bool)
  | sr_assert_int (fail_message : option pystr) (pass_message : pystr) (raise_exception : bool)
      (exception_to_raise : exn_kind) (verbose : bool)
  | sr_assert_less_than (max : pyval) (fail_message : pystr) (pass_message : pystr)
      (or_equal_to : bool) (raise_exception : bool) (exception_to_raise : exn_kind) (verbose : bool)
  | sr_assert_negative (fail_message : pystr) (pass_message : pystr) (assert_no_nulls : bool)
      (raise_exception : bool) (exception_to_raise : exn_kind) (verbose : bool)
  | sr_assert_no_nulls (fail_message : pystr) (pass_message : pystr) (raise_exception : bool)
      (exception_to_raise : exn_kind) (verbose : bool)
  | sr_assert_nrows (nrows : Z) (fail_message : pystr) (pass_message : pystr)
      (raise_exception : bool) (exception_to_raise : exn_kind) (verbose : bool)
  | sr_assert_positive (fail_message : pystr) (pass_message : pystr) (assert_no_nulls : bool)
      (raise_exception : bool) (exception_to_raise : exn_kind) (verbose : bool)
  | sr_assert_same_nrows (other : pyval) (fail_message : pystr) (pass_message : pystr)
      (raise_exception : bool) (exception_to_raise : exn_kind) (verbose : bool)
  | sr_assert_str (fail_message : option pystr) (pass_message : pystr) (raise_exception : bool)
      (exception_to_raise : exn_kind) (verbose : bool)
  | sr_assert_timedelta (fail_message : option pystr) (pass_message : pystr)
      (raise_exception : bool) (exception_to_raise : exn_kind) (verbose : bool)
  | sr_assert_type (dtype : pystr) (fail_message : option pystr) (pass_message : pystr)
      (raise_exception : bool) (exception_to_raise : exn_kind) (verbose : bool)
  | sr_assert_unique (fail_message : pystr) (pass_message : pystr) (raise_exception : bool)
      (exception_to_raise : exn_kind) (verbose : bool)
  | sr_describe (fn : pyfn) (check_name : option pystr) (kwargs : list (pystr * pyval))
  | sr_disable_checks (enable_asserts : bool)
  | sr_dtype (fn : pyfn) (check_name : option pystr)
  | sr_enable_checks (enable_asserts : bool)
  | sr_function (fn : pyfn) (check_name : option pystr)
  | sr_get_mode (check_name : option pystr)
  | sr_head (n : Z) (fn : pyfn) (check_name : option pystr)
  | sr_hist (fn : pyfn) (check_name : option pystr) (kwargs : list (pystr * pyval))
  | sr_info (fn : pyfn) (check_name : option pystr) (kwargs : list (pystr * pyval))
  | sr_memory_usage (fn : pyfn) (check_name : option pystr) (kwargs : list (pystr * pyval))
  | sr_ndups (fn : pyfn) (check_name : option pystr) (kwargs : list (pystr * pyval))
  | sr_nnulls (fn : pyfn) (check_name : option pystr)
  | sr_nrows (fn : pyfn) (check_name : option pystr)
  | sr_nunique (fn : pyfn) (check_name : option pystr) (kwargs : list (pystr * pyval))
  | sr_plot (fn : pyfn) (check_name : option pystr) (kwargs : list (pystr * pyval))
  | sr_print (object : pyval) (fn : pyfn) (check_name : option pystr) (max_rows : Z)
  | sr_print_time_elapsed (start_time : pyfloat) (lead_in : option pystr) (units : pystr)
  | sr_reset_format
  | sr_set_format (kwargs : list (pystr * optval))
  | sr_set_mode (enable_checks : bool) (enable_asserts : bool)
  | sr_shape (fn : pyfn) (check_name : option pystr)
  | sr_tail (n : Z) (fn : pyfn) (check_name : option pystr)
  | sr_unique (fn : pyfn) (check_name : option pystr)
  | sr_value_counts (fn : pyfn) (max_rows : Z) (check_name : option pystr) (kwargs : list
      (pystr * pyval))
  | sr_write (path : pystr) (format : option pystr) (fn : pyfn) (verbose : bool) (kwargs : list
      (pystr * pyval)).

(** The callables among the arguments of a call. *)
Definition sr_callables (c : sr_call) : list pyfn :=
  match c with
  | sr_assert_all_nulls _ _ _ _ _ => []
  | sr_assert_data condition _ _ _ _ _ _ => [condition]
  | sr_assert_datetime _ _ _ _ _ => []
  | sr_assert_float _ _ _ _ _ => []
  | sr_assert_greater_than _ _ _ _ _ _ _ => []
  | sr_assert_int _ _ _ _ _ => []
  | sr_assert_less_than _ _ _ _ _ _ _ => []
  | sr_assert_negative _ _ _ _ _ _ => []
  | sr_assert_no_nulls _ _ _ _ _ => []
  | sr_assert_nrows _ _ _ _ _ _ => []
  | sr_assert_positive _ _ _ _ _ _ => []
  | sr_assert_same_nrows _ _ _ _ _ _ => []
  | sr_assert_str _ _ _ _ _ => []
  | sr_assert_timedelta _ _ _ _ _ => []
  | sr_assert_type _ _ _ _ _ _ => []
  | sr_assert_unique _ _ _ _ _ => []
  | sr_describe fn _ _ => [fn]
  | sr_disable_checks _ => []
  | sr_dtype fn _ => [fn]
  | sr_enable_checks _ => []
  | sr_function fn _ => [fn]
  | sr_get_mode _ => []
  | sr_head _ fn _ => [fn]
  | sr_hist fn _ _ => [fn]
  | sr_info fn _ _ => [fn]
  | sr_memory_usage fn _ _ => [fn]
  | sr_ndups fn _ _ => [fn]
  | sr_nnulls fn _ => [fn]
  | sr_nrows fn _ => [fn]
  | sr_nunique fn _ _ => [fn]
  | sr_plot fn _ _ => [fn]
  | sr_print _ fn _ _ => [fn]
  | sr_print_time_elapsed _ _ _ => []
  | sr_reset_format => []
  | sr_set_format _ => []
  | sr_set_mode _ _ => []
  | sr_shape fn _ => [fn]
  | sr_tail _ fn _ => [fn]
  | sr_unique fn _ => [fn]
  | sr_value_counts fn _ _ _ => [fn]
  | sr_write _ _ fn _ _ => [fn]
  end.

Section SeriesRun.
Context `{PD : Pandas}.

(** Running a call on the object the accessor was reached from. *)
Definition sr_run (self : pyval) (c : sr_call) : M pyval :=
  match c with
  | sr_assert_all_nulls fail_message pass_message raise_exception exception_to_raise verbose =>
      SeriesChecks.assert_all_nulls self fail_message pass_message raise_exception
      exception_to_raise verbose
  | sr_assert_data condition fail_message pass_message raise_exception exception_to_raise
      message_shows_condition verbose => SeriesChecks.assert_data self condition fail_message
      pass_message raise_exception exception_to_raise message_shows_condition verbose
  | sr_assert_datetime fail_message pass_message raise_exception exception_to_raise verbose =>
      SeriesChecks.assert_datetime self fail_message pass_message raise_exception
      exception_to_raise verbose
  | sr_assert_float fail_message pass_message raise_exception exception_to_raise verbose =>
      SeriesChecks.assert_float self fail_message pass_message raise_exception exception_to_raise
      verbose
  | sr_assert_greater_than min fail_message pass_message or_equal_to raise_exception
      exception_to_raise verbose => SeriesChecks.assert_greater_than self min fail_message
      pass_message or_equal_to raise_exception exception_to_raise verbose
  | sr_assert_int fail_message pass_message raise_exception exception_to_raise verbose =>
      SeriesChecks.assert_int self fail_message pass_message raise_exception exception_to_raise
      verbose
  | sr_assert_less_than max fail_message pass_message or_equal_to raise_exception
      exception_to_raise verbose => SeriesChecks.assert_less_than self max fail_message
      pass_message or_equal_to raise_exception exception_to_raise verbose
  | sr_assert_negative fail_message pass_message assert_no_nulls raise_exception exception_to_raise
      verbose => SeriesChecks.assert_negative self fail_message pass_message assert_no_nulls
      raise_exception exception_to_raise verbose
  | sr_assert_no_nulls fail_message pass_message raise_exception exception_to_raise verbose =>
      SeriesChecks.assert_no_nulls self fail_message pass_message raise_exception
      exception_to_raise verbose
  | sr_assert_nrows nrows fail_message pass_message raise_exception exception_to_raise verbose =>
      SeriesChecks.assert_nrows self nrows fail_message pass_message raise_exception
      exception_to_raise verbose
  | sr_assert_positive fail_message pass_message assert_no_nulls raise_exception exception_to_raise
      verbose => SeriesChecks.assert_positive self fail_message pass_message assert_no_nulls
      raise_exception exception_to_raise verbose
  | sr_assert_same_nrows other fail_message pass_message raise_exception exception_to_raise verbose
      => SeriesChecks.assert_same_nrows self other fail_message pass_message raise_exception
      exception_to_raise verbose
  | sr_assert_str fail_message pass_message raise_exception exception_to_raise verbose =>
      SeriesChecks.assert_str self fail_message pass_message raise_exception exception_to_raise
      verbose
  | sr_assert_timedelta fail_message pass_message raise_exception exception_to_raise verbose =>
      SeriesChecks.assert_timedelta self fail_message pass_message raise_exception
      exception_to_raise verbose
  | sr_assert_type dtype fail_message pass_message raise_exception exception_to_raise verbose =>
      SeriesChecks.assert_type self dtype fail_message pass_message raise_exception
      exception_to_raise verbose
  | sr_assert_unique fail_message pass_message raise_exception exception_to_raise verbose =>
      SeriesChecks.assert_unique self fail_message pass_message raise_exception exception_to_raise
      verbose
  | sr_describe fn check_name kwargs => SeriesChecks.describe self fn check_name kwargs
  | sr_disable_checks enable_asserts => SeriesChecks.disable_checks self enable_asserts
  | sr_dtype fn check_name => SeriesChecks.dtype self fn check_name
  | sr_enable_checks enable_asserts => SeriesChecks.enable_checks self enable_asserts
  | sr_function fn check_name => SeriesChecks.function self fn check_name
  | sr_get_mode check_name => SeriesChecks.get_mode self check_name
  | sr_head n fn check_name => SeriesChecks.head self n fn check_name
  | sr_hist fn check_name kwargs => SeriesChecks.hist self fn check_name kwargs
  | sr_info fn check_name kwargs => SeriesChecks.info self fn check_name kwargs
  | sr_memory_usage fn check_name kwargs => SeriesChecks.memory_usage self fn check_name kwargs
  | sr_ndups fn check_name kwargs => SeriesChecks.ndups self fn check_name kwargs
  | sr_nnulls fn check_name => SeriesChecks.nnulls self fn check_name
  | sr_nrows fn check_name => SeriesChecks.nrows self fn check_name
  | sr_nunique fn check_name kwargs => SeriesChecks.nunique self fn check_name kwargs
  | sr_plot fn check_name kwargs => SeriesChecks.plot self fn check_name kwargs
  | sr_print object fn check_name max_rows => SeriesChecks.print self object fn check_name max_rows
  | sr_print_time_elapsed start_time lead_in units => SeriesChecks.print_time_elapsed self
      start_time lead_in units
  | sr_reset_format => SeriesChecks.reset_format self
  | sr_set_format kwargs => SeriesChecks.set_format self kwargs
  | sr_set_mode enable_checks enable_asserts => SeriesChecks.set_mode self enable_checks
      enable_asserts
  | sr_shape fn check_name => SeriesChecks.shape self fn check_name
  | sr_tail n fn check_name => SeriesChecks.tail self n fn check_name
  | sr_unique fn check_name => SeriesChecks.unique self fn check_name
  | sr_value_counts fn max_rows check_name kwargs => SeriesChecks.value_counts self fn max_rows
      check_name kwargs
  | sr_write path format fn verbose kwargs => SeriesChecks.write self path format fn verbose kwargs
  end.

End SeriesRun.

(** Every pandas object that exists before a computation still exists,
    with the same content, after it. *)
Definition Rh (st st' : state) : Prop :=
  forall l t, heap st !! l = Some t -> heap st' !! l = Some t.

(** A computation that mutates no existing object, whether it returns or
    raises. *)
Definition pres {A} (m : M A) : Prop :=
  forall st r st', m st = (r, st') -> Rh st st'.

(** A callable that mutates none of the objects existing when it is called. *)
Definition fpres (f : pyfn) : Prop := forall v, pres (f v).

(** A computation that, whenever it returns, returns [self]. *)
Definition rets (self : pyval) (m : M pyval) : Prop :=
  forall st r st', m st = (Ok r, st') -> r = self.

(** A chained call: it mutates no existing object, and whenever it returns
    it returns [self]. *)
Definition chain_safe (self : pyval) (m : M pyval) : Prop :=
  forall st r st', m st = (r, st') -> Rh st st' /\ (r = Ok self \/ exists e, r = Err e).

(** A computation that adds nothing to the output: nothing printed,
    displayed, drawn or written to a file. *)
Definition silent {A} (m : M A) : Prop :=
  forall st r st', m st = (r, st') -> out st' = out st.

Definition fsilent (f : pyfn) : Prop := forall v, silent (f v).

(** A call of a public method of either accessor. *)
Inductive check_call := OnFrame (c : df_call) | OnSeries (c : sr_call).

Definition callables (c : check_call) : list pyfn :=
  match c with OnFrame c => df_callables c | OnSeries c => sr_callables c end.

Section Run.
Context `{PD : Pandas}.
Definition run (self : pyval) (c : check_call) : M pyval :=
  match c with OnFrame c => df_run self c | OnSeries c => sr_run self c end.
End Run.

End Accessors.

(* ------------------------------------------------------------------ *)
(** ** The option registry: the format options and their validators *)

Module Registry.

Definition pfx : pystr := Options.pdchecks_prefix.

(** Every option of [l] is registered under [pdchecks.<name>] and its
    validator accepts the option's default. *)
Definition ok_for (l : list (pystr * optval * (optval -> bool))) (o : gmap pystr entry) : Prop :=
  Forall (fun '(n, d, _) => str_contains pfx n = false /\
            exists e, o !! (pfx ++ n) = Some e /\ e_valid e d = true) l.

Definition names (l : list (pystr * optval * (optval -> bool))) : list pystr :=
  map (fun '(n, _, _) => n) l.

(** The option [k] is registered and its validator accepts [v]. *)
Definition option_accepts (o : gmap pystr entry) (k : pystr) (v : optval) : bool :=
  match o !! k with Some e => e_valid e v | None => false end.

(** Every format option is registered and accepts its default. *)
Definition format_resettable (o : gmap pystr entry) : bool :=
  forallb (fun '(n, d, _) => option_accepts o (pfx ++ n) d) Options.format_options.

(** The four options [_initialize_options] registers before the format
    options. *)
Definition mode_options : list (pystr * optval * (optval -> bool)) :=
  [ (s "enable_checks", OBool true, Options.is_bool);
    (s "enable_asserts", OBool true, Options.is_bool);
    (s "print_to_stdout", OBool true, Options.is_bool);
    (s "custom_print_fn", ONone, Options._is_callable_validator) ].

(** The registry holding exactly the options of [l], each at its default. *)
Definition registered_opts (l : list (pystr * optval * (optval -> bool))) : gmap pystr entry :=
  list_to_map (map (fun '(n, d, v) => (pfx ++ n, {| e_default := d; e_value := d; e_valid := v |})) l).

End Registry.

(* ------------------------------------------------------------------ *)
(** ** Observations on tables and on the output *)

Module Observe.
Import Accessors.

(** All cells of a pandas object, column after column. *)
Definition cells (t : table) : list cell :=
  match t with DataFrame cols => concat (map snd cols) | Series _ v => v end.

(** Output a terminal can show: printed text, plain text for the custom
    print function, files written; no rich display and no figure. *)
Definition plain (e : event) : Prop :=
  match e with
  | Display _ | Drawn _ => False
  | CustomPrint _ (PRich _) => False
  | _ => True
  end.

(** A computation that, started in a terminal, stays in one and only
    appends plain output, whether it returns or raises. *)
Definition tplain {A} (m : M A) : Prop :=
  forall st r st', m st = (r, st') -> terminal st = true ->
    terminal st' = true /\ exists added, out st' = out st ++ added /\ Forall plain added.

Definition ftplain (f : pyfn) : Prop := forall v, tplain (f v).

End Observe.

(* ------------------------------------------------------------------ *)
(** ** A concrete run: a stand-in for pandas and an interpreter state *)

Module Demo.

(** Every pandas method returns [None]; floats print as their numerator. *)
Definition demo_pd : Pandas := {|
  pd_call := fun _ _ _ => Ok VNone;
  float_repr := fun q => str_Z (Qnum q);
  table_to_string := fun _ => s "<table>";
  styled_html := fun _ _ _ => s "<styled table>";
  figure_png := [];
  lambda_source := fun _ => s "lambda df: df";
  is_emoji := fun c => (8000 <=? c)%N;
  is_type := fun _ _ => true
|}.

(** [df = pd.DataFrame({"a": [-1, np.nan]})] at heap location 0, in a
    terminal that shows colours, at [time.time() == 100]. *)
Definition df0 : table := DataFrame [(s "a", [CNum (-1); CNaN])].

Definition st_empty : state := {|
  heap := {[0%N := df0]}; opts := ∅; out := []; clock := 100; terminal := true; colour := true
|}.

(** The state after [import pandas_checks]. *)
Definition st_init : state := snd (Options._initialize_options st_empty).

(** After [pdchecks.disable_checks()] (asserts stay enabled). *)
Definition st_off : state := snd (Options.disable_checks true st_init).

(** After [pdchecks.set_mode(enable_checks=True, enable_asserts=False)]. *)
Definition st_no_asserts : state := snd (Options.set_mode true false st_init).

(** After [pdchecks.set_format(use_emojis=False)]. *)
Definition st_no_emojis : state :=
  snd (Options.set_format [(s "use_emojis", OBool false)] st_init).

(** [lambda df: df.drop(df.index, inplace=True) or df]: empties the frame it
    receives, in place, and returns it. *)
Definition drop_all_inplace : pyfn :=
  fun v => match v with
           | VRef l =>
               let* h := read heap in
               match h !! l with
               | Some (DataFrame cols) =>
                   modify (set_heap (<[l := DataFrame (map (fun '(n, _) => (n, [])) cols)]> h)) ;;
                   ret v
               | Some (Series nm _) => modify (set_heap (<[l := Series nm []]> h)) ;; ret v
               | None => ret v
               end
           | _ => ret v
           end.

(** The number of rows of a pandas object. *)
Definition nrows_of (t : table) : Z :=
  match t with
  | DataFrame ((_, v) :: _) => Z.of_nat (length v)
  | DataFrame [] => 0
  | Series _ v => Z.of_nat (length v)
  end.

(** As [demo_pd], but [shape[0]] gives the number of rows. *)
Definition rows_pd : Pandas := {|
  pd_call := fun name _ t =>
    if bool_decide (name = s "shape[0]") then Ok (VInt (nrows_of t)) else Ok VNone;
  float_repr := fun q => str_Z (Qnum q);
  table_to_string := fun _ => s "<table>";
  styled_html := fun _ _ _ => s "<styled table>";
  figure_png := [];
  lambda_source := fun _ => s "lambda df: df";
  is_emoji := fun c => (8000 <=? c)%N;
  is_type := fun _ _ => true
|}.

(** A terminal without colours, before [import pandas_checks]. *)
Definition st_no_colour : state := {|
  heap := {[0%N := df0]}; opts := ∅; out := []; clock := 100; terminal := true; colour := false
|}.

End Demo.

(* ================================================================== *)
(** * Proofs *)

(* ------------------------------------------------------------------ *)
(** ** Chained calls leave the data alone and return it *)

Module ChainProofs.
Import Accessors.

Lemma pres_ret {A} (a : A) : pres (ret a).
Proof. intros st x st' H. unfold ret in H. inversion H; subst. unfold Rh; auto. Qed.
Lemma pres_bind {A B} (m : M A) (k : A -> M B) : pres m -> (forall a, pres (k a)) -> pres (bind m k).
Proof.
  intros Hm Hk st b st' H. unfold bind in H. destruct (m st) as [[a|e] st1] eqn:E.
  - intros l t Ht. apply (Hk a st1 b st' H). apply (Hm st _ st1 E). exact Ht.
  - inversion H; subst. exact (Hm st _ st' E).
Qed.
Lemma pres_raise {A} k msg : pres (@raise A k msg).
Proof. intros st a st' H. unfold raise in H. inversion H; subst. unfold Rh; auto. Qed.
Lemma pres_read {A} (f : state -> A) : pres (read f).
Proof. intros st a st' H. unfold read in H. inversion H; subst. unfold Rh; auto. Qed.
Lemma pres_set_opts o : pres (modify (set_opts o)).
Proof. intros st a st' H. unfold modify in H. inversion H; subst. unfold Rh; auto. Qed.
Lemma pres_emit e : pres (emit e).
Proof. intros st a st' H. unfold emit, modify in H. inversion H; subst. unfold Rh; auto. Qed.
Lemma pres_catch {A} (m h : M A) : pres m -> pres h -> pres (catch_option_error m h).
Proof.
  intros Hm Hh st a st' H. unfold catch_option_error in H.
  destruct (m st) as [[x|[[] msg]] s1] eqn:E;
  try (inversion H; subst; eapply Hm; exact E).
  intros l t Ht. eapply Hh; [exact H|]. eapply Hm; [exact E|exact Ht].
Qed.
Lemma pres_seq_ (l : list (M unit)) : (forall m, In m l -> pres m) -> pres (Options.seq_ l).
Proof.
  induction l as [|m l IH]; intros Hl; simpl.
  - apply pres_ret.
  - apply pres_bind; [apply Hl; left; auto|]. intros _. apply IH. intros; apply Hl; right; auto.
Qed.

Create HintDb pres discriminated.
Hint Resolve pres_ret pres_raise pres_emit pres_read pres_set_opts pres_catch : pres.
Hint Extern 1 (pres (bind _ _)) => apply pres_bind : pres.
Hint Extern 1 (pres (if _ then _ else _)) =>
  match goal with |- pres (if ?b then _ else _) => destruct b end : pres.
Hint Extern 2 (pres (match ?x with _ => _ end)) => destruct x : pres.
Hint Extern 1 (pres ((fun _ => _) _)) => cbv beta : pres.
Hint Extern 3 (fpres (fun _ => _)) => unfold fpres; intro : pres.
Hint Extern 1 (fpres (if _ then _ else _)) =>
  match goal with |- fpres (if ?b then _ else _) => destruct b end : pres.
Lemma pres_app (f : pyfn) v : fpres f -> pres (f v).
Proof. intros Hf; exact (Hf v). Qed.
Hint Extern 4 (pres (?f ?v)) => simple apply (pres_app f v) : pres.
Ltac pres_auto := eauto 200 with pres.

Lemma pres_single_key p : pres (single_key p).
Proof. unfold single_key. pres_auto. Qed.
Hint Resolve pres_single_key : pres.
Lemma pres_get_option p : pres (get_option p).
Proof. unfold get_option. pres_auto. Qed.
Lemma pres_set_option p v : pres (set_option p v).
Proof. unfold set_option. pres_auto. Qed.
Lemma pres_register_option k d v : pres (register_option k d v).
Proof. unfold register_option. pres_auto. Qed.
Hint Resolve pres_get_option pres_set_option pres_register_option : pres.

Lemma pres_initialize_format_options o : pres (Options._initialize_format_options o).
Proof.
  unfold Options._initialize_format_options. apply pres_seq_.
  intros m Hm. apply in_map_iff in Hm as [[[n d] v] [<- _]].
  unfold Options._register_option. pres_auto.
Qed.
Hint Resolve pres_initialize_format_options : pres.
Lemma pres_set_format kw : pres (Options.set_format kw).
Proof.
  unfold Options.set_format. apply pres_seq_.
  intros m Hm. apply in_map_iff in Hm as [[a v] [<- _]]. unfold Options._set_option. pres_auto.
Qed.
Hint Resolve pres_set_format : pres.
Lemma pres_reset_format : pres Options.reset_format.
Proof. unfold Options.reset_format. pres_auto. Qed.
Lemma pres_initialize_options : pres Options._initialize_options.
Proof. unfold Options._initialize_options, Options._register_option. pres_auto. Qed.
Lemma pres_get_mode : pres Options.get_mode.
Proof. unfold Options.get_mode. pres_auto. Qed.
Lemma pres_checks_enabled : pres Options.checks_enabled.
Proof. unfold Options.checks_enabled. pres_auto. Qed.
Lemma pres_asserts_enabled : pres Options.asserts_enabled.
Proof. unfold Options.asserts_enabled. pres_auto. Qed.
Lemma pres_set_mode a b : pres (Options.set_mode a b).
Proof. unfold Options.set_mode, Options._set_option. pres_auto. Qed.
Hint Resolve pres_reset_format pres_initialize_options pres_get_mode pres_checks_enabled
  pres_asserts_enabled pres_set_mode : pres.

Section PresDisplay.
Context `{PD : Pandas}.

Lemma pres_as_table v : pres (Display.as_table v).
Proof. unfold Display.as_table. pres_auto. Qed.
Hint Resolve pres_as_table : pres.
Lemma pres_py_str v : pres (Display.py_str v).
Proof. unfold Display.py_str. pres_auto. Qed.
Lemma pres_py_truthy v : pres (Display.py_truthy v).
Proof. unfold Display.py_truthy. pres_auto. Qed.
Hint Resolve pres_py_str pres_py_truthy : pres.
Lemma pres_filter_emojis v : pres (Display._filter_emojis v).
Proof. unfold Display._filter_emojis. pres_auto. Qed.
Hint Resolve pres_filter_emojis : pres.
Lemma pres_filter_str v : pres (Display.filter_str v).
Proof. unfold Display.filter_str. pres_auto. Qed.
Lemma pres_print_router a b c d : pres (Display._print_router a b c d).
Proof. unfold Display._print_router. pres_auto. Qed.
Lemma pres_display_router a b c : pres (Display._display_router a b c).
Proof. unfold Display._display_router. pres_auto. Qed.
Lemma pres_colored a b c : pres (Display.colored a b c).
Proof. unfold Display.colored. pres_auto. Qed.
Hint Resolve pres_filter_str pres_print_router pres_display_router pres_colored : pres.
Lemma pres_lead_in a b c : pres (Display._lead_in a b c).
Proof. unfold Display._lead_in. pres_auto. Qed.
Hint Resolve pres_lead_in : pres.
Lemma pres_render_text a b c d e : pres (Display._render_text a b c d e).
Proof. unfold Display._render_text. pres_auto. Qed.
Hint Resolve pres_render_text : pres.
Lemma pres_display_line a b c : pres (Display._display_line a b c).
Proof. unfold Display._display_line. pres_auto. Qed.
Lemma pres_display_table_title a : pres (Display._display_table_title a).
Proof. unfold Display._display_table_title. pres_auto. Qed.
Lemma pres_display_plot_title a : pres (Display._display_plot_title a).
Proof. unfold Display._display_plot_title. pres_auto. Qed.
Lemma pres_print_table a b c : pres (Display._print_table a b c).
Proof. unfold Display._print_table. pres_auto. Qed.
Lemma pres_render_html a : pres (Display._render_html_with_indent a).
Proof. unfold Display._render_html_with_indent. pres_auto. Qed.
Hint Resolve pres_display_line pres_display_table_title pres_display_plot_title
  pres_print_table pres_render_html : pres.
Lemma pres_display_table a b : pres (Display._display_table a b).
Proof. unfold Display._display_table. pres_auto. Qed.
Lemma pres_display_plot : pres Display._display_plot.
Proof. unfold Display._display_plot. pres_auto. Qed.
Hint Resolve pres_display_table pres_display_plot : pres.
Lemma pres_display_check a b : pres (Display._display_check a b).
Proof. unfold Display._display_check. pres_auto. Qed.
End PresDisplay.
Hint Resolve pres_as_table pres_py_str pres_py_truthy pres_filter_emojis pres_filter_str
  pres_print_router pres_display_router pres_colored pres_lead_in pres_render_text
  pres_display_line pres_display_table_title pres_display_plot_title pres_print_table
  pres_render_html pres_display_table pres_display_plot pres_display_check : pres.

Section PresRun.
Context `{PD : Pandas}.
Lemma pres_start_timer v : pres (Timer.start_timer v).
Proof. unfold Timer.start_timer. pres_auto. Qed.
Lemma pres_print_time_elapsed a b c : pres (Timer.print_time_elapsed a b c).
Proof. unfold Timer.print_time_elapsed. pres_auto. Qed.
Lemma pres_lift {A} (r : res A) : pres (RunChecks.lift r).
Proof. unfold RunChecks.lift. pres_auto. Qed.
Hint Resolve pres_lift : pres.
Lemma pres_pd_method n a : fpres (RunChecks.pd_method n a).
Proof. intro v. unfold RunChecks.pd_method. pres_auto. Qed.
Lemma pres_getitem v k : pres (RunChecks.getitem v k).
Proof. unfold RunChecks.getitem. pres_auto. Qed.
Hint Resolve pres_pd_method pres_getitem : pres.
Lemma pres_apply_modifications d fn sub : fpres fn -> pres (RunChecks._apply_modifications d fn sub).
Proof. intros. unfold RunChecks._apply_modifications. pres_auto. Qed.
Lemma pres_identity : fpres RunChecks.identity.
Proof. intro v. unfold RunChecks.identity. pres_auto. Qed.
Hint Resolve pres_apply_modifications pres_identity : pres.
Lemma pres_check_data d cf mf sub n :
  fpres cf -> fpres mf -> pres (RunChecks._check_data d cf mf sub n).
Proof. intros. unfold RunChecks._check_data. pres_auto. Qed.
Lemma pres_color_option k : pres (RunChecks.color_option k).
Proof. unfold RunChecks.color_option. pres_auto. Qed.
Hint Resolve pres_check_data pres_color_option : pres.
Lemma pres_has_nulls a b c d : pres (RunChecks._has_nulls a b c d).
Proof. unfold RunChecks._has_nulls. pres_auto. Qed.
Lemma pres_is_type_condition d : fpres (RunChecks.is_type_condition d).
Proof. intro v. unfold RunChecks.is_type_condition. pres_auto. Qed.
End PresRun.
Hint Resolve pres_start_timer pres_print_time_elapsed pres_lift pres_pd_method pres_getitem
  pres_apply_modifications pres_identity pres_check_data pres_color_option pres_has_nulls
  pres_is_type_condition : pres.

Lemma rets_ret self : rets self (ret self).
Proof. intros st r st' H. unfold ret in H. congruence. Qed.
Lemma rets_raise self k msg : rets self (raise k msg).
Proof. intros st r st' H. discriminate. Qed.
Lemma rets_bind {A} self (m : M A) k : (forall a, rets self (k a)) -> rets self (bind m k).
Proof.
  intros Hk st r st' H. unfold bind in H. destruct (m st) as [[a|e] s1]; [|discriminate].
  exact (Hk a _ _ _ H).
Qed.
Create HintDb rets discriminated.
Hint Resolve rets_ret rets_raise : rets.
Hint Extern 1 (rets _ (bind _ _)) => apply rets_bind; intro : rets.
Hint Extern 1 (rets _ (if _ then _ else _)) =>
  match goal with |- rets _ (if ?b then _ else _) => destruct b end : rets.
Hint Extern 2 (rets _ (match ?x with _ => _ end)) => destruct x : rets.
Ltac rets_auto := eauto 100 with rets.

Lemma chain_of self m : pres m -> rets self m -> chain_safe self m.
Proof.
  intros Hp Hr st r st' H. split; [exact (Hp _ _ _ H)|].
  destruct r as [v|e]; [left; f_equal; exact (Hr _ _ _ H) | right; eauto].
Qed.

Section M.
Context `{PD : Pandas}.
Import RunChecks.
Lemma pres_report_assert a b c d e f g h : pres (DataFrameChecks._report_assert a b c d e f g h).
Proof. unfold DataFrameChecks._report_assert. pres_auto. Qed.
Hint Resolve pres_report_assert : pres.
Lemma pres_df_assert_data self cond a b c d e f g :
  fpres cond -> pres (DataFrameChecks.assert_data self cond a b c d e f g).
Proof. intros. unfold DataFrameChecks.assert_data. pres_auto. Qed.
Lemma rets_df_assert_data self cond a b c d e f g :
  rets self (DataFrameChecks.assert_data self cond a b c d e f g).
Proof. unfold DataFrameChecks.assert_data. rets_auto. Qed.
Lemma pres_nrows_eq m : pres m -> fpres (DataFrameChecks.nrows_eq m).
Proof. intros Hm v. unfold DataFrameChecks.nrows_eq. pres_auto. Qed.
Hint Resolve pres_df_assert_data rets_df_assert_data pres_nrows_eq : pres.
Lemma pres_df_assert_type self a b c d e f g : pres (DataFrameChecks.assert_type self a b c d e f g).
Proof. unfold DataFrameChecks.assert_type, DataFrameChecks.join_names. pres_auto. Qed.
End M.

Ltac unfold_head :=
  repeat (lazymatch goal with
          | |- pres (bind _ _) => fail
          | |- rets _ (bind _ _) => fail
          | |- pres ?m => let m' := eval red in m in progress change (pres m')
          | |- rets ?s ?m => let m' := eval red in m in progress change (rets s m')
          end).
Ltac pres_method := intros; unfold_head; pres_auto.
Ltac rets_method := intros; unfold_head; rets_auto.

Section M2.
Context `{PD : Pandas}.
Hint Resolve pres_report_assert pres_df_assert_data pres_nrows_eq pres_df_assert_type : pres.
Lemma pres_df_describe self fn a b c : fpres fn -> pres (DataFrameChecks.describe self fn a b c).
Proof. pres_method. Qed.
Lemma pres_df_get_mode self a : pres (DataFrameChecks.get_mode self a).
Proof. pres_method. Qed.
Lemma pres_df_head self a fn b c : fpres fn -> pres (DataFrameChecks.head self a fn b c).
Proof. pres_method. Qed.
Lemma pres_df_tail self a fn b c : fpres fn -> pres (DataFrameChecks.tail self a fn b c).
Proof. pres_method. Qed.
Lemma pres_df_hist self fn a b c : fpres fn -> pres (DataFrameChecks.hist self fn a b c).
Proof. intros. unfold DataFrameChecks.hist, DataFrameChecks.py_len. pres_auto. Qed.
Lemma pres_df_memory_usage self fn a b c : fpres fn -> pres (DataFrameChecks.memory_usage self fn a b c).
Proof. pres_method. Qed.
Lemma pres_df_ndups self fn a b c : fpres fn -> pres (DataFrameChecks.ndups self fn a b c).
Proof. pres_method. Qed.
Lemma pres_df_nnulls self fn a b c : fpres fn -> pres (DataFrameChecks.nnulls self fn a b c).
Proof. pres_method. Qed.
Lemma pres_df_nrows self fn a b : fpres fn -> pres (DataFrameChecks.nrows self fn a b).
Proof. pres_method. Qed.
Lemma pres_df_plot self fn a b c : fpres fn -> pres (DataFrameChecks.plot self fn a b c).
Proof. pres_method. Qed.
Lemma pres_df_print self o fn a b c : fpres fn -> pres (DataFrameChecks.print self o fn a b c).
Proof. pres_method. Qed.
Lemma pres_df_write self p f fn a b c : fpres fn -> pres (DataFrameChecks.write self p f fn a b c).
Proof. intros. unfold DataFrameChecks.write, DataFrameChecks.export. pres_auto. Qed.
End M2.
Hint Resolve pres_report_assert pres_df_assert_data rets_df_assert_data pres_nrows_eq
  pres_df_assert_type pres_df_describe pres_df_get_mode pres_df_head pres_df_tail pres_df_hist
  pres_df_memory_usage pres_df_ndups pres_df_nnulls pres_df_nrows pres_df_plot pres_df_print
  pres_df_write : pres.

Ltac split_forall :=
  repeat match goal with
         | H : Forall _ (_ :: _) |- _ => inversion_clear H
         | H : Forall _ [] |- _ => clear H
         end.

Section M3.
Context `{PD : Pandas}.
Lemma pres_to_frame v : pres (SeriesChecks.to_frame v).
Proof. unfold SeriesChecks.to_frame. pres_auto. Qed.
Lemma pres_framed v fn : fpres fn -> pres (SeriesChecks.framed v fn).
Proof. intros. unfold SeriesChecks.framed. eauto using pres_to_frame with pres. Qed.
Lemma pres_name_or_series v : pres (SeriesChecks.name_or_series v).
Proof. unfold SeriesChecks.name_or_series, SeriesChecks.series_name. pres_auto. Qed.
Lemma pres_sr_assert_data self cond a b c d e f :
  fpres cond -> pres (SeriesChecks.assert_data self cond a b c d e f).
Proof. pres_method. Qed.
Lemma rets_sr_assert_data self cond a b c d e f :
  rets self (SeriesChecks.assert_data self cond a b c d e f).
Proof. rets_method. Qed.
End M3.
Hint Resolve pres_to_frame pres_framed pres_name_or_series pres_sr_assert_data rets_sr_assert_data : pres.
Hint Resolve rets_df_assert_data rets_sr_assert_data : rets.

Section M4.
Context `{PD : Pandas}.
Lemma pres_sr_run self c : Forall fpres (sr_callables c) -> pres (sr_run self c).
Proof. destruct c; simpl; intros Hf; split_forall; pres_method. Qed.
Lemma rets_sr_run self c : rets self (sr_run self c).
Proof. destruct c; simpl; rets_method. Qed.
End M4.

Section M5.
Context `{PD : Pandas}.
Lemma pres_sr_nunique self fn a b : fpres fn -> pres (SeriesChecks.nunique self fn a b).
Proof. pres_method. Qed.
Lemma pres_sr_unique self fn a : fpres fn -> pres (SeriesChecks.unique self fn a).
Proof. pres_method. Qed.
Lemma pres_sr_value_counts self fn a b c : fpres fn -> pres (SeriesChecks.value_counts self fn a b c).
Proof. pres_method. Qed.
Lemma pres_on_column v k : (forall x, pres (k x)) -> pres (DataFrameColumnChecks.on_column v k).
Proof. intros. unfold DataFrameColumnChecks.on_column. pres_auto. Qed.
End M5.
Hint Resolve pres_sr_nunique pres_sr_unique pres_sr_value_counts pres_on_column : pres.

Section M6.
Context `{PD : Pandas}.
Lemma pres_export a b c : pres (DataFrameChecks.export a b c).
Proof. unfold DataFrameChecks.export. pres_auto. Qed.
Lemma pres_py_len v : pres (DataFrameChecks.py_len v).
Proof. unfold DataFrameChecks.py_len. pres_auto. Qed.
End M6.
Hint Resolve pres_export pres_py_len : pres.

Section M7.
Context `{PD : Pandas}.
Lemma pres_df_run self c : Forall fpres (df_callables c) -> pres (df_run self c).
Proof. destruct c; simpl; intros Hf; split_forall; pres_method. Qed.
Lemma rets_df_run self c : rets self (df_run self c).
Proof. destruct c; simpl; rets_method. Qed.
Theorem df_chain c self : Forall fpres (df_callables c) -> chain_safe self (df_run self c).
Proof. intros; apply chain_of; [apply pres_df_run; auto | apply rets_df_run]. Qed.
End M7.

Section M8.
Context `{PD : Pandas}.
Lemma run_pres self c : Forall fpres (callables c) -> pres (run self c).
Proof. destruct c; simpl; [apply pres_df_run | apply pres_sr_run]. Qed.
Lemma run_rets self c : rets self (run self c).
Proof. destruct c; simpl; [apply rets_df_run | apply rets_sr_run]. Qed.
End M8.

(** C1 (amended): for every public method of the DataFrame and Series
    accessors and every argument combination, checks enabled or disabled,
    provided the callables passed in (transform [fn], conditions) mutate no
    existing pandas object, the call mutates no existing pandas object, and
    when it returns it returns the object it was invoked on. *)
Theorem check_chain_safe `{PD : Pandas} (c : check_call) (self : pyval) :
  Forall fpres (callables c) -> chain_safe self (run self c).
Proof. intros Hf. apply chain_of; [apply run_pres; exact Hf | apply run_rets]. Qed.

Lemma check_chain_safe_witness :
  Forall fpres (callables (OnFrame (df_get_mode None))) /\
  chain_safe (VRef 0) (run (PD := Demo.demo_pd) (VRef 0) (OnFrame (df_get_mode None))).
Proof.
  split; [simpl; constructor|].
  apply (check_chain_safe (PD := Demo.demo_pd) (OnFrame (df_get_mode None)) (VRef 0)).
  simpl. constructor.
Defined.

(** C1 (counterexample): [df.check.nrows(fn=lambda df: df.drop(df.index,
    inplace=True) or df)] with checks enabled empties [df]: the transform
    receives the chained object itself, so the call does not leave it
    unchanged. *)
Lemma nrows_mutating_fn :
  ~ chain_safe (VRef 0)
      (run (PD := Demo.demo_pd) (VRef 0) (OnFrame (df_nrows Demo.drop_all_inplace VNone None))).
Proof.
  intros H.
  set (m := run (PD := Demo.demo_pd) (VRef 0) (OnFrame (df_nrows Demo.drop_all_inplace VNone None))).
  destruct (H Demo.st_init (fst (m Demo.st_init)) (snd (m Demo.st_init))) as [Hrh _];
    [apply surjective_pairing|].
  specialize (Hrh 0%N Demo.df0 eq_refl). vm_compute in Hrh. discriminate Hrh.
Qed.

End ChainProofs.

(* ------------------------------------------------------------------ *)
(** ** Resetting the format options *)

Module RegistryProofs.
Import Registry.

Lemma select_exact pat o e : o !! pat = Some e -> select_options pat o = [pat].
Proof. intros H. unfold select_options. rewrite H. reflexivity. Qed.

Lemma single_key_exact p st e : opts st !! p = Some e -> single_key p st = (Ok p, st).
Proof.
  intros H. unfold single_key, bind, read. cbv beta iota zeta.
  rewrite (select_exact _ _ _ H). reflexivity.
Qed.
Lemma get_option_exact p st e : opts st !! p = Some e -> get_option p st = (Ok (e_value e), st).
Proof.
  intros H. unfold get_option. unfold bind at 1. rewrite (single_key_exact _ _ _ H).
  unfold bind, read. cbv beta iota zeta. rewrite H. reflexivity.
Qed.
Lemma set_option_exact p v st e : opts st !! p = Some e -> e_valid e v = true ->
  set_option p v st =
  (Ok tt, set_opts (<[p := {| e_default := e_default e; e_value := v; e_valid := e_valid e |}]> (opts st)) st).
Proof.
  intros H Hv. unfold set_option. unfold bind at 1. rewrite (single_key_exact _ _ _ H).
  unfold bind, read. cbv beta iota zeta. rewrite H, Hv. reflexivity.
Qed.

Lemma reregister k d v st e :
  opts st !! k = Some e -> e_valid e d = true ->
  catch_option_error (get_option k ;; set_option k d) (register_option k d v) st =
  (Ok tt, set_opts (<[k := {| e_default := e_default e; e_value := d;
                             e_valid := e_valid e |}]> (opts st)) st).
Proof.
  intros He Hv. unfold catch_option_error. unfold bind at 1. rewrite (get_option_exact _ _ _ He).
  rewrite (set_option_exact _ _ _ _ He Hv). reflexivity.
Qed.

Lemma register_existing name d v st e :
  let key := Options.pdchecks_prefix ++
    (if str_contains Options.pdchecks_prefix name
     then replace name Options.pdchecks_prefix [] else name) in
  opts st !! key = Some e -> e_valid e d = true ->
  Options._register_option name d v st =
  (Ok tt, set_opts (<[key := {| e_default := e_default e; e_value := d;
                               e_valid := e_valid e |}]> (opts st)) st).
Proof. intros key He Hv. exact (reregister key d v st e He Hv). Qed.

Lemma in_names n d v l : In (n, d, v) l -> In n (names l).
Proof. intros H. unfold names. apply in_map_iff. exists (n, d, v). auto. Qed.

Lemma seq_register l : forall st,
  ok_for l (opts st) -> NoDup (names l) ->
  exists st', Options.seq_ (map (fun '(n, d, v) => Options._register_option n d v) l) st = (Ok tt, st')
   /\ (forall k, (forall n, In n (names l) -> k <> pfx ++ n) -> opts st' !! k = opts st !! k)
   /\ (forall n d v, In (n, d, v) l ->
         exists e, opts st' !! (pfx ++ n) = Some e /\ e_value e = d /\ e_valid e d = true).
Proof.
  induction l as [|[[n d] v] l IH]; intros st Hok Hnd.
  - exists st. split; [reflexivity|]. split; [auto|]. intros ? ? ? [].
  - unfold ok_for in Hok. apply Forall_cons in Hok as [[Hn [e [He Hv]]] Hok'].
    simpl in Hnd. apply NoDup_cons in Hnd as [Hnin Hnd'].
    set (e1 := {| e_default := e_default e; e_value := d; e_valid := e_valid e |}).
    set (st1 := set_opts (<[pfx ++ n := e1]> (opts st)) st).
    assert (Hne : forall n', In n' (names l) -> pfx ++ n <> pfx ++ n').
    { intros n' Hin Heq. apply app_inv_head in Heq. subst n'. apply Hnin. apply list_elem_of_In. exact Hin. }
    assert (Hok1 : ok_for l (opts st1)).
    { unfold ok_for in *. rewrite Forall_forall in Hok' |- *. intros [[n' d'] v'] Hin.
      destruct (Hok' _ Hin) as [Hn' [e' [He' Hv']]].
      split; [exact Hn'|]. exists e'. split; [|exact Hv'].
      simpl. rewrite lookup_insert_ne; [exact He'|]. exact (Hne n' (in_names _ _ _ _ (proj1 (list_elem_of_In _ _) Hin))). }
    destruct (IH st1 Hok1 Hnd') as [st' [Hrun [Hkeep Hset]]].
    exists st'. split; [|split].
    + simpl. unfold bind at 1. pose proof (register_existing n d v st e) as Hreg. cbv zeta in Hreg.
      unfold pfx in Hn. rewrite Hn in Hreg. rewrite (Hreg He Hv). exact Hrun.
    + intros k Hk. rewrite Hkeep.
      * simpl. rewrite lookup_insert_ne; [reflexivity|]. intros Heq. subst k.
        exact (Hk n (or_introl eq_refl) eq_refl).
      * intros n' Hin. apply Hk. right. exact Hin.
    + intros n' d' v' [Heq|Hin].
      * inversion Heq; subst. exists e1. rewrite Hkeep.
        -- simpl. rewrite lookup_insert_eq. auto.
        -- intros n'' Hin. exact (Hne n'' Hin).
      * exact (Hset n' d' v' Hin).
Qed.

Lemma set_option_pdchecks name v st e :
  startswith name pfx = false -> opts st !! s "pdchecks" = None ->
  opts st !! (pfx ++ name) = Some e -> str_contains (s "pdchecks") (pfx ++ name) = true ->
  e_valid e v = true ->
  Options._set_option name v st =
  (Ok tt, set_opts (<[pfx ++ name := {| e_default := e_default e; e_value := v;
                                         e_valid := e_valid e |}]> (opts st)) st).
Proof.
  intros Hs Hp He Hc Hv. unfold Options._set_option. fold pfx. rewrite Hs.
  unfold bind at 1, read. cbv beta iota zeta.
  match goal with |- (if ?b then _ else _) _ = _ => assert (Hb : b = true); [|rewrite Hb] end.
  { apply existsb_exists. exists (pfx ++ name). split; [|apply bool_decide_eq_true; reflexivity].
    unfold select_options. rewrite Hp. apply list_elem_of_In, list_elem_of_filter.
    split; [exact Hc|]. apply list_elem_of_In, in_map_iff. exists (pfx ++ name, e).
    split; [reflexivity|]. apply list_elem_of_In, elem_of_map_to_list. exact He. }
  exact (set_option_exact _ _ _ _ He Hv).
Qed.

Lemma pfx_free : forallb (fun '(n, _, _) => negb (str_contains pfx n)) Options.format_options = true.
Proof. vm_compute. reflexivity. Qed.

Lemma option_accepts_spec o k d : option_accepts o k d = true ->
  exists e, o !! k = Some e /\ e_valid e d = true.
Proof. unfold option_accepts. destruct (o !! k) as [e|]; [eauto|discriminate]. Qed.

Lemma resettable_ok o : format_resettable o = true -> ok_for Options.format_options o.
Proof.
  intros H. unfold ok_for. apply Forall_forall. intros [[n d] v] Hin.
  apply list_elem_of_In in Hin.
  unfold format_resettable in H. rewrite forallb_forall in H.
  pose proof (H _ Hin) as Ha. pose proof pfx_free as Hp. rewrite forallb_forall in Hp.
  pose proof (Hp _ Hin) as Hn. cbv beta iota in Ha, Hn.
  destruct (str_contains pfx n) eqn:Hc; [discriminate|].
  split; [reflexivity|]. exact (option_accepts_spec _ _ _ Ha).
Qed.

Lemma format_names_nodup : NoDup (names Options.format_options).
Proof. apply (bool_decide_unpack _). vm_compute. reflexivity. Qed.

Lemma reset_format_run st : format_resettable (opts st) = true ->
  exists st', Options.reset_format st = (Ok tt, st') /\
    forall n d v, In (n, d, v) Options.format_options ->
      exists e, opts st' !! (pfx ++ n) = Some e /\ e_value e = d /\ e_valid e d = true.
Proof.
  intros H.
  destruct (seq_register _ st (resettable_ok _ H) format_names_nodup) as [st' [Hr [_ Hs]]].
  exists st'. split; [|exact Hs]. exact Hr.
Qed.

Lemma option_accepts_insert o k e v k' d : o !! k = Some e ->
  option_accepts (<[k := {| e_default := e_default e; e_value := v; e_valid := e_valid e |}]> o) k' d
  = option_accepts o k' d.
Proof.
  intros He. unfold option_accepts. destruct (decide (k = k')) as [->|Hne].
  - rewrite lookup_insert_eq, He. reflexivity.
  - rewrite lookup_insert_ne by exact Hne. reflexivity.
Qed.

Lemma set_format_step name v st :
  startswith name pfx = false -> opts st !! s "pdchecks" = None ->
  str_contains (s "pdchecks") (pfx ++ name) = true ->
  option_accepts (opts st) (pfx ++ name) v = true ->
  exists st', Options._set_option name v st = (Ok tt, st') /\
    opts st' !! s "pdchecks" = None /\
    (forall k d, option_accepts (opts st') k d = option_accepts (opts st) k d) /\
    (exists e, opts st' !! (pfx ++ name) = Some e /\ e_value e = v).
Proof.
  intros Hs Hp Hc Ha. destruct (option_accepts_spec _ _ _ Ha) as [e [He Hv]].
  eexists. split; [exact (set_option_pdchecks name v st e Hs Hp He Hc Hv)|].
  split; [|split].
  - simpl. rewrite lookup_insert_ne; [exact Hp|].
    intros Heq. apply (f_equal (@length N)) in Heq. unfold pfx, Options.pdchecks_prefix in Heq.
    vm_compute in Heq. lia.
  - intros k d. simpl. apply option_accepts_insert. exact He.
  - eexists. simpl. rewrite lookup_insert_eq. split; reflexivity.
Qed.

Lemma get_option_value p st e : opts st !! p = Some e -> get_option p st = (Ok (e_value e), st).
Proof. apply get_option_exact. Qed.

Lemma format_resettable_ext o o' :
  (forall k d, option_accepts o' k d = option_accepts o k d) ->
  format_resettable o' = format_resettable o.
Proof.
  intros H. unfold format_resettable. generalize Options.format_options.
  intros l. induction l as [|[[n d] v] l IH]; [reflexivity|]. cbn [forallb]. rewrite H, IH. reflexivity.
Qed.

(** C7: from any state in which the format options are registered with
    validators that accept their defaults (as [import pandas_checks] leaves
    them) and that accept [precision=9] and [use_emojis=False],
    [set_format(precision=9, use_emojis=False)] followed by [reset_format()]
    succeeds and leaves [pdchecks.precision] at 2 and [pdchecks.use_emojis]
    at True.  Moreover, registering an option that already exists (under
    [pdchecks.<name>], the prefix stripped from a prefixed name) overwrites
    the value of the existing entry with the default, in place: the registry
    is the same map with that one key updated, nothing added. *)
Theorem set_format_reset_format st :
  format_resettable (opts st) = true ->
  opts st !! s "pdchecks" = None ->
  option_accepts (opts st) (s "pdchecks.precision") (OInt 9) = true ->
  option_accepts (opts st) (s "pdchecks.use_emojis") (OBool false) = true ->
  (exists st',
    (Options.set_format [(s "precision", OInt 9); (s "use_emojis", OBool false)] ;;
     Options.reset_format) st = (Ok tt, st') /\
    get_option (s "pdchecks.precision") st' = (Ok (OInt 2), st') /\
    get_option (s "pdchecks.use_emojis") st' = (Ok (OBool true), st')) /\
  (forall name d v st0 e,
     let key := Options.pdchecks_prefix ++
       (if str_contains Options.pdchecks_prefix name
        then replace name Options.pdchecks_prefix [] else name) in
     opts st0 !! key = Some e -> e_valid e d = true ->
     Options._register_option name d v st0 =
     (Ok tt, set_opts (<[key := {| e_default := e_default e; e_value := d;
                                  e_valid := e_valid e |}]> (opts st0)) st0)).
Proof.
  intros Hr Hp H9 Hf. split; [|exact register_existing].
  destruct (set_format_step (s "precision") (OInt 9) st eq_refl Hp eq_refl H9)
    as [st1 [E1 [Hp1 [Ha1 _]]]].
  assert (Hf1 : option_accepts (opts st1) (pfx ++ s "use_emojis") (OBool false) = true)
    by (rewrite Ha1; exact Hf).
  destruct (set_format_step (s "use_emojis") (OBool false) st1 eq_refl Hp1 eq_refl Hf1)
    as [st2 [E2 [_ [Ha2 _]]]].
  assert (Hr2 : format_resettable (opts st2) = true).
  { rewrite (format_resettable_ext (opts st1) (opts st2) Ha2).
    rewrite (format_resettable_ext (opts st) (opts st1) Ha1). exact Hr. }
  destruct (reset_format_run st2 Hr2) as [st3 [E3 Hs]].
  exists st3. split; [|split].
  - unfold Options.set_format. simpl. unfold bind at 1 2. rewrite E1.
    unfold bind at 1. rewrite E2. unfold bind, ret. cbv beta iota. exact E3.
  - destruct (Hs (s "precision") (OInt 2) Options.is_nonnegative_int) as [e [He [Hv _]]];
      [left; reflexivity|].
    pose proof (get_option_value _ _ _ He) as G. rewrite Hv in G. exact G.
  - destruct (Hs (s "use_emojis") (OBool true) Options.is_bool) as [e [He [Hv _]]];
      [right; right; left; reflexivity|].
    pose proof (get_option_value _ _ _ He) as G. rewrite Hv in G. exact G.
Qed.

Lemma set_format_reset_format_witness :
  format_resettable (opts Demo.st_init) = true /\
  opts Demo.st_init !! s "pdchecks" = None /\
  option_accepts (opts Demo.st_init) (s "pdchecks.precision") (OInt 9) = true /\
  option_accepts (opts Demo.st_init) (s "pdchecks.use_emojis") (OBool false) = true /\
  exists st',
    (Options.set_format [(s "precision", OInt 9); (s "use_emojis", OBool false)] ;;
     Options.reset_format) Demo.st_init = (Ok tt, st') /\
    get_option (s "pdchecks.precision") st' = (Ok (OInt 2), st') /\
    get_option (s "pdchecks.use_emojis") st' = (Ok (OBool true), st').
Proof.
  assert (H1 : format_resettable (opts Demo.st_init) = true) by (vm_compute; reflexivity).
  assert (H2 : opts Demo.st_init !! s "pdchecks" = None) by (vm_compute; reflexivity).
  assert (H3 : option_accepts (opts Demo.st_init) (s "pdchecks.precision") (OInt 9) = true)
    by (vm_compute; reflexivity).
  assert (H4 : option_accepts (opts Demo.st_init) (s "pdchecks.use_emojis") (OBool false) = true)
    by (vm_compute; reflexivity).
  split; [exact H1|]. split; [exact H2|]. split; [exact H3|]. split; [exact H4|].
  exact (proj1 (set_format_reset_format Demo.st_init H1 H2 H3 H4)).
Defined.

End RegistryProofs.

(* ------------------------------------------------------------------ *)
(** ** Elapsed time *)

Module TimerProofs.

Lemma Qle_bool_false a b : Qle_bool a b = false -> (b < a)%Q.
Proof.
  intros H. apply Qnot_le_lt. intros Hle. apply Qle_bool_iff in Hle. congruence.
Qed.

Ltac q_cases :=
  repeat match goal with
         | E : Qle_bool _ _ = true |- _ => apply Qle_bool_iff in E
         | E : Qle_bool _ _ = false |- _ => apply Qle_bool_false in E
         end.

(** C4 (amended): the unit [print_time_elapsed] picks for [units="auto"]
    and a finite elapsed time [q] in seconds: milliseconds below 1 second,
    seconds from 1 up to and including 60 seconds, minutes above 60 up to
    and including 3600 seconds, hours above 3600 seconds. *)
Theorem auto_units_thresholds (q : Q) :
  ((q < 1)%Q -> Timer.auto_units (PFin q) = s "milliseconds") /\
  ((1 <= q <= 60)%Q -> Timer.auto_units (PFin q) = s "seconds") /\
  ((60 < q <= 3600)%Q -> Timer.auto_units (PFin q) = s "minutes") /\
  ((3600 < q)%Q -> Timer.auto_units (PFin q) = s "hours").
Proof.
  unfold Timer.auto_units, py_gt, py_ge, qlt.
  destruct (Qle_bool q 3600) eqn:E1; destruct (Qle_bool q 60) eqn:E2;
    destruct (Qle_bool 1 q) eqn:E3; simpl; q_cases;
    repeat split; intros; try reflexivity; exfalso; lra.
Qed.

(** C4 (counterexample): started at [time.time() == 40] and printed at
    [time.time() == 100], [print_time_elapsed(start, units="auto")] reports
    60 seconds, not 1 minute; and 3600 seconds count as minutes, not hours. *)
Lemma auto_units_at_60_and_3600 :
  out (snd (Timer.print_time_elapsed (PD := Demo.demo_pd) (PFin 40) None (s "auto") Demo.st_init))
  = [Stdout []; Stdout (Timer.stopwatch ++ s " Time elapsed: 60 seconds" ++ [Display.ESC] ++ s "[0m")]
  /\ Timer.auto_units (PFin 60) = s "seconds"
  /\ Timer.auto_units (PFin 3600) = s "minutes".
Proof. vm_compute. repeat split; reflexivity. Qed.

(** C5: comparing with [np.nan] never holds, so [print_time_elapsed] never
    shows the notice for a timer that was not started: [start_timer()] with
    checks disabled returns [np.nan], and [print_time_elapsed(np.nan)] with
    checks enabled prints a [nan milliseconds] duration and no notice. *)
Lemma nan_start_time_unnoticed :
  (forall x, py_feq x np_nan = false) /\
  fst (Timer.start_timer (PD := Demo.demo_pd) false Demo.st_off) = Ok np_nan /\
  out (snd (Timer.print_time_elapsed (PD := Demo.demo_pd) np_nan None (s "auto") Demo.st_init))
  = [Stdout []; Stdout (Timer.stopwatch ++ s " Time elapsed: nan milliseconds" ++ [Display.ESC]
                        ++ s "[0m")].
Proof.
  split; [intros [q|]; reflexivity|].
  vm_compute. split; reflexivity.
Qed.

(** C9: the unit selection of pandas_checks and that of the historical
    pandas_vet differ: below one second (milliseconds against seconds) and
    above one hour (hours against minutes); at exactly 3600 seconds both
    pick minutes. *)
Theorem auto_units_differ_from_vet :
  ~ (forall e, Timer.auto_units e = Timer.vet_auto_units e) /\
  (forall q, (q < 1)%Q -> Timer.auto_units (PFin q) = s "milliseconds" /\
                          Timer.vet_auto_units (PFin q) = s "seconds") /\
  (forall q, (3600 < q)%Q -> Timer.auto_units (PFin q) = s "hours" /\
                             Timer.vet_auto_units (PFin q) = s "minutes") /\
  Timer.auto_units (PFin 3600) = Timer.vet_auto_units (PFin 3600).
Proof.
  split; [|split; [|split]].
  - intros H. specialize (H (PFin 7200)). vm_compute in H. discriminate H.
  - intros q Hq. unfold Timer.auto_units, Timer.vet_auto_units, py_gt, py_ge, qlt.
    destruct (Qle_bool q 3600) eqn:E1; destruct (Qle_bool q 60) eqn:E2;
      destruct (Qle_bool 1 q) eqn:E3; simpl; q_cases; try (split; reflexivity); exfalso; lra.
  - intros q Hq. unfold Timer.auto_units, Timer.vet_auto_units, py_gt, py_ge, qlt.
    destruct (Qle_bool q 3600) eqn:E1; destruct (Qle_bool q 60) eqn:E2;
      destruct (Qle_bool 1 q) eqn:E3; simpl; q_cases; try (split; reflexivity); exfalso; lra.
  - vm_compute. reflexivity.
Qed.

End TimerProofs.

(* ------------------------------------------------------------------ *)
(** ** Rendering a line *)

Module DisplayProofs.

(** C8: in the terminal, the lead-in is coloured with [text_color], not
    with [lead_in_text_color]: [_render_text("x", lead_in="L",
    colors={"text_color": "red", "lead_in_text_color": "green"})] prints the
    lead-in in red (code 31), green (code 32) appears nowhere.  The
    background normalisation does treat a bare colour name and the same
    name with the [on_] prefix alike. *)
Lemma terminal_lead_in_colour :
  out (snd (Display._render_text (PD := Demo.demo_pd) (VStr (s "x")) (OStr (s "h5")) (Some (s "L"))
              [(s "text_color", s "red"); (s "lead_in_text_color", s "green")] false Demo.st_init))
  = [Stdout [];
     Stdout ([Display.ESC] ++ s "[31mL" ++ [Display.ESC] ++ s "[0m: "
             ++ [Display.ESC] ++ s "[31mx" ++ [Display.ESC] ++ s "[0m")] /\
  (forall c, py_truthy_str c = true -> startswith c (s "on_") = false ->
     Display._format_background_color (Some c) = Display._format_background_color (Some (s "on_" ++ c))).
Proof.
  split; [vm_compute; reflexivity|].
  intros c Ht Hs. unfold Display._format_background_color. rewrite Ht, Hs. simpl.
  destruct c; reflexivity.
Qed.

Lemma replace_emoji_id `{PD : Pandas} (t : pystr) :
  forallb (fun c => negb (is_emoji c)) t = true -> Display.replace_emoji t = t.
Proof.
  unfold Display.replace_emoji, pystr. induction t as [|c t IH]; [reflexivity|].
  intros H. simpl in H. apply andb_prop in H as [Hc Ht].
  rewrite filter_cons_True; [rewrite (IH Ht); reflexivity|]. rewrite Hc. exact I.
Qed.

(** C10: with [use_emojis] truthy, [_filter_emojis(text)] returns [text]
    unchanged; otherwise it returns [text] with the emoji removed and
    leading and trailing white space stripped, so a text with no emoji
    comes back stripped. *)
Theorem filter_emojis_result `{PD : Pandas} (t : pystr) (v : optval) (st : state) :
  get_option (s "pdchecks.use_emojis") st = (Ok v, st) ->
  Display._filter_emojis (VStr t) st =
    (Ok (VStr (if Options.opt_truthy v then t else strip (Display.replace_emoji t))), st) /\
  (forallb (fun c => negb (is_emoji c)) t = true ->
   Options.opt_truthy v = false ->
   Display._filter_emojis (VStr t) st = (Ok (VStr (strip t)), st)).
Proof.
  intros H.
  assert (E : Display._filter_emojis (VStr t) st =
    (Ok (VStr (if Options.opt_truthy v then t else strip (Display.replace_emoji t))), st)).
  { unfold Display._filter_emojis. unfold bind at 1. rewrite H.
    destruct (Options.opt_truthy v); reflexivity. }
  split; [exact E|]. intros Hn Hv. rewrite E, Hv, (replace_emoji_id t Hn). reflexivity.
Qed.

Lemma filter_emojis_result_witness :
  get_option (s "pdchecks.use_emojis") Demo.st_no_emojis = (Ok (OBool false), Demo.st_no_emojis) /\
  Display._filter_emojis (PD := Demo.demo_pd) (VStr (s " Rows ")) Demo.st_no_emojis =
    (Ok (VStr (s "Rows")), Demo.st_no_emojis).
Proof.
  assert (H : get_option (s "pdchecks.use_emojis") Demo.st_no_emojis
              = (Ok (OBool false), Demo.st_no_emojis)) by (vm_compute; reflexivity).
  split; [exact H|].
  exact (proj1 (filter_emojis_result (PD := Demo.demo_pd) (s " Rows ") (OBool false)
                  Demo.st_no_emojis H)).
Defined.

End DisplayProofs.

(* ------------------------------------------------------------------ *)
(** ** Global switches and file export *)

Module CheckProofs.
Import Accessors.

(** C2: [df.check.get_mode()] prints even when checks are disabled: with
    [pdchecks.enable_checks] False it prints the mode dict (after an empty
    line), where every other check returns before printing. *)
Lemma get_mode_prints_when_disabled :
  Options.checks_enabled Demo.st_off = (Ok false, Demo.st_off) /\
  out Demo.st_off = [] /\
  out (snd (DataFrameChecks.get_mode (PD := Demo.demo_pd) (VRef 0) None Demo.st_off)) =
    [Stdout [];
     Stdout (s "{'enable_checks': False, 'enable_asserts': True}" ++ [Display.ESC] ++ s "[0m")].
Proof. vm_compute. repeat split; reflexivity. Qed.

(** C3: with [pdchecks.enable_asserts] False, [assert_negative] (with its
    defaults [assert_no_nulls=True], [raise_exception=True]) on a frame
    holding a NaN still raises [DataError]: the null test runs before, and
    outside of, the [assert_data] that checks the switch. *)
Lemma assert_negative_raises_with_asserts_disabled :
  Options.asserts_enabled Demo.st_no_asserts = (Ok false, Demo.st_no_asserts) /\
  fst (DataFrameChecks.assert_negative (PD := Demo.demo_pd) (VRef 0) (s "F") (s "P") VNone
         true true DataError false Demo.st_no_asserts) =
    Err (Exn DataError (s "F: Nulls present (to disable, pass `assert_not_null=False`)")).
Proof. vm_compute. split; reflexivity. Qed.

Section Write.
Context `{PD : Pandas}.

(** C6 (amended): with checks enabled, [write(path)] with no [format] and a
    path that ends in none of .csv, .feather, .parquet, .pkl, .tsv, .xls,
    .xlsx raises, and the state it leaves is the one right after the
    transform [fn] (and the subset selection): no export function runs, no
    file is written, nothing is printed.  The error is the AttributeError
    on the unknown extension, or the transform's own error.  Whatever its
    arguments, a call of [write] that returns, returns the data it was
    invoked on. *)
Theorem write_unknown_extension self path fn subset verbose kwargs st :
  Options.checks_enabled st = (Ok true, st) ->
  endswith path (s ".csv") = false -> endswith path (s ".feather") = false ->
  endswith path (s ".parquet") = false -> endswith path (s ".pkl") = false ->
  endswith path (s ".tsv") = false -> endswith path (s ".xls") = false ->
  endswith path (s ".xlsx") = false ->
  (exists e st', DataFrameChecks.write self path None fn subset verbose kwargs st = (Err e, st') /\
     match RunChecks._apply_modifications self fn subset st with
     | (Ok _, st1) =>
         st' = st1 /\
         e = Exn AttributeError (s "Can't write data to file. Unknown file extension in: "
                                 ++ path ++ s ". ")
     | (Err e1, st1) => st' = st1 /\ e = e1
     end) /\
  (forall p f fn' sub' vb kw, rets self (DataFrameChecks.write self p f fn' sub' vb kw)).
Proof.
  intros Hc H1 H2 H3 H4 H5 H6 H7. split.
  2:{ intros p f fn' sub' vb kw. exact (ChainProofs.rets_df_run self (df_write p f fn' sub' vb kw)). }
  unfold DataFrameChecks.write. unfold bind at 1. rewrite Hc.
  cbv beta iota zeta. cbn [negb Display.opt_truthy_str].
  rewrite ?(bool_decide_eq_false_2 (None = Some _)) by discriminate.
  rewrite H1, H2, H3, H4, H5, H6, H7. cbn [orb].
  unfold bind at 1.
  destruct (RunChecks._apply_modifications self fn subset st) as [[d|e] st1].
  - eexists _, st1. split; [reflexivity|]. split; reflexivity.
  - exists e, st1. split; [reflexivity|]. split; reflexivity.
Qed.

End Write.

Lemma write_unknown_extension_witness :
  Options.checks_enabled Demo.st_init = (Ok true, Demo.st_init) /\
  exists e st',
    DataFrameChecks.write (PD := Demo.demo_pd) (VRef 0) (s "out.unknownext") None
      RunChecks.identity VNone false [] Demo.st_init = (Err e, st') /\
    match RunChecks._apply_modifications (PD := Demo.demo_pd) (VRef 0) RunChecks.identity VNone
            Demo.st_init with
    | (Ok _, st1) =>
        st' = st1 /\
        e = Exn AttributeError (s "Can't write data to file. Unknown file extension in: "
                                ++ s "out.unknownext" ++ s ". ")
    | (Err e1, st1) => st' = st1 /\ e = e1
    end.
Proof.
  assert (Hc : Options.checks_enabled Demo.st_init = (Ok true, Demo.st_init))
    by (vm_compute; reflexivity).
  split; [exact Hc|].
  exact (proj1 (write_unknown_extension (PD := Demo.demo_pd) (VRef 0) (s "out.unknownext") RunChecks.identity
                  VNone false [] Demo.st_init Hc eq_refl eq_refl eq_refl eq_refl eq_refl eq_refl eq_refl)).
Defined.

(** C6 (counterexample): with checks disabled,
    [df.check.write("out.unknownext")] raises nothing: it returns [df] and
    leaves the state as it was. *)
Lemma write_unknown_extension_disabled :
  Options.checks_enabled Demo.st_off = (Ok false, Demo.st_off) /\
  DataFrameChecks.write (PD := Demo.demo_pd) (VRef 0) (s "out.unknownext") None RunChecks.identity
    VNone false [] Demo.st_off = (Ok (VRef 0), Demo.st_off).
Proof. vm_compute. split; reflexivity. Qed.

Section Switches.
Context `{PD : Pandas}.

(** With checks disabled, [_check_data] returns at once: it neither runs
    [fn] nor the check, and prints nothing. *)
Theorem check_data_disabled data check_fn modify_fn subset check_name st :
  Options.checks_enabled st = (Ok false, st) ->
  RunChecks._check_data data check_fn modify_fn subset check_name st = (Ok tt, st).
Proof. intros H. unfold RunChecks._check_data. unfold bind at 1. rewrite H. reflexivity. Qed.

(** With asserts disabled, [assert_data] returns the data at once, whatever
    the condition: the condition is never called. *)
Theorem assert_data_disabled self condition fail_message pass_message subset raise_exception
    exception_to_raise message_shows_condition verbose st :
  Options.asserts_enabled st = (Ok false, st) ->
  DataFrameChecks.assert_data self condition fail_message pass_message subset raise_exception
    exception_to_raise message_shows_condition verbose st = (Ok self, st).
Proof. intros H. unfold DataFrameChecks.assert_data. unfold bind at 1. rewrite H. reflexivity. Qed.

End Switches.

Lemma check_data_disabled_witness :
  Options.checks_enabled Demo.st_off = (Ok false, Demo.st_off) /\
  RunChecks._check_data (PD := Demo.demo_pd) (VRef 0) RunChecks.identity Demo.drop_all_inplace
    VNone None Demo.st_off = (Ok tt, Demo.st_off).
Proof.
  assert (H : Options.checks_enabled Demo.st_off = (Ok false, Demo.st_off))
    by (vm_compute; reflexivity).
  split; [exact H|].
  exact (check_data_disabled (PD := Demo.demo_pd) (VRef 0) RunChecks.identity Demo.drop_all_inplace
           VNone None Demo.st_off H).
Defined.

Lemma assert_data_disabled_witness :
  Options.asserts_enabled Demo.st_no_asserts = (Ok false, Demo.st_no_asserts) /\
  DataFrameChecks.assert_data (PD := Demo.demo_pd) (VRef 0) Demo.drop_all_inplace (s "F") (s "P")
    VNone true DataError false false Demo.st_no_asserts = (Ok (VRef 0), Demo.st_no_asserts).
Proof.
  assert (H : Options.asserts_enabled Demo.st_no_asserts = (Ok false, Demo.st_no_asserts))
    by (vm_compute; reflexivity).
  split; [exact H|].
  exact (assert_data_disabled (PD := Demo.demo_pd) (VRef 0) Demo.drop_all_inplace (s "F") (s "P")
           VNone true DataError false false Demo.st_no_asserts H).
Defined.

End CheckProofs.

(* ------------------------------------------------------------------ *)
(** ** The helpers of the checks: nulls, subsets, colours, indentation,
       lambda sources *)

Module HelperProofs.
Import Observe.

Section Helpers.
Context `{PD : Pandas}.

Lemma existsb_nan v :
  existsb (fun c => match c with CNaN => true | _ => false end) v = true <-> In CNaN v.
Proof.
  induction v as [|c v IH]; simpl; [split; [discriminate|tauto]|].
  rewrite orb_true_iff, IH. destruct c; split; intros [H|H]; try discriminate; auto; try congruence.
Qed.

Lemma has_nulls_flag t :
  match t with
  | DataFrame cols =>
      existsb (fun '(_, v) => existsb (fun c => match c with CNaN => true | _ => false end) v) cols
  | Series _ v => existsb (fun c => match c with CNaN => true | _ => false end) v
  end = true <-> In CNaN (cells t).
Proof.
  destruct t as [cols|nm v]; simpl; [|apply existsb_nan].
  induction cols as [|[n v] cols IH]; simpl; [split; [discriminate|tauto]|].
  rewrite orb_true_iff, IH, existsb_nan, in_app_iff. tauto.
Qed.

(** [_has_nulls] with [raise_exception=True] on a pandas object holding a
    null cell raises [exception_to_raise] with the fail message followed by
    the nulls notice, and changes nothing. *)
Theorem has_nulls_raises data fail_message exception_to_raise t st :
  Display.as_table data st = (Ok (Some t), st) -> In CNaN (cells t) ->
  RunChecks._has_nulls data fail_message true exception_to_raise st =
  (Err (Exn exception_to_raise
          (fail_message ++ s ": Nulls present (to disable, pass `assert_not_null=False`)")), st).
Proof.
  intros Ht Hn. apply has_nulls_flag in Hn.
  unfold RunChecks._has_nulls. unfold bind at 1. rewrite Ht.
  destruct t; unfold bind, ret; cbv beta iota; rewrite Hn; reflexivity.
Qed.

(** [_has_nulls] on a pandas object without null cells returns [False]
    silently, whether or not it was asked to raise. *)
Theorem has_nulls_clean data fail_message raise_exception exception_to_raise t st :
  Display.as_table data st = (Ok (Some t), st) -> ~ In CNaN (cells t) ->
  RunChecks._has_nulls data fail_message raise_exception exception_to_raise st = (Ok false, st).
Proof.
  intros Ht Hn. rewrite <- has_nulls_flag in Hn. apply not_true_is_false in Hn.
  unfold RunChecks._has_nulls. unfold bind at 1. rewrite Ht.
  destruct t; unfold bind, ret; cbv beta iota; rewrite Hn; reflexivity.
Qed.

(** [_apply_modifications] with a falsy [subset] is exactly the call of the
    transform [fn] on the data. *)
Theorem apply_modifications_falsy_subset data fn subset st :
  Display.py_truthy subset st = (Ok false, st) ->
  RunChecks._apply_modifications data fn subset st = fn data st.
Proof. intros H. unfold RunChecks._apply_modifications, bind. rewrite H. reflexivity. Qed.


(** Without colour support [colored] returns the text unchanged, whatever
    colours are asked for. *)
Theorem colored_without_colour text color on_color st :
  colour st = false -> Display.colored text color on_color st = (Ok text, st).
Proof. intros H. unfold Display.colored, bind, read. rewrite H. reflexivity. Qed.


End Helpers.

Lemma startswith_app p t : startswith (p ++ t) p = true.
Proof. induction p as [|c p IH]; [destruct t; reflexivity|]. cbn. rewrite N.eqb_refl. exact IH. Qed.

(** [_format_background_color] is idempotent, and maps every non-empty
    colour name to one that starts with [on_]. *)
Theorem format_background_color_on c :
  Display._format_background_color (Display._format_background_color c) =
  Display._format_background_color c /\
  (forall t, c = Some t -> t <> [] ->
   exists t', Display._format_background_color c = Some t' /\ startswith t' (s "on_") = true).
Proof.
  destruct c as [t|]; [|split; [reflexivity|discriminate]].
  unfold Display._format_background_color.
  destruct (py_truthy_str t) eqn:Ht; cbn [negb].
  - destruct (startswith t (s "on_")) eqn:E; cbn [negb].
    + rewrite Ht, E. cbn [negb]. split; [reflexivity|].
      intros ? [= <-] _. eexists; split; [reflexivity|exact E].
    + rewrite startswith_app. cbn [negb]. change (py_truthy_str (s "on_" ++ t)) with true.
      cbn [negb]. split; [reflexivity|].
      intros ? [= <-] _. eexists; split; [reflexivity|apply startswith_app].
  - rewrite Ht. cbn [negb]. split; [reflexivity|].
    intros ? [= <-] Hne. destruct t; [congruence|discriminate].
Qed.

Lemma split_lines_concat t : forall cur, concat (Display.split_lines t cur) = rev cur ++ t.
Proof.
  induction t as [|c t IH]; intros cur; simpl.
  - destruct cur; simpl; [reflexivity|rewrite !app_nil_r; reflexivity].
  - destruct (N.eqb c 10); simpl.
    + rewrite IH. simpl. rewrite <- app_assoc. reflexivity.
    + rewrite IH. simpl. rewrite <- app_assoc. reflexivity.
Qed.

(** [textwrap.indent] with an empty prefix gives back its text. *)
Theorem textwrap_indent_no_prefix text : Display.textwrap_indent text [] = text.
Proof.
  unfold Display.textwrap_indent.
  rewrite (map_ext _ (fun ln => ln)) by (intros ln; destruct (forallb is_space ln); reflexivity).
  rewrite map_id, split_lines_concat. reflexivity.
Qed.

Lemma split_lines_blank t : forall cur, forallb is_space t = true -> forallb is_space cur = true ->
  Forall (fun ln => forallb is_space ln = true) (Display.split_lines t cur).
Proof.
  induction t as [|c t IH]; intros cur Ht Hc; simpl.
  - destruct cur; constructor; [|constructor]. rewrite forallb_forall in *.
    intros x Hx. apply Hc. rewrite in_rev. exact Hx.
  - simpl in Ht. apply andb_prop in Ht as [Hct Ht].
    destruct (N.eqb c 10).
    + constructor; [|apply IH; auto]. rewrite forallb_forall in *. intros x Hx.
      apply in_app_or in Hx as [Hx|[<-|[]]]; auto. apply Hc. rewrite in_rev. exact Hx.
    + apply IH; auto. simpl. rewrite Hct. exact Hc.
Qed.

(** [textwrap.indent] leaves a text made only of whitespace unchanged, for
    any prefix: whitespace-only lines are not indented. *)
Theorem textwrap_indent_blank text prefix :
  forallb is_space text = true -> Display.textwrap_indent text prefix = text.
Proof.
  intros H. unfold Display.textwrap_indent.
  assert (Hall : Forall (fun ln => (if forallb is_space ln then ln else prefix ++ ln) = ln)
                        (Display.split_lines text [])).
  { eapply Forall_impl; [apply (split_lines_blank text [] H eq_refl)|].
    intros ln Hln. simpl. rewrite Hln. reflexivity. }
  rewrite (map_ext_Forall _ (fun ln => ln) Hall), map_id, split_lines_concat. reflexivity.
Qed.

Lemma lstrip_chars_spec t :
  exists pre, t = pre ++ RunChecks.lstrip_chars (s " .") t /\
    Forall (fun c => c = 32%N \/ c = 46%N) pre /\
    match RunChecks.lstrip_chars (s " .") t with
    | c :: _ => c <> 32%N /\ c <> 46%N
    | [] => True
    end.
Proof.
  induction t as [|c t IH].
  - exists []. split; [reflexivity|split; [constructor|exact I]].
  - change (RunChecks.lstrip_chars (s " .") (c :: t)) with
      (if existsb (N.eqb c) [32%N; 46%N] then RunChecks.lstrip_chars (s " .") t else c :: t).
    cbn [existsb]. rewrite orb_false_r.
    destruct (N.eqb c 32) eqn:E1; [|destruct (N.eqb c 46) eqn:E2]; cbn [orb].
    + apply N.eqb_eq in E1. subst. destruct IH as (pre & Hp & Hf & Hh).
      exists (32%N :: pre). split; [cbn; f_equal; exact Hp|]. split; [constructor; auto|exact Hh].
    + apply N.eqb_eq in E2. subst. destruct IH as (pre & Hp & Hf & Hh).
      exists (46%N :: pre). split; [cbn; f_equal; exact Hp|]. split; [constructor; auto|exact Hh].
    + exists []. split; [reflexivity|split; [constructor|]].
      apply N.eqb_neq in E1, E2. auto.
Qed.

(** [_lambda_to_string] removes exactly the leading spaces and dots of the
    lambda's source: the source is a run of spaces and dots followed by the
    result, and the result starts with neither. *)
Theorem lambda_to_string_lstrip `{PD : Pandas} f :
  exists pre, lambda_source f = pre ++ RunChecks._lambda_to_string f /\
    Forall (fun c => c = 32%N \/ c = 46%N) pre /\
    match RunChecks._lambda_to_string f with
    | c :: _ => c <> 32%N /\ c <> 46%N
    | [] => True
    end.
Proof. exact (lstrip_chars_spec (lambda_source f)). Qed.

Lemma has_nulls_raises_witness :
  RunChecks._has_nulls (PD := Demo.demo_pd) (VRef 0) (s "F") true DataError Demo.st_empty =
  (Err (Exn DataError
          (s "F" ++ s ": Nulls present (to disable, pass `assert_not_null=False`)")), Demo.st_empty).
Proof.
  apply (has_nulls_raises (PD := Demo.demo_pd) (VRef 0) (s "F") DataError Demo.df0 Demo.st_empty).
  - reflexivity.
  - vm_compute. tauto.
Defined.

Lemma has_nulls_clean_witness :
  RunChecks._has_nulls (PD := Demo.demo_pd) (VTable (DataFrame [(s "a", [CNum 1])])) (s "F")
    true DataError Demo.st_empty = (Ok false, Demo.st_empty).
Proof.
  apply (has_nulls_clean (PD := Demo.demo_pd) (VTable (DataFrame [(s "a", [CNum 1])])) (s "F")
           true DataError (DataFrame [(s "a", [CNum 1])]) Demo.st_empty).
  - reflexivity.
  - vm_compute. intros [H|[]]. discriminate H.
Defined.

Lemma apply_modifications_falsy_subset_witness :
  RunChecks._apply_modifications (PD := Demo.demo_pd) (VRef 0) Demo.drop_all_inplace VNone
    Demo.st_empty = Demo.drop_all_inplace (VRef 0) Demo.st_empty.
Proof.
  apply (apply_modifications_falsy_subset (PD := Demo.demo_pd) (VRef 0) Demo.drop_all_inplace VNone
           Demo.st_empty).
  reflexivity.
Defined.


Lemma colored_without_colour_witness :
  Display.colored (s "x") (Some (s "red")) (Some (s "on_white")) Demo.st_no_colour =
  (Ok (s "x"), Demo.st_no_colour).
Proof.
  apply (colored_without_colour (s "x") (Some (s "red")) (Some (s "on_white"))
           Demo.st_no_colour).
  reflexivity.
Defined.


Lemma textwrap_indent_blank_witness :
  Display.textwrap_indent (s "  ") (s "> ") = s "  ".
Proof. apply textwrap_indent_blank. reflexivity. Defined.

End HelperProofs.

(* ------------------------------------------------------------------ *)
(** ** Setting options, the mode, the custom print function *)

Module OptionProofs.
Import Registry RegistryProofs.

Ltac neq_keys := let Heq := fresh in intros Heq; vm_compute in Heq; congruence.


Lemma single_key_err p st e st' : single_key p st = (Err e, st') -> st' = st.
Proof.
  unfold single_key, bind, read. cbv beta iota.
  destruct (select_options p (opts st)) as [|? [|? ?]]; unfold ret, raise; congruence.
Qed.

(** A [_set_option] that raises leaves the state as it was: an unknown
    option or a value its validator refuses changes no option. *)
Theorem set_option_error_keeps_state option value st e st' :
  Options._set_option option value st = (Err e, st') -> st' = st.
Proof.
  unfold Options._set_option, bind at 1, read. cbv beta iota.
  match goal with |- (if ?b then _ else _) _ = _ -> _ => destruct b end; [|unfold raise; congruence].
  unfold set_option, bind at 1. destruct (single_key _ st) as [[k|e'] s1] eqn:E.
  - assert (s1 = st) as -> by (revert E; unfold single_key, bind, read; cbv beta iota;
      destruct (select_options _ (opts st)) as [|? [|? ?]]; unfold ret, raise; congruence).
    unfold bind, read. cbv beta iota. destruct (opts st !! k) as [en|].
    + destruct (e_valid en value); unfold modify, raise; congruence.
    + unfold raise; congruence.
  - intros [= _ <-]. exact (single_key_err _ _ _ _ E).
Qed.

Lemma seq_app (l1 l2 : list (M unit)) st :
  Options.seq_ (l1 ++ l2) st =
  match Options.seq_ l1 st with (Ok _, s1) => Options.seq_ l2 s1 | (Err e, s1) => (Err e, s1) end.
Proof.
  revert st. induction l1 as [|m l1 IH]; intros st; simpl.
  - reflexivity.
  - unfold bind. destruct (m st) as [[[]|e] s1]; [apply IH|reflexivity].
Qed.

(** [set_format] applies its keyword arguments in order and stops at the
    first one that fails: the options set before it stay set, the ones
    after it are not touched, and the error is the one of that argument. *)
Theorem set_format_stops_at_error kw1 arg value kw2 st st1 e :
  Options.set_format kw1 st = (Ok tt, st1) ->
  fst (Options._set_option arg value st1) = Err e ->
  Options.set_format (kw1 ++ (arg, value) :: kw2) st = (Err e, st1).
Proof.
  intros H1 H2. unfold Options.set_format in *. rewrite map_app, seq_app, H1. simpl.
  unfold bind at 1. destruct (Options._set_option arg value st1) as [r s2] eqn:E.
  simpl in H2. subst r. rewrite (set_option_error_keeps_state _ _ _ _ _ E). reflexivity.
Qed.

(** [set_mode(a, b)] followed by [get_mode()] gives back
    [{"enable_checks": a, "enable_asserts": b}], and the two switches the
    checks read are then [a] and [b]; no data and no output change. *)
Theorem set_mode_get_mode a b st e1 e2 :
  opts st !! s "pdchecks" = None ->
  opts st !! s "pdchecks.enable_checks" = Some e1 -> e_valid e1 (OBool a) = true ->
  opts st !! s "pdchecks.enable_asserts" = Some e2 -> e_valid e2 (OBool b) = true ->
  exists st', Options.set_mode a b st = (Ok tt, st') /\
    Options.get_mode st' =
      (Ok (VDict [(s "enable_checks", VBool a); (s "enable_asserts", VBool b)]), st') /\
    Options.checks_enabled st' = (Ok a, st') /\ Options.asserts_enabled st' = (Ok b, st') /\
    heap st' = heap st /\ out st' = out st.
Proof.
  intros Hp H1 V1 H2 V2.
  pose proof (set_option_pdchecks (s "enable_checks") (OBool a) st e1 eq_refl Hp H1 eq_refl V1) as E1.
  set (st1 := set_opts _ st) in E1.
  assert (Hp1 : opts st1 !! s "pdchecks" = None).
  { simpl. rewrite lookup_insert_ne by neq_keys. exact Hp. }
  assert (H21 : opts st1 !! (pfx ++ s "enable_asserts") = Some e2).
  { simpl. rewrite lookup_insert_ne by neq_keys. exact H2. }
  pose proof (set_option_pdchecks (s "enable_asserts") (OBool b) st1 e2 eq_refl Hp1 H21 eq_refl V2) as E2.
  set (st2 := set_opts _ st1) in E2.
  assert (G1 : opts st2 !! s "pdchecks.enable_checks" =
               Some {| e_default := e_default e1; e_value := OBool a; e_valid := e_valid e1 |}).
  { simpl. rewrite lookup_insert_ne by neq_keys. apply lookup_insert_eq. }
  assert (G2 : opts st2 !! s "pdchecks.enable_asserts" =
               Some {| e_default := e_default e2; e_value := OBool b; e_valid := e_valid e2 |}).
  { simpl. apply lookup_insert_eq. }
  exists st2. split; [|split; [|split; [|split; [|split]]]].
  - unfold Options.set_mode. unfold bind at 1. rewrite E1. exact E2.
  - unfold Options.get_mode. unfold bind at 1. rewrite (get_option_exact _ _ _ G1).
    unfold bind. rewrite (get_option_exact _ _ _ G2). reflexivity.
  - unfold Options.checks_enabled, bind. rewrite (get_option_exact _ _ _ G1). reflexivity.
  - unfold Options.asserts_enabled, bind. rewrite (get_option_exact _ _ _ G2). reflexivity.
  - reflexivity.
  - reflexivity.
Qed.

(** [reset_format()] touches only the format options: the mode reported by
    [get_mode()] is the same after it as before, and every option outside
    the format options keeps its entry. *)
Theorem reset_format_keeps_mode st e1 e2 :
  format_resettable (opts st) = true ->
  opts st !! s "pdchecks.enable_checks" = Some e1 ->
  opts st !! s "pdchecks.enable_asserts" = Some e2 ->
  exists st', Options.reset_format st = (Ok tt, st') /\
    Options.get_mode st' = (fst (Options.get_mode st), st') /\
    (forall k, (forall n, In n (names Options.format_options) -> k <> pfx ++ n) ->
               opts st' !! k = opts st !! k).
Proof.
  intros Hr H1 H2.
  destruct (seq_register _ st (resettable_ok _ Hr) format_names_nodup) as [st' [Hrun [Hkeep _]]].
  assert (K1 : opts st' !! s "pdchecks.enable_checks" = Some e1).
  { rewrite Hkeep; [exact H1|]. intros n Hn. vm_compute in Hn.
    repeat (destruct Hn as [<-|Hn]; [neq_keys|]). destruct Hn. }
  assert (K2 : opts st' !! s "pdchecks.enable_asserts" = Some e2).
  { rewrite Hkeep; [exact H2|]. intros n Hn. vm_compute in Hn.
    repeat (destruct Hn as [<-|Hn]; [neq_keys|]). destruct Hn. }
  exists st'. split; [exact Hrun|split; [|exact Hkeep]].
  unfold Options.get_mode. unfold bind at 1 3. rewrite (get_option_exact _ _ _ K1), (get_option_exact _ _ _ H1).
  unfold bind. rewrite (get_option_exact _ _ _ K2), (get_option_exact _ _ _ H2). reflexivity.
Qed.

(** [_initialize_options()] on an empty registry registers exactly the four
    mode options and the format options, each at its default, changes no
    data and prints nothing; running it again changes nothing. *)
Theorem initialize_options_fresh st :
  opts st = ∅ ->
  exists st1, Options._initialize_options st = (Ok tt, st1) /\
    opts st1 = registered_opts (mode_options ++ Options.format_options) /\
    heap st1 = heap st /\ out st1 = out st /\
    Options._initialize_options st1 = (Ok tt, st1).
Proof.
  destruct st as [h o e c t co]. simpl. intros ->.
  exists (set_opts (registered_opts (mode_options ++ Options.format_options))
            {| heap := h; opts := ∅; out := e; clock := c; terminal := t; colour := co |}).
  split; [|split; [reflexivity|split; [reflexivity|split; [reflexivity|]]]].
  - reflexivity.
  - reflexivity.
Qed.

(** [set_custom_print_fn(f, print_to_stdout=False)] sends every later
    [_print_router] text to [f] only: nothing goes to standard output. *)
Theorem custom_print_only f text st e1 e2 :
  opts st !! s "pdchecks" = None ->
  opts st !! s "pdchecks.custom_print_fn" = Some e1 -> e_valid e1 (OFn f) = true ->
  opts st !! s "pdchecks.print_to_stdout" = Some e2 -> e_valid e2 (OBool false) = true ->
  exists st', Options.set_custom_print_fn (OFn f) (Some false) st = (Ok tt, st') /\
    out st' = out st /\ heap st' = heap st /\
    Display._print_router text false None false st' =
      (Ok tt, set_out (out st ++ [CustomPrint f (PText text)]) st').
Proof.
  intros Hp H1 V1 H2 V2.
  pose proof (set_option_pdchecks (s "custom_print_fn") (OFn f) st e1 eq_refl Hp H1 eq_refl V1) as E1.
  set (st1 := set_opts _ st) in E1.
  assert (Hp1 : opts st1 !! s "pdchecks" = None).
  { simpl. rewrite lookup_insert_ne by neq_keys. exact Hp. }
  assert (H21 : opts st1 !! (pfx ++ s "print_to_stdout") = Some e2).
  { simpl. rewrite lookup_insert_ne by neq_keys. exact H2. }
  pose proof (set_option_pdchecks (s "print_to_stdout") (OBool false) st1 e2 eq_refl Hp1 H21 eq_refl V2) as E2.
  set (st2 := set_opts _ st1) in E2.
  assert (G1 : opts st2 !! s "pdchecks.custom_print_fn" =
               Some {| e_default := e_default e1; e_value := OFn f; e_valid := e_valid e1 |}).
  { simpl. rewrite lookup_insert_ne by neq_keys. apply lookup_insert_eq. }
  assert (G2 : opts st2 !! s "pdchecks.print_to_stdout" =
               Some {| e_default := e_default e2; e_value := OBool false; e_valid := e_valid e2 |}).
  { simpl. apply lookup_insert_eq. }
  exists st2. split; [|split; [reflexivity|split; [reflexivity|]]].
  - unfold Options.set_custom_print_fn. unfold bind at 1. rewrite E1. exact E2.
  - unfold Display._print_router, bind. rewrite (get_option_exact _ _ _ G2). cbn [e_value].
    cbv beta iota delta [Options.opt_truthy andb negb ret]. rewrite (get_option_exact _ _ _ G1). reflexivity.
Qed.


Lemma set_option_error_keeps_state_witness :
  Options._set_option (s "precision") (OStr (s "big")) Demo.st_init =
    (Err (Exn ValueError (s "Value does not pass the validator")), Demo.st_init) /\
  Demo.st_init = Demo.st_init.
Proof.
  assert (H : Options._set_option (s "precision") (OStr (s "big")) Demo.st_init =
              (Err (Exn ValueError (s "Value does not pass the validator")), Demo.st_init))
    by reflexivity.
  split; [exact H|].
  exact (set_option_error_keeps_state _ _ _ _ _ H).
Defined.

Lemma set_format_stops_at_error_witness :
  Options.set_format [(s "precision", OInt 9); (s "nope", OBool true); (s "use_emojis", OBool false)]
    Demo.st_init =
  (Err (Exn AttributeError (s "No Pandas Checks option for " ++ s "pdchecks.nope")),
   snd (Options.set_format [(s "precision", OInt 9)] Demo.st_init)).
Proof.
  apply (set_format_stops_at_error [(s "precision", OInt 9)] (s "nope") (OBool true)
           [(s "use_emojis", OBool false)] Demo.st_init).
  - reflexivity.
  - reflexivity.
Defined.

Lemma set_mode_get_mode_witness :
  exists st', Options.set_mode false false Demo.st_init = (Ok tt, st') /\
    Options.get_mode st' =
      (Ok (VDict [(s "enable_checks", VBool false); (s "enable_asserts", VBool false)]), st') /\
    Options.checks_enabled st' = (Ok false, st') /\ Options.asserts_enabled st' = (Ok false, st') /\
    heap st' = heap Demo.st_init /\ out st' = out Demo.st_init.
Proof.
  apply (set_mode_get_mode false false Demo.st_init
           {| e_default := OBool true; e_value := OBool true; e_valid := Options.is_bool |}
           {| e_default := OBool true; e_value := OBool true; e_valid := Options.is_bool |});
    reflexivity.
Defined.

Lemma reset_format_keeps_mode_witness :
  exists st', Options.reset_format Demo.st_no_asserts = (Ok tt, st') /\
    Options.get_mode st' = (fst (Options.get_mode Demo.st_no_asserts), st') /\
    (forall k, (forall n, In n (names Options.format_options) -> k <> pfx ++ n) ->
               opts st' !! k = opts Demo.st_no_asserts !! k).
Proof.
  apply (reset_format_keeps_mode Demo.st_no_asserts
           {| e_default := OBool true; e_value := OBool true; e_valid := Options.is_bool |}
           {| e_default := OBool true; e_value := OBool false; e_valid := Options.is_bool |});
    reflexivity.
Defined.

Lemma initialize_options_fresh_witness :
  exists st1, Options._initialize_options Demo.st_empty = (Ok tt, st1) /\
    opts st1 = registered_opts (mode_options ++ Options.format_options) /\
    heap st1 = heap Demo.st_empty /\ out st1 = out Demo.st_empty /\
    Options._initialize_options st1 = (Ok tt, st1).
Proof. apply initialize_options_fresh. reflexivity. Defined.

Lemma custom_print_only_witness :
  exists st', Options.set_custom_print_fn (OFn 7) (Some false) Demo.st_init = (Ok tt, st') /\
    out st' = out Demo.st_init /\ heap st' = heap Demo.st_init /\
    Display._print_router (s "x") false None false st' =
      (Ok tt, set_out (out Demo.st_init ++ [CustomPrint 7 (PText (s "x"))]) st').
Proof.
  apply (custom_print_only 7 (s "x") Demo.st_init
           {| e_default := ONone; e_value := ONone; e_valid := Options._is_callable_validator |}
           {| e_default := OBool true; e_value := OBool true; e_valid := Options.is_bool |});
    reflexivity.
Defined.

End OptionProofs.

(* ------------------------------------------------------------------ *)
(** ** The timer *)

Module TimerExtraProofs.

Section Timers.
Context `{PD : Pandas}.

Lemma py_feq_nan x : py_feq x np_nan = false.
Proof. destruct x; reflexivity. Qed.

(** With checks enabled, [print_time_elapsed] with a [units] other than
    ["auto"] and the eight accepted names raises [ValueError] naming it,
    whatever the start time, and prints nothing. *)
Theorem print_time_elapsed_bad_units start_time lead_in units st :
  Options.checks_enabled st = (Ok true, st) ->
  units <> s "auto" ->
  Timer.in_list units [s "hours"; s "h"; s "minutes"; s "m"; s "milliseconds"; s "ms";
                       s "seconds"; s "s"] = false ->
  Timer.print_time_elapsed start_time lead_in units st =
  (Err (Exn ValueError (s "Unexpected value for argument `units`: " ++ units)), st).
Proof.
  intros He Ha Hu. unfold Timer.in_list in Hu. cbn [existsb] in Hu.
  repeat rewrite orb_false_iff in Hu.
  destruct Hu as (H1 & H2 & H3 & H4 & H5 & H6 & H7 & H8 & _).
  unfold Timer.print_time_elapsed. unfold bind at 1. rewrite He. cbn [negb].
  rewrite py_feq_nan. unfold bind, read, ret. cbv beta iota.
  rewrite (bool_decide_eq_false_2 _ Ha).
  unfold Timer.in_list. cbn [existsb]. rewrite H1, H2, H3, H4, H5, H6, H7, H8. reflexivity.
Qed.

(** With checks disabled, [start_timer] returns [np.nan] and
    [print_time_elapsed] does nothing, whatever their arguments. *)
Theorem timer_disabled verbose start_time lead_in units st :
  Options.checks_enabled st = (Ok false, st) ->
  Timer.start_timer verbose st = (Ok np_nan, st) /\
  Timer.print_time_elapsed start_time lead_in units st = (Ok tt, st).
Proof.
  intros He. unfold Timer.start_timer, Timer.print_time_elapsed, bind. rewrite He. split; reflexivity.
Qed.

(** With checks enabled, [start_timer(verbose=False)] returns the current
    time and prints nothing. *)
Theorem start_timer_quiet st :
  Options.checks_enabled st = (Ok true, st) ->
  Timer.start_timer false st = (Ok (PFin (clock st)), st).
Proof. intros He. unfold Timer.start_timer, bind. rewrite He. reflexivity. Qed.

End Timers.

Lemma print_time_elapsed_bad_units_witness :
  Timer.print_time_elapsed (PD := Demo.demo_pd) (PFin 90) None (s "days") Demo.st_init =
  (Err (Exn ValueError (s "Unexpected value for argument `units`: " ++ s "days")), Demo.st_init).
Proof.
  apply (print_time_elapsed_bad_units (PD := Demo.demo_pd) (PFin 90) None (s "days") Demo.st_init).
  - reflexivity.
  - intros H. vm_compute in H. congruence.
  - reflexivity.
Defined.

Lemma timer_disabled_witness :
  Timer.start_timer (PD := Demo.demo_pd) true Demo.st_off = (Ok np_nan, Demo.st_off) /\
  Timer.print_time_elapsed (PD := Demo.demo_pd) (PFin 90) None (s "auto") Demo.st_off =
    (Ok tt, Demo.st_off).
Proof.
  apply (timer_disabled (PD := Demo.demo_pd) true (PFin 90) None (s "auto") Demo.st_off).
  reflexivity.
Defined.

Lemma start_timer_quiet_witness :
  Timer.start_timer (PD := Demo.demo_pd) false Demo.st_init = (Ok (PFin 100), Demo.st_init).
Proof.
  apply (start_timer_quiet (PD := Demo.demo_pd) Demo.st_init).
  reflexivity.
Defined.

End TimerExtraProofs.

(* ------------------------------------------------------------------ *)
(** ** Routing printed text *)

Module RouterProofs.

Lemma get_option_state p st : snd (get_option p st) = st.
Proof.
  unfold get_option, single_key, bind, read. cbv beta iota.
  destruct (select_options p (opts st)) as [|k [|? ?]]; try reflexivity.
  unfold ret. destruct (opts st !! k); reflexivity.
Qed.

(** [_print_router] touches neither the data nor the options and only
    appends to the output; with [custom_print_fn_only=True] it never prints
    to standard output, and with [bypass_print_fn=True] it never calls the
    custom print function. *)
Theorem print_router_never text custom_print_fn_only text_for_print_fn
    bypass_print_fn st :
  let st' := snd (Display._print_router text custom_print_fn_only text_for_print_fn bypass_print_fn st) in
  heap st' = heap st /\ opts st' = opts st /\
  exists added, out st' = out st ++ added /\
    (custom_print_fn_only = true -> Forall (fun e => forall t, e <> Stdout t) added) /\
    (bypass_print_fn = true -> Forall (fun e => forall f p, e <> CustomPrint f p) added).
Proof.
  intros st'. subst st'. unfold Display._print_router, bind.
  pose proof (get_option_state (s "pdchecks.print_to_stdout") st) as G1.
  destruct (get_option _ st) as [[v1|e1] s1]; simpl in G1; subst s1.
  2:{ simpl. split; [reflexivity|split; [reflexivity|]]. exists []. rewrite app_nil_r.
      split; [reflexivity|split; intros; constructor]. }
  destruct (Options.opt_truthy v1 && negb custom_print_fn_only) eqn:Hs.
  - apply andb_prop in Hs as [_ Hs]. apply negb_true_iff in Hs.
    unfold emit, modify. cbv beta iota.
    set (s1 := set_out (out st ++ [Stdout text]) st).
    pose proof (get_option_state (s "pdchecks.custom_print_fn") s1) as G2.
    destruct (get_option _ s1) as [[v2|e2] s2]; simpl in G2; subst s2.
    + destruct v2; try (simpl; split; [reflexivity|split; [reflexivity|]];
        exists [Stdout text]; split; [reflexivity|split; [congruence|intros _; constructor;
          [discriminate|constructor]]]).
      destruct bypass_print_fn; simpl; split; try reflexivity; split; try reflexivity.
      * exists [Stdout text]. split; [reflexivity|split; [congruence|intros _; constructor;
          [discriminate|constructor]]].
      * eexists [Stdout text; _]. rewrite <- app_assoc. split; [reflexivity|split; [congruence|discriminate]].
    + simpl. split; [reflexivity|split; [reflexivity|]]. exists [Stdout text].
      split; [reflexivity|split; [congruence|intros _; constructor; [discriminate|constructor]]].
  - unfold ret. cbv beta iota.
    pose proof (get_option_state (s "pdchecks.custom_print_fn") st) as G2.
    destruct (get_option _ st) as [[v2|e2] s2]; simpl in G2; subst s2.
    + destruct v2; try (simpl; split; [reflexivity|split; [reflexivity|]];
        exists []; rewrite app_nil_r; split; [reflexivity|split; intros; constructor]).
      destruct bypass_print_fn; simpl; split; try reflexivity; split; try reflexivity.
      * exists []. rewrite app_nil_r. split; [reflexivity|split; intros; constructor].
      * eexists [_]. split; [reflexivity|split; [|discriminate]].
        intros _. constructor; [discriminate|constructor].
    + simpl. split; [reflexivity|split; [reflexivity|]]. exists []. rewrite app_nil_r.
      split; [reflexivity|split; intros; constructor].
Qed.

End RouterProofs.

(* ------------------------------------------------------------------ *)
(** ** Assertions with asserts enabled *)

Module AssertProofs.

Section Asserts.
Context `{PD : Pandas}.

(** With asserts enabled and [raise_exception=True], a condition that is
    falsy on the data makes [assert_data] raise [exception_to_raise] with
    the fail message, followed by the condition's source when
    [message_shows_condition] holds and that source is not empty. *)
Theorem assert_data_fail_raises self condition fail_message pass_message exception_to_raise
    message_shows_condition verbose st r st1 :
  Options.asserts_enabled st = (Ok true, st) ->
  condition self st = (Ok r, st1) ->
  Display.py_truthy r st1 = (Ok false, st1) ->
  let condition_str := RunChecks._lambda_to_string condition in
  DataFrameChecks.assert_data self condition fail_message pass_message VNone true
    exception_to_raise message_shows_condition verbose st =
  (Err (Exn exception_to_raise
          (fail_message ++ (if py_truthy_str condition_str && message_shows_condition
                            then s " :" ++ condition_str else []))), st1).
Proof.
  intros Ha Hc Hr cs. unfold DataFrameChecks.assert_data, bind. rewrite Ha. cbn [negb].
  unfold Display.py_truthy at 1, ret. cbv beta iota. rewrite Hc, Hr. reflexivity.
Qed.

(** With asserts enabled and [verbose=False], a condition that is truthy on
    the data makes [assert_data] return the data with no output besides
    the condition's own. *)
Theorem assert_data_pass_quiet self condition fail_message pass_message raise_exception
    exception_to_raise message_shows_condition st r st1 :
  Options.asserts_enabled st = (Ok true, st) ->
  condition self st = (Ok r, st1) ->
  Display.py_truthy r st1 = (Ok true, st1) ->
  DataFrameChecks.assert_data self condition fail_message pass_message VNone raise_exception
    exception_to_raise message_shows_condition false st = (Ok self, st1).
Proof.
  intros Ha Hc Hr. unfold DataFrameChecks.assert_data, bind. rewrite Ha. cbn [negb].
  unfold Display.py_truthy at 1, ret. cbv beta iota. rewrite Hc, Hr. reflexivity.
Qed.

(** With asserts enabled, [assert_nrows(nrows, raise_exception=True,
    verbose=False)] returns the data when [shape[0]] equals [nrows] and
    otherwise raises [exception_to_raise] with the fail message alone (the
    condition is a named function, not a lambda). *)
Theorem assert_nrows_decides self nrows fail_message pass_message exception_to_raise st t n :
  Options.asserts_enabled st = (Ok true, st) ->
  Display.as_table self st = (Ok (Some t), st) ->
  pd_call (s "shape[0]") [] t = Ok (VInt n) ->
  DataFrameChecks.assert_nrows self nrows fail_message pass_message true exception_to_raise
    false st =
  if Z.eqb n nrows then (Ok self, st) else (Err (Exn exception_to_raise fail_message), st).
Proof.
  intros Ha Ht Hn. unfold DataFrameChecks.assert_nrows, DataFrameChecks.assert_data, bind.
  rewrite Ha. cbn [negb]. unfold Display.py_truthy at 1, ret. cbv beta iota.
  unfold DataFrameChecks.nrows_eq, RunChecks.pd_method, bind. rewrite Ht. cbv beta iota.
  rewrite Hn. unfold RunChecks.lift, ret. cbv beta iota.
  destruct (Z.eqb n nrows); unfold DataFrameChecks._report_assert, bind, ret, raise; cbn;
    rewrite ?andb_false_r, ?app_nil_r; reflexivity.
Qed.

End Asserts.

Lemma assert_data_fail_raises_witness :
  DataFrameChecks.assert_data (PD := Demo.demo_pd) (VRef 0) (fun _ => ret (VBool false)) (s "F")
    (s "P") VNone true DataError true false Demo.st_init =
  (Err (Exn DataError (s "F" ++ s " :" ++ s "lambda df: df")), Demo.st_init).
Proof.
  apply (assert_data_fail_raises (PD := Demo.demo_pd) (VRef 0) (fun _ => ret (VBool false)) (s "F")
           (s "P") DataError true false Demo.st_init (VBool false) Demo.st_init).
  - reflexivity.
  - reflexivity.
  - reflexivity.
Defined.

Lemma assert_data_pass_quiet_witness :
  DataFrameChecks.assert_data (PD := Demo.demo_pd) (VRef 0) (fun _ => ret (VBool true)) (s "F")
    (s "P") VNone true DataError true false Demo.st_init = (Ok (VRef 0), Demo.st_init).
Proof.
  apply (assert_data_pass_quiet (PD := Demo.demo_pd) (VRef 0) (fun _ => ret (VBool true)) (s "F")
           (s "P") true DataError true Demo.st_init (VBool true) Demo.st_init).
  - reflexivity.
  - reflexivity.
  - reflexivity.
Defined.

Lemma assert_nrows_decides_witness :
  DataFrameChecks.assert_nrows (PD := Demo.rows_pd) (VRef 0) 3 (s "F") (s "P") true DataError
    false Demo.st_init = (Err (Exn DataError (s "F")), Demo.st_init).
Proof.
  apply (assert_nrows_decides (PD := Demo.rows_pd) (VRef 0) 3 (s "F") (s "P") DataError
           Demo.st_init Demo.df0 2).
  - reflexivity.
  - reflexivity.
  - reflexivity.
Defined.

End AssertProofs.

(* ------------------------------------------------------------------ *)
(** ** In a terminal, only plain output *)

Module TerminalProofs.
Import Observe Accessors.

Lemma tplain_ret {A} (a : A) : tplain (ret a).
Proof. intros st r st' [= _ <-] Ht. split; [exact Ht|]. exists []. rewrite app_nil_r. auto. Qed.
Lemma tplain_raise {A} k msg : tplain (@raise A k msg).
Proof. intros st r st' [= _ <-] Ht. split; [exact Ht|]. exists []. rewrite app_nil_r. auto. Qed.
Lemma tplain_read {A} (f : state -> A) : tplain (read f).
Proof. intros st r st' [= _ <-] Ht. split; [exact Ht|]. exists []. rewrite app_nil_r. auto. Qed.
Lemma tplain_set_opts o : tplain (modify (set_opts o)).
Proof. intros st r st' [= _ <-] Ht. split; [exact Ht|]. exists []. rewrite app_nil_r. auto. Qed.
Lemma tplain_emit e : plain e -> tplain (emit e).
Proof.
  intros He st r st' [= _ <-] Ht. split; [exact Ht|]. exists [e]. split; [reflexivity|].
  constructor; [exact He|constructor].
Qed.
Lemma tplain_bind {A B} (m : M A) (k : A -> M B) :
  tplain m -> (forall a, tplain (k a)) -> tplain (bind m k).
Proof.
  intros Hm Hk st r st' H Ht. unfold bind in H. destruct (m st) as [[a|e] s1] eqn:E.
  - destruct (Hm _ _ _ E Ht) as [Ht1 [a1 [Ho1 Hf1]]].
    destruct (Hk a _ _ _ H Ht1) as [Ht2 [a2 [Ho2 Hf2]]].
    split; [exact Ht2|]. exists (a1 ++ a2). rewrite Ho2, Ho1, app_assoc.
    split; [reflexivity|]. apply Forall_app; auto.
  - injection H as <- <-. exact (Hm _ _ _ E Ht).
Qed.
Lemma tplain_read_terminal {A} (k : bool -> M A) : tplain (k true) -> tplain (bind (read terminal) k).
Proof. intros Hk st r st' H Ht. unfold bind, read in H. rewrite Ht in H. exact (Hk _ _ _ H Ht). Qed.
Lemma tplain_catch {A} (m h : M A) : tplain m -> tplain h -> tplain (catch_option_error m h).
Proof.
  intros Hm Hh st r st' H Ht. unfold catch_option_error in H.
  destruct (m st) as [[x|[[] msg]] s1] eqn:E;
    try (injection H as <- <-; exact (Hm _ _ _ E Ht)).
  destruct (Hm _ _ _ E Ht) as [Ht1 [a1 [Ho1 Hf1]]].
  destruct (Hh _ _ _ H Ht1) as [Ht2 [a2 [Ho2 Hf2]]].
  split; [exact Ht2|]. exists (a1 ++ a2). rewrite Ho2, Ho1, app_assoc.
  split; [reflexivity|]. apply Forall_app; auto.
Qed.
Lemma tplain_seq_ (l : list (M unit)) : (forall m, In m l -> tplain m) -> tplain (Options.seq_ l).
Proof.
  induction l as [|m l IH]; intros Hl; simpl.
  - apply tplain_ret.
  - apply tplain_bind; [apply Hl; left; auto|]. intros _. apply IH. intros; apply Hl; right; auto.
Qed.
Lemma tplain_app (f : pyfn) v : ftplain f -> tplain (f v).
Proof. intros Hf; exact (Hf v). Qed.

Create HintDb tplain discriminated.
Hint Resolve tplain_ret tplain_raise tplain_read tplain_set_opts tplain_catch : tplain.
Hint Extern 1 (tplain (emit _)) => apply tplain_emit; exact I : tplain.
Hint Extern 0 (tplain (bind (read terminal) _)) =>
  apply tplain_read_terminal; cbv beta; cbn [negb]; rewrite ?andb_false_r : tplain.
Hint Extern 1 (tplain (bind _ _)) => apply tplain_bind : tplain.
Hint Extern 1 (tplain (if _ then _ else _)) =>
  match goal with |- tplain (if ?b then _ else _) => destruct b end : tplain.
Hint Extern 2 (tplain (match ?x with _ => _ end)) => destruct x : tplain.
Hint Extern 1 (tplain ((fun _ => _) _)) => cbv beta : tplain.
Hint Extern 3 (ftplain (fun _ => _)) => unfold ftplain; intro : tplain.
Hint Extern 1 (ftplain (if _ then _ else _)) =>
  match goal with |- ftplain (if ?b then _ else _) => destruct b end : tplain.
Hint Extern 4 (tplain (?f ?v)) => simple apply (tplain_app f v) : tplain.
Ltac tplain_auto := eauto 200 with tplain.

Lemma tplain_single_key p : tplain (single_key p).
Proof. unfold single_key. tplain_auto. Qed.
Hint Resolve tplain_single_key : tplain.
Lemma tplain_get_option p : tplain (get_option p).
Proof. unfold get_option. tplain_auto. Qed.
Lemma tplain_set_option p v : tplain (set_option p v).
Proof. unfold set_option. tplain_auto. Qed.
Lemma tplain_register_option k d v : tplain (register_option k d v).
Proof. unfold register_option. tplain_auto. Qed.
Hint Resolve tplain_get_option tplain_set_option tplain_register_option : tplain.
Lemma tplain_initialize_format_options o : tplain (Options._initialize_format_options o).
Proof.
  unfold Options._initialize_format_options. apply tplain_seq_.
  intros m Hm. apply in_map_iff in Hm as [[[n d] v] [<- _]].
  unfold Options._register_option. tplain_auto.
Qed.
Lemma tplain_set_format kw : tplain (Options.set_format kw).
Proof.
  unfold Options.set_format. apply tplain_seq_.
  intros m Hm. apply in_map_iff in Hm as [[a v] [<- _]]. unfold Options._set_option. tplain_auto.
Qed.
Hint Resolve tplain_initialize_format_options tplain_set_format : tplain.
Lemma tplain_reset_format : tplain Options.reset_format.
Proof. unfold Options.reset_format. tplain_auto. Qed.
Lemma tplain_get_mode : tplain Options.get_mode.
Proof. unfold Options.get_mode. tplain_auto. Qed.
Lemma tplain_checks_enabled : tplain Options.checks_enabled.
Proof. unfold Options.checks_enabled. tplain_auto. Qed.
Lemma tplain_asserts_enabled : tplain Options.asserts_enabled.
Proof. unfold Options.asserts_enabled. tplain_auto. Qed.
Lemma tplain_set_mode a b : tplain (Options.set_mode a b).
Proof. unfold Options.set_mode, Options._set_option. tplain_auto. Qed.
Hint Resolve tplain_reset_format tplain_get_mode tplain_checks_enabled tplain_asserts_enabled
  tplain_set_mode : tplain.

Section D.
Context `{PD : Pandas}.
Lemma tplain_as_table v : tplain (Display.as_table v).
Proof. unfold Display.as_table. tplain_auto. Qed.
Hint Resolve tplain_as_table : tplain.
Lemma tplain_py_str v : tplain (Display.py_str v).
Proof. unfold Display.py_str. tplain_auto. Qed.
Lemma tplain_py_truthy v : tplain (Display.py_truthy v).
Proof. unfold Display.py_truthy. tplain_auto. Qed.
Hint Resolve tplain_py_str tplain_py_truthy : tplain.
Lemma tplain_filter_emojis v : tplain (Display._filter_emojis v).
Proof. unfold Display._filter_emojis. tplain_auto. Qed.
Hint Resolve tplain_filter_emojis : tplain.
Lemma tplain_filter_str v : tplain (Display.filter_str v).
Proof. unfold Display.filter_str. tplain_auto. Qed.
Lemma tplain_print_router a b c d : tplain (Display._print_router a b c d).
Proof. unfold Display._print_router. tplain_auto. Qed.
Lemma tplain_colored a b c : tplain (Display.colored a b c).
Proof. unfold Display.colored. tplain_auto. Qed.
Hint Resolve tplain_filter_str tplain_print_router tplain_colored : tplain.
Lemma tplain_render_text a b c d e : tplain (Display._render_text a b c d e).
Proof. unfold Display._render_text. tplain_auto. Qed.
Hint Resolve tplain_render_text : tplain.
Lemma tplain_display_line a b c : tplain (Display._display_line a b c).
Proof. unfold Display._display_line. tplain_auto. Qed.
Lemma tplain_display_table_title a : tplain (Display._display_table_title a).
Proof. unfold Display._display_table_title. tplain_auto. Qed.
Lemma tplain_display_plot_title a : tplain (Display._display_plot_title a).
Proof. unfold Display._display_plot_title. tplain_auto. Qed.
Lemma tplain_print_table a b c : tplain (Display._print_table a b c).
Proof. unfold Display._print_table. tplain_auto. Qed.
Lemma tplain_display_plot : tplain Display._display_plot.
Proof. unfold Display._display_plot. tplain_auto. Qed.
Hint Resolve tplain_display_line tplain_display_table_title tplain_display_plot_title
  tplain_print_table tplain_display_plot : tplain.
Lemma tplain_display_check a b : tplain (Display._display_check a b).
Proof. unfold Display._display_check. tplain_auto. Qed.
Hint Resolve tplain_display_check : tplain.
Lemma tplain_start_timer v : tplain (Timer.start_timer v).
Proof. unfold Timer.start_timer. tplain_auto. Qed.
Lemma tplain_print_time_elapsed a b c : tplain (Timer.print_time_elapsed a b c).
Proof. unfold Timer.print_time_elapsed. tplain_auto. Qed.
Lemma tplain_lift {A} (r : res A) : tplain (RunChecks.lift r).
Proof. unfold RunChecks.lift. tplain_auto. Qed.
Hint Resolve tplain_lift : tplain.
Lemma tplain_pd_method n a : ftplain (RunChecks.pd_method n a).
Proof. intro v. unfold RunChecks.pd_method. tplain_auto. Qed.
Lemma tplain_getitem v k : tplain (RunChecks.getitem v k).
Proof. unfold RunChecks.getitem. tplain_auto. Qed.
Hint Resolve tplain_pd_method tplain_getitem : tplain.
Lemma tplain_apply_modifications d fn sub : ftplain fn -> tplain (RunChecks._apply_modifications d fn sub).
Proof. intros. unfold RunChecks._apply_modifications. tplain_auto. Qed.
Lemma tplain_identity : ftplain RunChecks.identity.
Proof. intro v. unfold RunChecks.identity. tplain_auto. Qed.
Hint Resolve tplain_apply_modifications tplain_identity : tplain.
Lemma tplain_check_data d cf mf sub n :
  ftplain cf -> ftplain mf -> tplain (RunChecks._check_data d cf mf sub n).
Proof. intros. unfold RunChecks._check_data. tplain_auto. Qed.
Lemma tplain_color_option k : tplain (RunChecks.color_option k).
Proof. unfold RunChecks.color_option. tplain_auto. Qed.
Hint Resolve tplain_check_data tplain_color_option : tplain.
Lemma tplain_has_nulls a b c d : tplain (RunChecks._has_nulls a b c d).
Proof. unfold RunChecks._has_nulls. tplain_auto. Qed.
Lemma tplain_is_type_condition d : ftplain (RunChecks.is_type_condition d).
Proof. intro v. unfold RunChecks.is_type_condition. tplain_auto. Qed.
End D.
Hint Resolve tplain_as_table tplain_py_str tplain_py_truthy tplain_filter_emojis tplain_filter_str
  tplain_print_router tplain_colored tplain_render_text
  tplain_display_line tplain_display_table_title tplain_display_plot_title tplain_print_table
  tplain_display_plot tplain_display_check
  tplain_start_timer tplain_print_time_elapsed tplain_lift tplain_pd_method tplain_getitem
  tplain_apply_modifications tplain_identity tplain_check_data tplain_color_option tplain_has_nulls
  tplain_is_type_condition : tplain.

Ltac tplain_unfold_head :=
  repeat (lazymatch goal with
          | |- tplain (bind _ _) => fail
          | |- tplain ?m => let m' := eval red in m in progress change (tplain m')
          end).
Ltac tplain_method := intros; tplain_unfold_head; tplain_auto.
Ltac tplain_split_forall :=
  repeat match goal with
         | H : Forall _ (_ :: _) |- _ => inversion_clear H
         | H : Forall _ [] |- _ => clear H
         end.

Section M.
Context `{PD : Pandas}.
Lemma tplain_report_assert a b c d e f g h : tplain (DataFrameChecks._report_assert a b c d e f g h).
Proof. unfold DataFrameChecks._report_assert. tplain_auto. Qed.
Hint Resolve tplain_report_assert : tplain.
Lemma tplain_df_assert_data self cond a b c d e f g :
  ftplain cond -> tplain (DataFrameChecks.assert_data self cond a b c d e f g).
Proof. intros. unfold DataFrameChecks.assert_data. tplain_auto. Qed.
Lemma tplain_nrows_eq m : tplain m -> ftplain (DataFrameChecks.nrows_eq m).
Proof. intros Hm v. unfold DataFrameChecks.nrows_eq. tplain_auto. Qed.
Hint Resolve tplain_df_assert_data tplain_nrows_eq : tplain.
Lemma tplain_df_assert_type self a b c d e f g : tplain (DataFrameChecks.assert_type self a b c d e f g).
Proof. unfold DataFrameChecks.assert_type, DataFrameChecks.join_names. tplain_auto. Qed.
Hint Resolve tplain_df_assert_type : tplain.
Lemma tplain_df_describe self fn a b c : ftplain fn -> tplain (DataFrameChecks.describe self fn a b c).
Proof. tplain_method. Qed.
Lemma tplain_df_get_mode self a : tplain (DataFrameChecks.get_mode self a).
Proof. tplain_method. Qed.
Lemma tplain_df_head self a fn b c : ftplain fn -> tplain (DataFrameChecks.head self a fn b c).
Proof. tplain_method. Qed.
Lemma tplain_df_tail self a fn b c : ftplain fn -> tplain (DataFrameChecks.tail self a fn b c).
Proof. tplain_method. Qed.
Lemma tplain_df_hist self fn a b c : ftplain fn -> tplain (DataFrameChecks.hist self fn a b c).
Proof. intros. unfold DataFrameChecks.hist, DataFrameChecks.py_len. tplain_auto. Qed.
Lemma tplain_df_memory_usage self fn a b c : ftplain fn -> tplain (DataFrameChecks.memory_usage self fn a b c).
Proof. tplain_method. Qed.
Lemma tplain_df_ndups self fn a b c : ftplain fn -> tplain (DataFrameChecks.ndups self fn a b c).
Proof. tplain_method. Qed.
Lemma tplain_df_nnulls self fn a b c : ftplain fn -> tplain (DataFrameChecks.nnulls self fn a b c).
Proof. tplain_method. Qed.
Lemma tplain_df_nrows self fn a b : ftplain fn -> tplain (DataFrameChecks.nrows self fn a b).
Proof. tplain_method. Qed.
Lemma tplain_df_plot self fn a b c : ftplain fn -> tplain (DataFrameChecks.plot self fn a b c).
Proof. tplain_method. Qed.
Lemma tplain_df_print self o fn a b c : ftplain fn -> tplain (DataFrameChecks.print self o fn a b c).
Proof. tplain_method. Qed.
Lemma tplain_df_write self p f fn a b c : ftplain fn -> tplain (DataFrameChecks.write self p f fn a b c).
Proof. intros. unfold DataFrameChecks.write, DataFrameChecks.export. tplain_auto. Qed.
End M.
Hint Resolve tplain_report_assert tplain_df_assert_data tplain_nrows_eq
  tplain_df_assert_type tplain_df_describe tplain_df_get_mode tplain_df_head tplain_df_tail tplain_df_hist
  tplain_df_memory_usage tplain_df_ndups tplain_df_nnulls tplain_df_nrows tplain_df_plot tplain_df_print
  tplain_df_write : tplain.

Section M3.
Context `{PD : Pandas}.
Lemma tplain_to_frame v : tplain (SeriesChecks.to_frame v).
Proof. unfold SeriesChecks.to_frame. tplain_auto. Qed.
Lemma tplain_framed v fn : ftplain fn -> tplain (SeriesChecks.framed v fn).
Proof. intros. unfold SeriesChecks.framed. eauto using tplain_to_frame with tplain. Qed.
Lemma tplain_name_or_series v : tplain (SeriesChecks.name_or_series v).
Proof. unfold SeriesChecks.name_or_series, SeriesChecks.series_name. tplain_auto. Qed.
Lemma tplain_sr_assert_data self cond a b c d e f :
  ftplain cond -> tplain (SeriesChecks.assert_data self cond a b c d e f).
Proof. tplain_method. Qed.
End M3.
Hint Resolve tplain_to_frame tplain_framed tplain_name_or_series tplain_sr_assert_data : tplain.

Section M4.
Context `{PD : Pandas}.
Lemma tplain_sr_run self c : Forall ftplain (sr_callables c) -> tplain (sr_run self c).
Proof. destruct c; simpl; intros Hf; tplain_split_forall; tplain_method. Qed.
End M4.

Section M5.
Context `{PD : Pandas}.
Lemma tplain_sr_nunique self fn a b : ftplain fn -> tplain (SeriesChecks.nunique self fn a b).
Proof. tplain_method. Qed.
Lemma tplain_sr_unique self fn a : ftplain fn -> tplain (SeriesChecks.unique self fn a).
Proof. tplain_method. Qed.
Lemma tplain_sr_value_counts self fn a b c : ftplain fn -> tplain (SeriesChecks.value_counts self fn a b c).
Proof. tplain_method. Qed.
Lemma tplain_on_column v k : (forall x, tplain (k x)) -> tplain (DataFrameColumnChecks.on_column v k).
Proof. intros. unfold DataFrameColumnChecks.on_column. tplain_auto. Qed.
Lemma tplain_export a b c : tplain (DataFrameChecks.export a b c).
Proof. unfold DataFrameChecks.export. tplain_auto. Qed.
Lemma tplain_py_len v : tplain (DataFrameChecks.py_len v).
Proof. unfold DataFrameChecks.py_len. tplain_auto. Qed.
End M5.
Hint Resolve tplain_sr_nunique tplain_sr_unique tplain_sr_value_counts tplain_on_column
  tplain_export tplain_py_len : tplain.

Section M7.
Context `{PD : Pandas}.
Lemma tplain_df_run self c : Forall ftplain (df_callables c) -> tplain (df_run self c).
Proof. destruct c; simpl; intros Hf; tplain_split_forall; tplain_method. Qed.
End M7.

(** In a terminal, every public method of the DataFrame and Series
    accessors, for every argument combination and with any options, only
    prints plain text (to standard output or to the custom print function)
    or writes files: it never shows HTML or Markdown, never draws a figure
    and never hands rich output to the custom print function, whether it
    returns or raises, provided the callables passed in do the same. *)
Theorem terminal_plain_output `{PD : Pandas} (c : check_call) (self : pyval) :
  Forall ftplain (callables c) -> tplain (run self c).
Proof. destruct c; simpl; [apply tplain_df_run | apply tplain_sr_run]. Qed.

Lemma terminal_plain_output_witness :
  Forall ftplain (callables (OnFrame (df_get_mode None))) /\
  tplain (run (PD := Demo.demo_pd) (VRef 0) (OnFrame (df_get_mode None))).
Proof.
  split; [simpl; constructor|].
  apply (terminal_plain_output (PD := Demo.demo_pd) (OnFrame (df_get_mode None)) (VRef 0)).
  simpl. constructor.
Defined.

End TerminalProofs.
